(** * Session lifecycle, OAuth exchange and session cleanup

    A shallow embedding of the two Netlify functions
    (cleanup-sessions, exchange-facebook-token) and of the session helpers of
    [src/lib/supabase.ts] and [src/lib/auth.ts], with the properties the
    specification states about them.

    JavaScript values are modelled by the type [JS.value]; asynchronous code
    is embedded in direct style (every [await] is sequential in the source),
    with exceptions and the observable state threaded through the small
    monad [JS.M]. *)

From Stdlib Require Import ZArith List String Bool Lia DecimalString.
Import ListNotations.

Local Open Scope string_scope.
Local Open Scope Z_scope.

(* ===================================================================== *)
(** ** JavaScript values, exceptions and the effect monad *)
(* ===================================================================== *)

Module JS.

(** JSON-like values. Numbers are restricted to integers: this code only
    counts, compares with [0] and multiplies timestamps. An object is the
    list of its members in insertion order; the first binding of a key is
    the one a property read sees. *)
#[local] Set Warnings "-register-all".
Inductive value : Type :=
| Undefined
| Null
| Bool (b : bool)
| Num (n : Z)
| Str (s : string)
| Arr (items : list value)
| Obj (members : list (string * value)).

(** The reply of [axios.get]: only [data] is read by the handlers. *)
Record axios_response : Type := { data : value }.

(** A thrown [Error] object. Every value this code can catch is one: axios
    rejects with an [AxiosError] (which may carry the [response]), the
    runtime raises [TypeError]s, and the sources themselves only
    [throw new Error(...)] or rethrow. *)
Record exn : Type := { message : string; response : option axios_response }.

Definition Error (msg : string) : exn := {| message := msg; response := None |}.

Definition string_of_nat (n : nat) : string :=
  NilEmpty.string_of_uint (Nat.to_uint n).

Definition string_of_Z (z : Z) : string :=
  NilEmpty.string_of_int (Z.to_int z).

(** [!!v] *)
Definition truthy (v : value) : bool :=
  match v with
  | Undefined | Null => false
  | Bool b => b
  | Num n => negb (n =? 0)
  | Str s => negb (s =? "")%string
  | Arr _ | Obj _ => true
  end.

Definition nullish (v : value) : bool :=
  match v with
  | Undefined | Null => true
  | _ => false
  end.

Fixpoint lookup (k : string) (ms : list (string * value)) : option value :=
  match ms with
  | [] => None
  | (k', v) :: rest => if (k' =? k)%string then Some v else lookup k rest
  end.

(** [v.k] for a [v] that is neither [null] nor [undefined]. Of the built-in
    properties only [length] is modelled; no other name read by the sources
    is a built-in data property ([forEach] is handled where it is called). *)
Definition prop (v : value) (k : string) : value :=
  match v with
  | Obj ms => match lookup k ms with Some x => x | None => Undefined end
  | Arr l => if (k =? "length")%string then Num (Z.of_nat (List.length l)) else Undefined
  | Str s => if (k =? "length")%string then Num (Z.of_nat (String.length s)) else Undefined
  | _ => Undefined
  end.

(** [v?.k] *)
Definition optprop (v : value) (k : string) : value :=
  if nullish v then Undefined else prop v k.

(** [a || b] *)
Definition or_else (a b : value) : value := if truthy a then a else b.

Definition type_name (v : value) : string :=
  match v with Null => "null" | _ => "undefined" end.

(** The [TypeError] of a property read on [null] or [undefined] (V8's
    wording). *)
Definition TypeError_read (v : value) (k : string) : exn :=
  Error ("Cannot read properties of " ++ type_name v ++ " (reading '" ++ k ++ "')").

(** What [JSON.stringify] keeps of a value: members whose value is
    [undefined] are omitted, [undefined] array items become [null]. A
    response body is kept as this document rather than as its text. *)
Fixpoint json (v : value) : value :=
  match v with
  | Arr l =>
      Arr (List.map (fun x => match x with Undefined => Null | _ => json x end) l)
  | Obj ms =>
      Obj ((fix members (ms : list (string * value)) : list (string * value) :=
              match ms with
              | [] => []
              | (k, Undefined) :: rest => members rest
              | (k, x) :: rest => (k, json x) :: members rest
              end) ms)
  | _ => v
  end.

(** Object literal with a later duplicate key: the value is replaced in
    place, a new key is appended. *)
Fixpoint obj_set (k : string) (v : value) (ms : list (string * value))
  : list (string * value) :=
  match ms with
  | [] => [(k, v)]
  | (k', x) :: rest =>
      if (k' =? k)%string then (k', v) :: rest else (k', x) :: obj_set k v rest
  end.

Fixpoint indexed (i : nat) (l : list value) : list (string * value) :=
  match l with
  | [] => []
  | x :: rest => (string_of_nat i, x) :: indexed (S i) rest
  end.

Fixpoint chars (s : string) : list value :=
  match s with
  | EmptyString => []
  | String c rest => Str (String c EmptyString) :: chars rest
  end.

(** The own enumerable properties copied by [{...v}]. *)
Definition spread (v : value) : list (string * value) :=
  match v with
  | Obj ms => ms
  | Arr l => indexed 0 l
  | Str s => indexed 0 (chars s)
  | _ => []
  end.

(** *** State and exceptions

    A computation runs in a state [S] (the part of the outside world it can
    observe or change) and either returns or throws. The state survives a
    throw, as side effects do in JavaScript. *)
Definition M (S A : Type) : Type := S -> (exn + A) * S.

Definition ret {S A} (a : A) : M S A := fun s => (inr a, s).

Definition throw {S A} (e : exn) : M S A := fun s => (inl e, s).

Definition bind {S A B} (m : M S A) (f : A -> M S B) : M S B :=
  fun s =>
    match m s with
    | (inr a, s') => f a s'
    | (inl e, s') => (inl e, s')
    end.

(** [try { m } catch (e) { h e }] *)
Definition try_catch {S A} (m : M S A) (h : exn -> M S A) : M S A :=
  fun s =>
    match m s with
    | (inr a, s') => (inr a, s')
    | (inl e, s') => h e s'
    end.

(** [v.k], throwing on [null] and [undefined]. *)
Definition get {S} (v : value) (k : string) : M S value :=
  if nullish v then throw (TypeError_read v k) else ret (prop v k).

(** [console.log] and friends: the arguments are evaluated by the caller,
    the output itself is not observable by any claim. *)
Definition console_log {S} (_ : value) : M S unit := ret tt.

(** *** Coercions and string tests *)

(** [String(v)], which is also what a template literal does. *)
Fixpoint to_string (v : value) : string :=
  match v with
  | Undefined => "undefined"
  | Null => "null"
  | Bool true => "true"
  | Bool false => "false"
  | Num n => string_of_Z n
  | Str s => s
  | Arr l =>
      (fix join (l : list value) : string :=
         match l with
         | [] => ""
         | x :: rest =>
             let item := match x with
                         | Undefined | Null => ""
                         | _ => to_string x
                         end in
             match rest with
             | [] => item
             | _ :: _ => item ++ "," ++ join rest
             end
         end) l
  | Obj _ => "[object Object]"
  end.

(** White space that [Number(s)] skips around a numeral (the ASCII part of
    it: tab, line feed, vertical tab, form feed, carriage return, space). *)
Definition is_space (c : Ascii.ascii) : bool :=
  let n := Ascii.nat_of_ascii c in
  (n =? 32)%nat || ((9 <=? n)%nat && (n <=? 13)%nat).

Fixpoint trim_start (s : string) : string :=
  match s with
  | String c rest => if is_space c then trim_start rest else s
  | EmptyString => EmptyString
  end.

Fixpoint trim_end (s : string) : string :=
  match s with
  | String c rest =>
      match trim_end rest with
      | EmptyString => if is_space c then EmptyString else String c EmptyString
      | kept => String c kept
      end
  | EmptyString => EmptyString
  end.

(** The value of a string of decimal digits, read after [acc]. *)
Fixpoint digits_value (acc : Z) (s : string) : option Z :=
  match s with
  | EmptyString => Some acc
  | String c rest =>
      let n := Z.of_nat (Ascii.nat_of_ascii c) in
      if (48 <=? n) && (n <=? 57) then digits_value (10 * acc + (n - 48)) rest
      else None
  end.

Definition numeral (s : string) : option Z :=
  match s with
  | EmptyString => None
  | _ => digits_value 0 s
  end.

(** [Number(s)] for a string, [None] being [NaN]: white space around an
    optionally signed decimal numeral, the empty string counting as 0.
    Numbers are integers here, so a numeral with a fraction, an exponent or
    a radix prefix has no value and is read as [NaN], as is [Infinity]. *)
Definition number_of_string (s : string) : option Z :=
  match trim_end (trim_start s) with
  | EmptyString => Some 0
  | String c rest as t =>
      let n := Ascii.nat_of_ascii c in
      if (n =? 43)%nat then numeral rest                          (* + *)
      else if (n =? 45)%nat then option_map Z.opp (numeral rest)  (* - *)
      else numeral t
  end.

(** [Number(v)], which is what [v * 1000] does to [v]; [None] is [NaN]. An
    array goes through its string. *)
Definition to_number (v : value) : option Z :=
  match v with
  | Undefined => None
  | Null => Some 0
  | Bool b => Some (if b then 1 else 0)
  | Num n => Some n
  | Str s => number_of_string s
  | Arr _ => number_of_string (to_string v)
  | Obj _ => None
  end.

(** [v === s] for a string literal [s]. *)
Definition is_string (s : string) (v : value) : bool :=
  match v with
  | Str s' => (s' =? s)%string
  | _ => false
  end.

(** [v === true] *)
Definition is_true (v : value) : bool :=
  match v with
  | Bool b => b
  | _ => false
  end.

(** [s.includes(sub)] *)
Fixpoint includes (sub s : string) : bool :=
  String.prefix sub s ||
  match s with
  | EmptyString => false
  | String _ rest => includes sub rest
  end.

End JS.

Import JS.

Declare Scope js_scope.
Delimit Scope js_scope with js.
Notation "x <- m ;; k" := (JS.bind m (fun x => k))
  (at level 61, m at next level, right associativity) : js_scope.
Notation "m ;;; k" := (JS.bind m (fun _ => k))
  (at level 61, right associativity) : js_scope.
Local Open Scope js_scope.

(** CORS headers, the same object literal in both functions. *)
Definition cors_headers : list (string * string) :=
  [ ("Access-Control-Allow-Origin", "*");
    ("Access-Control-Allow-Headers", "Content-Type");
    ("Access-Control-Allow-Methods", "GET, POST, OPTIONS") ].

(** What a Netlify handler returns. [body] is the document passed to
    [JSON.stringify], absent in the preflight reply. *)
Record Response : Type := {
  statusCode : Z;
  headers : list (string * string);
  body : option value
}.

(** The part of the Netlify event the handlers read. *)
Record Event : Type := {
  httpMethod : string;
  queryStringParameters : option (list (string * string))
}.

(* ===================================================================== *)
(** ** netlify/functions/cleanup-sessions *)
(* ===================================================================== *)

Module CleanupSessions.

(** A row of [user_sessions]. Timestamps are milliseconds since the epoch
    (the resolution of [toISOString]); [expires_at] may be SQL NULL, which
    no comparison selects. *)
Record session_row : Type := {
  row_id : Z;
  expires_at : option Z
}.

(** The world the function runs in: the wall clock as the sequence of
    values successive [new Date()] calls observe, the number of such calls
    made so far, the table, and whether the store answers the next request
    with an error. *)
Record World : Type := {
  clock : nat -> Z;
  date_reads : nat;
  user_sessions : list session_row;
  store_error : option exn
}.

(** [process.env] as read at module load. *)
Record Env : Type := {
  VITE_SUPABASE_URL : option string;
  SUPABASE_SERVICE_KEY : option string
}.

Definition env_set (x : option string) : bool :=
  match x with
  | Some s => negb (s =? "")%string
  | None => false
  end.

(** [supabase] is a client only when both variables are set, else [null]. *)
Definition supabase (env : Env) : bool :=
  env_set (VITE_SUPABASE_URL env) && env_set (SUPABASE_SERVICE_KEY env).

(** [new Date().toISOString()]: one reading of the clock. *)
Definition Date_now : M World Z :=
  fun w =>
    (inr (clock w (date_reads w)),
     {| clock := clock w; date_reads := S (date_reads w);
        user_sessions := user_sessions w; store_error := store_error w |}).

(** [expires_at < now] as the store evaluates it. *)
Definition lt_expires_at (now : Z) (r : session_row) : bool :=
  match expires_at r with
  | Some t => t <? now
  | None => false
  end.

(** The reply [{ data, error }] of the query builder. *)
Record Reply : Type := {
  reply_data : option (list session_row);
  reply_error : option exn
}.

(** [supabase.from('user_sessions').delete().lt('expires_at', now).select()]:
    one request; on success the selected rows leave the table and come back
    as [data]. *)
Definition delete_lt_select (now : Z) : M World Reply :=
  fun w =>
    match store_error w with
    | Some e => (inr {| reply_data := None; reply_error := Some e |}, w)
    | None =>
        (inr {| reply_data := Some (filter (lt_expires_at now) (user_sessions w));
                reply_error := None |},
         {| clock := clock w; date_reads := date_reads w;
            user_sessions := filter (fun r => negb (lt_expires_at now r)) (user_sessions w);
            store_error := None |})
    end.

Definition cleanupExpiredSessions (env : Env) : M World nat :=
  try_catch
    (if negb (supabase env) then throw (Error "Database connection not available")
     else
       now <- Date_now ;;
       reply <- delete_lt_select now ;;
       match reply_error reply with
       | Some error => throw error
       | None =>
           match reply_data reply with
           | Some data => ret (List.length data)
           | None => throw (TypeError_read Null "length")
           end
       end)
    (fun error => throw error).

Definition handler (env : Env) (event : Event) : M World Response :=
  if (httpMethod event =? "OPTIONS")%string then
    ret {| statusCode := 204; headers := cors_headers; body := None |}
  else
    try_catch
      (cleanedCount <- cleanupExpiredSessions env ;;
       ret {| statusCode := 200; headers := cors_headers;
              body := Some (json (Obj
                [ ("status", Str "success");
                  ("message", Str ("Cleaned up " ++ string_of_nat cleanedCount
                                   ++ " expired sessions")) ])) |})
      (fun error =>
         ret {| statusCode := 500; headers := cors_headers;
                body := Some (json (Obj
                  [ ("status", Str "error");
                    ("message", Str "Error cleaning up sessions");
                    ("error", Str (message error)) ])) |}).

End CleanupSessions.

(* ===================================================================== *)
(** ** netlify/functions/exchange-facebook-token *)
(* ===================================================================== *)

Module ExchangeFacebookToken.

(** One call of [axios.get(url, { params, timeout })]. *)
Record Request : Type := {
  url : string;
  params : list (string * value);
  timeout : option Z
}.

(** The Graph API as the function sees it: every request either resolves
    with a response or rejects. *)
Definition Network : Type := Request -> exn + axios_response.

(** The state of an invocation is the list of requests it has sent. *)
Definition Sent : Type := list Request.

Definition axios_get (net : Network) (req : Request) : M Sent axios_response :=
  fun sent => (net req, (sent ++ [req])%list).

Record Env : Type := {
  VITE_META_APP_ID : option string;
  META_APP_SECRET : option string
}.

(** A string that may be missing, as the JavaScript value it is. *)
Definition opt_str (x : option string) : value :=
  match x with
  | Some s => Str s
  | None => Undefined
  end.

Fixpoint query_get (k : string) (q : list (string * string)) : option string :=
  match q with
  | [] => None
  | (k', v) :: rest => if (k' =? k)%string then Some v else query_get k rest
  end.

(** [event.queryStringParameters?.code] *)
Definition code_of (event : Event) : value :=
  match queryStringParameters event with
  | None => Undefined
  | Some q => opt_str (query_get "code" q)
  end.

(** [e.response?.data] *)
Definition response_data (e : exn) : value :=
  match response e with
  | Some r => data r
  | None => Undefined
  end.

Definition redirectUri : string := "https://crt-tech.org/oauth/facebook/callback".

Definition tokenExchangeUrl : string :=
  "https://graph.facebook.com/v18.0/oauth/access_token".

Definition token_request (appId appSecret code : value) : Request :=
  {| url := tokenExchangeUrl;
     params := [ ("client_id", appId); ("redirect_uri", Str redirectUri);
                 ("client_secret", appSecret); ("code", code) ];
     timeout := Some 10000 |}.

Definition pages_request (access_token : value) : Request :=
  {| url := "https://graph.facebook.com/v18.0/me/accounts";
     params := [ ("access_token", access_token);
                 ("fields", Str "id,name,access_token,category,tasks") ];
     timeout := None |}.

Definition user_request (access_token : value) : Request :=
  {| url := "https://graph.facebook.com/v18.0/me";
     params := [ ("access_token", access_token);
                 ("fields", Str "id,name,email,accounts") ];
     timeout := None |}.

Definition permissions_request (access_token : value) : Request :=
  {| url := "https://graph.facebook.com/v18.0/me/permissions";
     params := [ ("access_token", access_token) ];
     timeout := None |}.

Definition is_array (v : value) : bool :=
  match v with
  | Arr _ => true
  | _ => false
  end.

Fixpoint forEach {S} (l : list value) (f : value -> M S unit) : M S unit :=
  match l with
  | [] => ret tt
  | x :: rest => f x ;;; forEach rest f
  end.

(** The callback of [pages.forEach]: the properties it reads for the log. *)
Definition log_page (page : value) : M Sent unit :=
  id <- get page "id" ;;
  name <- get page "name" ;;
  category <- get page "category" ;;
  tasks <- get page "tasks" ;;
  token <- get page "access_token" ;;
  console_log (Obj [ ("id", id); ("name", name); ("category", category);
                     ("hasTasks", Bool (is_array tasks));
                     ("tasksCount", if is_array tasks then prop tasks "length" else Num 0);
                     ("hasPageToken", Bool (truthy token)) ]).

(** First diagnostic of the empty case: [GET /me], logged, errors logged. *)
Definition diagnose_user (net : Network) (access_token : value) : M Sent unit :=
  try_catch
    (userResponse <- axios_get net (user_request access_token) ;;
     id <- get (data userResponse) "id" ;;
     name <- get (data userResponse) "name" ;;
     email <- get (data userResponse) "email" ;;
     accounts <- get (data userResponse) "accounts" ;;
     console_log (Obj [ ("id", id); ("name", name);
                        ("hasEmail", Bool (truthy email));
                        ("hasAccounts", Bool (truthy accounts));
                        ("accountsCount",
                         or_else (optprop (optprop accounts "data") "length") (Num 0)) ]))
    (fun userError =>
       console_log (or_else (response_data userError) (Str (message userError)))).

(** Second diagnostic: [GET /me/permissions]. *)
Definition diagnose_permissions (net : Network) (access_token : value) : M Sent unit :=
  try_catch
    (permissionsResponse <- axios_get net (permissions_request access_token) ;;
     granted <- get (data permissionsResponse) "data" ;;
     console_log granted)
    (fun permError =>
       console_log (or_else (response_data permError) (Str (message permError)))).

(** The body of the inner [try]: fetch the pages, log, answer 200. *)
Definition fetch_pages (net : Network) (tokenData : value) (access_token : value)
  : M Sent Response :=
  pagesResponse <- axios_get net (pages_request access_token) ;;
  listed <- get (data pagesResponse) "data" ;;
  let pages := or_else listed (Arr []) in
  length <- get pages "length" ;;
  paging <- get (data pagesResponse) "paging" ;;
  console_log (Obj [ ("paging", or_else paging (Str "No paging info"));
                     ("hasData", Bool (is_array pages));
                     ("pageCount", if is_array pages then length else Num 0) ]) ;;;
  (match length with
   | Num 0 =>
       diagnose_user net access_token ;;;
       diagnose_permissions net access_token
   | _ =>
       match pages with
       | Arr l => forEach l log_page
       | _ => throw (Error "pages.forEach is not a function")
       end
   end) ;;;
  expires_in <- get tokenData "expires_in" ;;
  ret {| statusCode := 200; headers := cors_headers;
         body := Some (json (Obj [ ("accessToken", access_token);
                                   ("expiresIn", expires_in);
                                   ("pages", pages) ])) |}.

(** The inner [catch (pagesError)]: the token is still returned. *)
Definition pages_failed (tokenData : value) (access_token : value) (pagesError : exn)
  : M Sent Response :=
  console_log (or_else (response_data pagesError) (Str (message pagesError))) ;;;
  (if truthy (optprop (response_data pagesError) "error")
   then console_log (optprop (response_data pagesError) "error")
   else ret tt) ;;;
  expires_in <- get tokenData "expires_in" ;;
  ret {| statusCode := 200; headers := cors_headers;
         body := Some (json (Obj
           [ ("accessToken", access_token);
             ("expiresIn", expires_in);
             ("pages", Arr []);
             ("pagesError", Str "Failed to fetch pages");
             ("errorDetails", or_else (optprop (response_data pagesError) "error")
                                      (Str (message pagesError))) ])) |}.

(** The outer [catch (error)]. *)
Definition exchange_failed (error : exn) : M Sent Response :=
  console_log (or_else (response_data error) (Str (message error))) ;;;
  ret {| statusCode := 500; headers := cors_headers;
         body := Some (json (Obj
           [ ("error",
              or_else (or_else (optprop (optprop (response_data error) "error") "message")
                               (Str (message error)))
                      (Str "Server error during token exchange")) ])) |}.

Definition handler (env : Env) (net : Network) (event : Event) : M Sent Response :=
  if (httpMethod event =? "OPTIONS")%string then
    ret {| statusCode := 204; headers := cors_headers; body := None |}
  else
    let code := code_of event in
    if negb (truthy code) then
      ret {| statusCode := 400; headers := cors_headers;
             body := Some (json (Obj [ ("error", Str "Missing code parameter") ])) |}
    else
      let appId := opt_str (VITE_META_APP_ID env) in
      let appSecret := opt_str (META_APP_SECRET env) in
      if negb (truthy appId) || negb (truthy appSecret) then
        ret {| statusCode := 500; headers := cors_headers;
               body := Some (json (Obj [ ("error", Str "Server configuration error") ])) |}
      else
        try_catch
          (response <- axios_get net (token_request appId appSecret code) ;;
           let tokenData := data response in
           access_token <- get tokenData "access_token" ;;
           if negb (truthy access_token) then
             ret {| statusCode := 400; headers := cors_headers;
                    body := Some (json (Obj
                      [ ("error", Str "Failed to retrieve access token") ])) |}
           else
             try_catch (fetch_pages net tokenData access_token)
                       (pages_failed tokenData access_token))
          exchange_failed.

(** Running one invocation: the response and the requests sent, in order. *)
Definition run (env : Env) (net : Network) (event : Event) : (exn + Response) * Sent :=
  handler env net event [].

End ExchangeFacebookToken.

(* ===================================================================== *)
(** ** src/lib/supabase.ts *)
(* ===================================================================== *)

Module SupabaseLib.

(** *** Session lookup with a time limit and with retries *)

(** How one call of [supabase.auth.getSession()] ends: it resolves or
    rejects some milliseconds after it was started, or never settles. *)
Inductive Settlement : Type :=
| Resolves (after : N) (result : value)
| Rejects (after : N) (error : exn)
| Pending.

(** The auth service during one run: the settlement of the first, second,
    ... call. *)
Definition AuthService : Type := nat -> Settlement.

(** What is recorded of a run, for the statements only: the outcome of each
    attempt and the delay of each [setTimeout] that was awaited. *)
Inductive Step : Type :=
| Attempted (outcome : exn + value)
| Waited (ms : Z).

(** The state of a run: the clock that [Date.now()] reads (timers fire
    exactly when due), the number of lookups started, and the record. *)
Record Timeline : Type := {
  now : Z;
  calls : nat;
  history : list Step
}.

Definition Date_now : M Timeline Z := fun t => (inr (now t), t).

(** The largest delay a timer takes, in milliseconds: [2^31 - 1]. *)
Definition TIMEOUT_MAX : Z := 2147483647.

(** How long a timer set by [setTimeout(f, ms)] runs: a delay below 1 or
    above [TIMEOUT_MAX] is set to 1. *)
Definition timer_delay (ms : Z) : Z :=
  if (1 <=? ms) && (ms <=? TIMEOUT_MAX) then ms else 1.

(** [await new Promise(resolve => setTimeout(resolve, ms))] *)
Definition sleep (ms : Z) : M Timeline unit :=
  fun t =>
    (inr tt, {| now := now t + timer_delay ms; calls := calls t;
                history := (history t ++ [Waited ms])%list |}).

Definition timed_out (timeoutMs : Z) : exn :=
  Error ("Session check timed out after " ++ string_of_Z timeoutMs ++ "ms").

(** The race of [getSessionWithTimeout]: the lookup against the timer. The
    lookup wins when it settles strictly before the timer is due. *)
Definition race (timeoutMs : Z) (s : Settlement) : Z * (exn + value) :=
  let due := timer_delay timeoutMs in
  match s with
  | Resolves after result =>
      if Z.of_N after <? due then (Z.of_N after, inr result)
      else (due, inl (timed_out timeoutMs))
  | Rejects after error =>
      if Z.of_N after <? due then (Z.of_N after, inl error)
      else (due, inl (timed_out timeoutMs))
  | Pending => (due, inl (timed_out timeoutMs))
  end.

Definition getSessionWithTimeout (auth : AuthService) (timeoutMs : Z) : M Timeline value :=
  fun t =>
    let (took, outcome) := race timeoutMs (auth (calls t)) in
    (outcome, {| now := now t + took; calls := S (calls t);
                 history := (history t ++ [Attempted outcome])%list |}).

(** [result?.data?.session] *)
Definition session_of (result : value) : value :=
  optprop (optprop result "data") "session".

(** How one pass through the loop body ends: [return result], or on to
    the next test of the loop condition with the updated [lastError]. *)
Inductive Pass : Type :=
| Return (result : value)
| Continue (lastError : option exn).

(** The body of the [while] loop. *)
Definition attempt_once (auth : AuthService) (initialDelayMs attempt : Z)
    (lastError : option exn) : M Timeline Pass :=
  try_catch
    (result <- getSessionWithTimeout auth 5000 ;;
     if truthy (session_of result) then ret (Return result)
     else
       let delay := Z.min (initialDelayMs * attempt) 2000 in
       sleep delay ;;;
       ret (Continue lastError))
    (fun error =>
       sleep initialDelayMs ;;;
       ret (Continue (Some error))).

Definition gave_up (maxTimeMs : Z) : exn :=
  Error ("Session check failed after " ++ string_of_Z maxTimeMs ++ "ms").

(** The [while] loop, with a bound on the number of passes; [None] when
    the bound is reached before the loop ends. *)
Fixpoint retry_loop (fuel : nat) (auth : AuthService)
    (startTime maxTimeMs initialDelayMs attempt : Z) (lastError : option exn)
  : M Timeline (option value) :=
  match fuel with
  | O => ret None
  | S fuel' =>
      t <- Date_now ;;
      if t - startTime <? maxTimeMs then
        pass <- attempt_once auth initialDelayMs attempt lastError ;;
        match pass with
        | Return result => ret (Some result)
        | Continue lastError' =>
            retry_loop fuel' auth startTime maxTimeMs initialDelayMs (attempt + 1) lastError'
        end
      else
        throw (match lastError with
               | Some e => e
               | None => gave_up maxTimeMs
               end)
  end.

Definition getSessionWithRetry (fuel : nat) (auth : AuthService)
    (maxTimeMs initialDelayMs : Z) : M Timeline (option value) :=
  startTime <- Date_now ;;
  retry_loop fuel auth startTime maxTimeMs initialDelayMs 1 None.

(** A run from a fresh record, the clock reading [t0]. *)
Definition fresh (t0 : Z) : Timeline := {| now := t0; calls := 0; history := [] |}.

(** *** Token refresh *)

(** The auth client as [refreshSupabaseToken] can affect it: the session it
    caches and the refresh requests it has sent. *)
Record Client : Type := {
  cached_session : value;
  refreshes : nat
}.

(** [navigator]: absent outside a browser, else its [onLine] flag. *)
Definition Navigator : Type := option bool.

(** The largest time value of a [Date], in milliseconds. *)
Definition max_time_value : Z := 8640000000000000.

(** [new Date(seconds * 1000).toISOString()], which throws a [RangeError]
    on an invalid date. [expires_at] is [number | undefined] in the
    client library's [Session]; any other value is coerced by the
    multiplication. The text itself is only logged. *)
Definition toISOString_of_seconds {S} (seconds : value) : M S unit :=
  let time_value :=
    match to_number seconds with
    | Some n => Some (n * 1000)
    | None => None
    end in
  match time_value with
  | Some ms =>
      if Z.abs ms <=? max_time_value then ret tt
      else throw (Error "Invalid time value")
  | None => throw (Error "Invalid time value")
  end.

(** [supabase.auth.refreshSession()]: the library sends one refresh request
    and settles; [lib] is what it does, from the session it holds to the
    outcome and the session it holds afterwards. *)
Definition RefreshBehaviour : Type := value -> (exn + value) * value.

Definition auth_refreshSession (lib : RefreshBehaviour) : M Client value :=
  fun c =>
    let (outcome, held) := lib (cached_session c) in
    (outcome, {| cached_session := held; refreshes := S (refreshes c) |}).

Definition refreshSupabaseToken (navigator : Navigator)
    (refreshSession : M Client value) : M Client bool :=
  try_catch
    (match navigator with
     | Some false => ret false
     | _ =>
         reply <- refreshSession ;;
         data <- get reply "data" ;;
         error <- get reply "error" ;;
         if truthy error then ret false
         else
           session <- get data "session" ;;
           if negb (truthy session) then ret false
           else
             expires_at <- get session "expires_at" ;;
             toISOString_of_seconds expires_at ;;;
             ret true
     end)
    (fun error => ret false).

(** *** The client and the connectivity check *)

(** [import.meta.env] as the module reads it. *)
Record Config : Type := {
  supabaseUrl : option string;
  supabaseAnonKey : option string
}.

(** [!supabaseUrl || !supabaseAnonKey] *)
Definition missing_config (cfg : Config) : bool :=
  match supabaseUrl cfg, supabaseAnonKey cfg with
  | Some url, Some key => (url =? "")%string || (key =? "")%string
  | _, _ => true
  end.

(** [new Error('Supabase not configured')] as a value read by its
    [message]. *)
Definition not_configured : value := Obj [ ("message", Str "Supabase not configured") ].

(** What the mock client's [auth.getSession], [auth.getUser] and
    [auth.refreshSession] resolve with (the two differ in the name of the
    member of [data], which is [null] in both). *)
Definition mock_session_reply : value :=
  Obj [ ("data", Obj [ ("session", Null) ]); ("error", not_configured) ].

(** What the mock client's [rpc] and the members of its [from()] return. *)
Definition mock_data_reply : value :=
  Obj [ ("data", Null); ("error", not_configured) ].

(** The mock client's [auth.getSession] as a service for the retry loop: it
    resolves at once. *)
Definition mock_auth : AuthService := fun _ => Resolves 0 mock_session_reply.

(** The requests [checkSupabaseDB] sends. *)
Inductive DbCall : Type :=
| Ping
| SessionCheck.

(** The backend during one call of [checkSupabaseDB]: how [rpc('ping')] and
    [auth.getSession()] settle. *)
Record Database : Type := {
  rpc_ping : exn + value;
  db_getSession : exn + value
}.

(** [{ success, error? }] *)
Record CheckResult : Type := {
  success : bool;
  failure : option string
}.

Definition db_request (c : DbCall) (settles : exn + value) : M (list DbCall) value :=
  fun sent => (settles, (sent ++ [c])%list).

(** The inner [try] of [checkSupabaseDB]: [true] when it has returned
    [{ success: true }], [false] when control goes on to the fallback. *)
Definition ping_succeeds (db : Database) : M (list DbCall) bool :=
  try_catch
    (reply <- db_request Ping (rpc_ping db) ;;
     data <- get reply "data" ;;
     error <- get reply "error" ;;
     if negb (truthy error) && is_true data then ret true
     else
       console_log (optprop error "message") ;;;
       ret false)
    (fun pingError => console_log (Str (message pingError)) ;;; ret false).

Definition checkSupabaseDB (cfg : Config) (db : Database) : M (list DbCall) CheckResult :=
  try_catch
    (if missing_config cfg then
       ret {| success := false; failure := Some "Supabase not configured" |}
     else
       pinged <- ping_succeeds db ;;
       if pinged then ret {| success := true; failure := None |}
       else
         reply <- db_request SessionCheck (db_getSession db) ;;
         error <- get reply "error" ;;
         if truthy error then
           ret {| success := false;
                  failure := Some ("Session check failed: " ++ to_string (prop error "message")) |}
         else ret {| success := true; failure := None |})
    (fun error =>
       ret {| success := false;
              failure := Some ("Connection check exception: " ++ message error) |}).

(** How [supabase.auth.signOut()] settles: it rejects, or resolves with
    [{ error }] where [error] is [null] or an [AuthError]. *)
Definition SignOut : Type := exn + option exn.

(** The number of [signOut] requests sent is the state. *)
Definition auth_signOut (settles : SignOut) : M nat (option exn) :=
  fun sent => (settles, S sent).

Definition clearSupabaseAuth (settles : SignOut) : M nat bool :=
  try_catch
    (auth_signOut settles ;;;
     ret true)
    (fun error => ret false).

End SupabaseLib.

(* ===================================================================== *)
(** ** The browser's localStorage *)
(* ===================================================================== *)

Module Browser.

(** The entries of [localStorage] in the order [key(i)] enumerates them;
    keys are unique, and removing an entry keeps the order of the others. *)
Definition Storage : Type := list (string * string).

(** [localStorage.key(i)], [null] past the end. *)
Definition key (i : nat) (st : Storage) : option string :=
  option_map fst (nth_error st i).

(** [localStorage.removeItem(k)] *)
Definition removeItem (k : string) (st : Storage) : Storage :=
  filter (fun entry => negb (fst entry =? k)%string) st.

(** [key && (key.includes('supabase') || key.includes('sb-'))] *)
Definition auth_key (k : string) : bool :=
  negb (k =? "")%string && (includes "supabase" k || includes "sb-" k).

(** [for (let i = ...; i < localStorage.length; i++) { ... }], the loop of
    [logout] and of the settings page, from index [i]; [None] when [fuel]
    passes do not reach the end. *)
Fixpoint clear_loop (fuel : nat) (i : nat) (st : Storage) : option Storage :=
  match fuel with
  | O => None
  | S fuel' =>
      if (i <? List.length st)%nat then
        match key i st with
        | Some k =>
            if auth_key k then clear_loop fuel' (S i) (removeItem k st)
            else clear_loop fuel' (S i) st
        | None => clear_loop fuel' (S i) st
        end
      else Some st
  end.

(** The loop as a computation on the storage. When the browser refuses
    access to [localStorage], reading it throws [blocked]. *)
Definition clear_auth_keys (fuel : nat) (blocked : option exn) : M Storage (option unit) :=
  fun st =>
    match blocked with
    | Some e => (inl e, st)
    | None =>
        match clear_loop fuel 0 st with
        | Some st' => (inr (Some tt), st')
        | None => (inr None, st)
        end
    end.

End Browser.

(* ===================================================================== *)
(** ** src/lib/auth.ts *)
(* ===================================================================== *)

Module Auth.

(** The requests [getCurrentUser] sends, in order. *)
Inductive Call : Type :=
| GetSession
| SelectUser (id : value)
| UpdateLastSignIn (id : value).

(** The backend during one call of [getCurrentUser]: how the session lookup
    and the read of [users] settle, whether starting the fire-and-forget
    update throws (its later rejection is handled by its own [.catch]),
    and the text of [new Date().toISOString()]. *)
Record Backend : Type := {
  auth_getSession : exn + value;
  users_select_single : value -> exn + value;
  users_update : value -> option exn;
  now_iso : string
}.

Definition request {A} (c : Call) (settles : exn + A) : M (list Call) A :=
  fun sent => (settles, (sent ++ [c])%list).

Definition minimalUser (b : Backend) (user : value) : value :=
  Obj [ ("id", prop user "id");
        ("email", or_else (prop user "email") (Str ""));
        ("role", or_else (optprop (prop user "user_metadata") "role") (Str "customer"));
        ("created_at", or_else (prop user "created_at") (Str (now_iso b)));
        ("isAuthenticated", Bool true) ].

Definition getCurrentUser (b : Backend) : M (list Call) value :=
  try_catch
    (reply <- request GetSession (auth_getSession b) ;;
     data <- get reply "data" ;;
     session <- get data "session" ;;
     sessionError <- get reply "error" ;;
     if truthy sessionError then ret Null
     else if negb (truthy (optprop session "user")) then ret Null
     else
       user <- get session "user" ;;
       let minimal := minimalUser b user in
       try_catch
         (found <- request (SelectUser (prop user "id"))
                           (users_select_single b (prop user "id")) ;;
          userData <- get found "data" ;;
          userError <- get found "error" ;;
          if truthy userError then ret minimal
          else if truthy userData then
            request (UpdateLastSignIn (prop user "id"))
                    (match users_update b (prop user "id") with
                     | Some e => inl e
                     | None => inr tt
                     end) ;;;
            ret (Obj (obj_set "isAuthenticated" (Bool true) (spread userData)))
          else ret minimal)
         (fun e => ret minimal))
    (fun error => ret Null).

Definition refreshAuthToken (navigator : SupabaseLib.Navigator)
    (refreshSession : M SupabaseLib.Client value) : M SupabaseLib.Client bool :=
  try_catch
    (SupabaseLib.refreshSupabaseToken navigator refreshSession)
    (fun error => ret false).

(** The inner [try] of [isAdmin]: [Some b] when it has returned [b],
    [None] when control goes on to the final [return false]. *)
Definition role_from_users (b : Backend) (user : value) : M (list Call) (option bool) :=
  try_catch
    (found <- request (SelectUser (prop user "id"))
                      (users_select_single b (prop user "id")) ;;
     userData <- get found "data" ;;
     userError <- get found "error" ;;
     if negb (truthy userError) && truthy userData then
       ret (Some (is_string "admin" (prop userData "role")))
     else ret None)
    (fun e => ret None).

Definition isAdmin (b : Backend) : M (list Call) bool :=
  try_catch
    (reply <- request GetSession (auth_getSession b) ;;
     data <- get reply "data" ;;
     session <- get data "session" ;;
     error <- get reply "error" ;;
     if truthy error then ret false
     else if negb (truthy (optprop session "user")) then ret false
     else
       user <- get session "user" ;;
       if is_string "admin" (optprop (prop user "user_metadata") "role") then ret true
       else
         decided <- role_from_users b user ;;
         match decided with
         | Some isAdminRole => ret isAdminRole
         | None => ret false
         end)
    (fun error => ret false).

Definition defaultStatus : list (string * value) :=
  [ ("isAuthenticated", Bool false);
    ("isAdmin", Bool false);
    ("user", Null);
    ("loading", Bool false);
    ("error", Null) ].

(** [getAuthStatus] looks the session up itself and then calls
    [getCurrentUser] and [isAdmin], which look it up again: [b], [bUser] and
    [bAdmin] are the backend during each of the three. *)
Definition getAuthStatus (b bUser bAdmin : Backend) : M (list Call) value :=
  try_catch
    (reply <- request GetSession (auth_getSession b) ;;
     data <- get reply "data" ;;
     session <- get data "session" ;;
     sessionError <- get reply "error" ;;
     if truthy sessionError then
       ret (Obj (obj_set "error" (prop sessionError "message") defaultStatus))
     else if negb (truthy (optprop session "user")) then ret (Obj defaultStatus)
     else
       user <- getCurrentUser bUser ;;
       if negb (truthy user) then
         ret (Obj (obj_set "error" (Str "Could not retrieve user data")
                     (obj_set "isAuthenticated" (Bool true) defaultStatus)))
       else
         adminStatus <- isAdmin bAdmin ;;
         ret (Obj [ ("isAuthenticated", Bool true);
                    ("isAdmin", Bool adminStatus);
                    ("user", user);
                    ("loading", Bool false);
                    ("error", Null) ]))
    (fun error =>
       ret (Obj [ ("isAuthenticated", Bool false);
                  ("isAdmin", Bool false);
                  ("user", Null);
                  ("loading", Bool false);
                  ("error", Str (message error)) ])).

(** [logout] on the browser's storage; [settles] is how [signOut] ends.
    The result is [None] when [fuel] is too small for the loop. *)
Definition logout (fuel : nat) (settles : SupabaseLib.SignOut) (blocked : option exn)
  : M Browser.Storage (option bool) :=
  try_catch
    (error <- (fun st => (settles, st)) ;;
     match error with
     | Some e => throw e
     | None =>
         cleared <- try_catch (Browser.clear_auth_keys fuel blocked)
                              (fun e => ret (Some tt)) ;;
         match cleared with
         | Some _ => ret (Some true)
         | None => ret None
         end
     end)
    (fun error => throw error).

End Auth.

(* ===================================================================== *)
(** ** Vocabulary of the statements *)
(* ===================================================================== *)

(** The member [k] of a response body. *)
Definition member (k : string) (r : Response) : option value :=
  match body r with
  | Some (Obj ms) => lookup k ms
  | _ => None
  end.

(** How a value placed in an object literal shows in the serialised body. *)
Definition json_member (v : value) : option value :=
  match v with
  | Undefined => None
  | _ => Some (json v)
  end.

Module CleanupProps.
Import CleanupSessions.

(** The 200 reply for [n] deleted rows. *)
Definition cleaned (n : nat) : Response :=
  {| statusCode := 200; headers := cors_headers;
     body := Some (Obj [ ("status", Str "success");
                         ("message", Str ("Cleaned up " ++ string_of_nat n
                                          ++ " expired sessions")) ]) |}.

(** The reading of the clock the next [new Date()] gets. *)
Definition cutoff (w : World) : Z := clock w (date_reads w).

Definition hour : Z := 3600000.

(** A store with one row expired an hour before noon of some day and one
    expiring an hour after, read at that noon. *)
Definition sample_env : Env :=
  {| VITE_SUPABASE_URL := Some "https://example.supabase.co";
     SUPABASE_SERVICE_KEY := Some "service-key" |}.

Definition sample_event : Event :=
  {| httpMethod := "POST"; queryStringParameters := None |}.

Definition noon : Z := 1700000000000.

Definition sample_world : World :=
  {| clock := fun n => noon + Z.of_nat n;
     date_reads := 0;
     user_sessions := [ {| row_id := 1; expires_at := Some (noon - hour) |};
                        {| row_id := 2; expires_at := Some (noon + hour) |} ];
     store_error := None |}.

(** The same store a little later, after the first sweep. *)
Definition sample_world_later : World :=
  {| clock := fun n => noon + 5 + Z.of_nat n;
     date_reads := 0;
     user_sessions := [ {| row_id := 2; expires_at := Some (noon + hour) |} ];
     store_error := None |}.

End CleanupProps.

Module ExchangeProps.
Import ExchangeFacebookToken.

(** The query string has no [code] parameter. *)
Definition lacks_code (event : Event) : Prop :=
  match queryStringParameters event with
  | None => True
  | Some q => query_get "code" q = None
  end.

(** Both application credentials are set (and not empty). *)
Definition configured (env : Env) : bool :=
  truthy (opt_str (VITE_META_APP_ID env)) && truthy (opt_str (META_APP_SECRET env)).

(** The request the handler sends to the token endpoint. *)
Definition exchange_request (env : Env) (event : Event) : Request :=
  token_request (opt_str (VITE_META_APP_ID env)) (opt_str (META_APP_SECRET env))
                (code_of event).

(** A request to one of the two diagnostic endpoints. *)
Definition diagnostic (req : Request) : Prop :=
  url req = "https://graph.facebook.com/v18.0/me"
  \/ url req = "https://graph.facebook.com/v18.0/me/permissions".

(** The pages a body of [/me/accounts] lists: [data.data || []]. *)
Definition pages_of (body : value) : value := or_else (prop body "data") (Arr []).

(** The body of [/me/accounts] has the documented shape: an object whose
    [data], when present, is an array of objects. *)
Definition lists_pages (body : value) : bool :=
  negb (nullish body) &&
  match prop body "data" with
  | Arr l => forallb (fun page => negb (nullish page)) l
  | v => negb (truthy v)
  end.

(** Sample invocations. *)
Definition sample_env : Env :=
  {| VITE_META_APP_ID := Some "1234567890"; META_APP_SECRET := Some "s3cr3t" |}.

Definition no_env : Env :=
  {| VITE_META_APP_ID := None; META_APP_SECRET := None |}.

Definition with_code : Event :=
  {| httpMethod := "GET"; queryStringParameters := Some [ ("code", "abc123") ] |}.

Definition without_code : Event :=
  {| httpMethod := "GET"; queryStringParameters := Some [ ("state", "xyz") ] |}.

Definition preflight : Event :=
  {| httpMethod := "OPTIONS"; queryStringParameters := None |}.

Definition preflight_with_query : Event :=
  {| httpMethod := "OPTIONS"; queryStringParameters := Some [ ("state", "xyz") ] |}.

Definition token_reply : axios_response :=
  {| data := Obj [ ("access_token", Str "T1"); ("token_type", Str "bearer");
                   ("expires_in", Num 3600) ] |}.

Definition network_error : exn :=
  {| message := "Request failed with status code 400";
     response :=
       Some {| data := Obj [ ("error", Obj [ ("message", Str "Invalid OAuth access token");
                                             ("code", Num 190) ]) ] |} |}.

Definition is_url (u : string) (req : Request) : bool := (url req =? u)%string.

(** The token endpoint answers [T1]; the pages endpoint behaves as [pages];
    every other request fails. *)
Definition network_with (pages : exn + axios_response) : Network :=
  fun req =>
    if is_url tokenExchangeUrl req then inr token_reply
    else if is_url "https://graph.facebook.com/v18.0/me/accounts" req then pages
    else inl (Error "Network Error").

(** A pages body whose [data] is an object, not an array. *)
Definition not_a_list : axios_response :=
  {| data := Obj [ ("data", Obj [ ("id", Str "1") ]) ] |}.

Definition no_pages : axios_response := {| data := Obj [ ("data", Arr []) ] |}.

End ExchangeProps.

Module RetryProps.
Import SupabaseLib.

(** The delay after attempt [k] as the specification words it: linear in
    the attempt number, capped at two seconds, whatever the attempt's
    outcome. *)
Definition linear_backoff (initialDelayMs : Z) (k : Z) (outcome : exn + value) : Z :=
  Z.min (initialDelayMs * k) 2000.

(** The delay after attempt [k] by outcome: linear and capped after a reply
    without session, the plain initial delay after an error. *)
Definition backoff (initialDelayMs : Z) (k : Z) (outcome : exn + value) : Z :=
  match outcome with
  | inr _ => Z.min (initialDelayMs * k) 2000
  | inl _ => initialDelayMs
  end.

(** Every wait recorded in [h] follows [rule], the attempts being numbered
    from [k]. *)
Fixpoint spaced (rule : Z -> exn + value -> Z) (k : Z) (h : list Step) : bool :=
  match h with
  | [] => true
  | Attempted outcome :: rest =>
      match rest with
      | [] => true
      | Waited ms :: rest' => (ms =? rule k outcome) && spaced rule (k + 1) rest'
      | Attempted _ :: _ => false
      end
  | Waited _ :: _ => false
  end.

(** The error of the last failed attempt of [h], [earlier] if there is none. *)
Fixpoint last_error (h : list Step) (earlier : option exn) : option exn :=
  match h with
  | [] => earlier
  | Attempted (inl e) :: rest => last_error rest (Some e)
  | _ :: rest => last_error rest earlier
  end.

(** The error remembered after an attempt with the given outcome. *)
Definition remembered (o : exn + value) (lastError : option exn) : option exn :=
  match o with
  | inl e => Some e
  | inr _ => lastError
  end.

(** An attempt that did not produce a session. *)
Definition without_session (outcome : exn + value) : Prop :=
  match outcome with
  | inr result => truthy (session_of result) = false
  | inl _ => True
  end.

(** The record of a run that ended with [outcome]: attempts without session,
    each followed by its wait, and then either nothing (the run gave up) or
    one last attempt whose session is what the run returned. *)
Inductive sequential (outcome : exn + option value) : list Step -> Prop :=
| seq_gave_up :
    (forall result, outcome <> inr (Some result)) ->
    sequential outcome []
| seq_found (result : value) :
    truthy (session_of result) = true ->
    outcome = inr (Some result) ->
    sequential outcome [Attempted (inr result)]
| seq_retry (o : exn + value) (ms : Z) (rest : list Step) :
    without_session o ->
    sequential outcome rest ->
    sequential outcome (Attempted o :: Waited ms :: rest).

(** The time limit of one attempt, as [getSessionWithRetry] sets it. *)
Definition attempt_timeout : Z := 5000.

Definition no_session_reply : value :=
  Obj [ ("data", Obj [ ("session", Null) ]); ("error", Null) ].

Definition session_reply : value :=
  Obj [ ("data", Obj [ ("session", Obj [ ("access_token", Str "jwt");
                                         ("expires_at", Num 1700003600) ]) ]);
        ("error", Null) ].

(** A service whose every lookup rejects after 10 ms. *)
Definition failing : AuthService := fun _ => Rejects 10 (Error "Failed to fetch").

(** A service that answers at once without session, then hangs. *)
Definition hanging : AuthService :=
  fun n => match n with
           | O => Resolves 0 no_session_reply
           | _ => Pending
           end.

(** A service that has the session from the third lookup on. *)
Definition eventually : AuthService :=
  fun n => match n with
           | O | S O => Resolves 20 no_session_reply
           | _ => Resolves 20 session_reply
           end.

End RetryProps.

Module RefreshProps.
Import SupabaseLib.

(** The refresh did not produce a session: the request rejected, the reply
    carries an error, or it carries no session. *)
Definition refresh_failed (outcome : exn + value) : bool :=
  match outcome with
  | inl _ => true
  | inr reply =>
      truthy (optprop reply "error")
      || negb (truthy (optprop (optprop reply "data") "session"))
  end.

Definition old_session : value :=
  Obj [ ("access_token", Str "old"); ("expires_at", Num 1700000000) ].

Definition new_session : value :=
  Obj [ ("access_token", Str "new"); ("expires_at", Num 1700003600) ].

Definition signed_in : Client := {| cached_session := old_session; refreshes := 0 |}.

(** A library that would refresh successfully. *)
Definition refreshing : RefreshBehaviour :=
  fun _ => (inr (Obj [ ("data", Obj [ ("session", new_session) ]); ("error", Null) ]),
            new_session).

(** A library whose refresh is refused by the store. *)
Definition refused : RefreshBehaviour :=
  fun held => (inr (Obj [ ("data", Obj [ ("session", Null) ]);
                          ("error", Obj [ ("message", Str "Invalid Refresh Token") ]) ]),
               held).

End RefreshProps.

Module UserProps.
Import Auth.

(** The user of the current session, when the lookup yields one: the lookup
    settles with a reply that carries [data], no error, and a session with a
    user. *)
Definition session_user (b : Backend) : option value :=
  match auth_getSession b with
  | inl _ => None
  | inr reply =>
      if nullish reply || nullish (prop reply "data") then None
      else if truthy (prop reply "error") then None
      else
        let user := optprop (prop (prop reply "data") "session") "user" in
        if truthy user then Some user else None
  end.

(** The row of [users] for [user], when the enrichment read succeeds: it
    settles with a reply that carries no error and a row. *)
Definition users_row (b : Backend) (user : value) : option value :=
  match users_select_single b (prop user "id") with
  | inl _ => None
  | inr found =>
      if nullish found then None
      else if truthy (prop found "error") then None
      else if truthy (prop found "data") then Some (prop found "data")
      else None
  end.

Definition sample_user : value :=
  Obj [ ("id", Str "u-1"); ("email", Str "a@example.org");
        ("user_metadata", Obj [ ("role", Str "admin") ]);
        ("created_at", Str "2024-01-01T00:00:00.000Z") ].

(** A backend with a session whose [users] read fails with [PGRST116]. *)
Definition sample_backend : Backend :=
  {| auth_getSession :=
       inr (Obj [ ("data", Obj [ ("session", Obj [ ("user", sample_user) ]) ]);
                  ("error", Null) ]);
     users_select_single := fun _ =>
       inr (Obj [ ("data", Null);
                  ("error", Obj [ ("code", Str "PGRST116") ]) ]);
     users_update := fun _ => None;
     now_iso := "2024-06-01T12:00:00.000Z" |}.

End UserProps.

Module ExchangeCases.
Import ExchangeFacebookToken ExchangeProps.

Definition answer (status : Z) (doc : value) : Response :=
  {| statusCode := status; headers := cors_headers; body := Some (json doc) |}.

(** The message the outer [catch] reports for [e]: the Graph API's own
    message, else the message of the error, else a fixed text. *)
Definition reported (e : exn) : value :=
  or_else (or_else (optprop (optprop (response_data e) "error") "message")
                   (Str (message e)))
          (Str "Server error during token exchange").

(** The pages step goes through on this outcome of the pages request: the
    request resolved with a body that can be read, and either no page is
    counted or the pages are an array of objects. *)
Definition pages_readable (outcome : exn + axios_response) : bool :=
  match outcome with
  | inl _ => false
  | inr r =>
      negb (nullish (data r)) &&
      match prop (pages_of (data r)) "length" with
      | Num 0 => true
      | _ =>
          match pages_of (data r) with
          | Arr l => forallb (fun page => negb (nullish page)) l
          | _ => false
          end
      end
  end.

(** The pages step counts no page. *)
Definition no_page_counted (outcome : exn + axios_response) : bool :=
  match outcome with
  | inl _ => false
  | inr r =>
      negb (nullish (data r)) &&
      match prop (pages_of (data r)) "length" with
      | Num 0 => true
      | _ => false
      end
  end.

(** Every way an invocation can go: the response and the requests sent. *)
Inductive answers (env : Env) (net : Network) (event : Event)
  : Response -> Sent -> Prop :=
| ans_preflight :
    httpMethod event = "OPTIONS" ->
    answers env net event
      {| statusCode := 204; headers := cors_headers; body := None |} []
| ans_no_code :
    httpMethod event <> "OPTIONS" ->
    truthy (code_of event) = false ->
    answers env net event
      (answer 400 (Obj [ ("error", Str "Missing code parameter") ])) []
| ans_no_config :
    httpMethod event <> "OPTIONS" ->
    truthy (code_of event) = true ->
    configured env = false ->
    answers env net event
      (answer 500 (Obj [ ("error", Str "Server configuration error") ])) []
| ans_exchange_failed (e : exn) :
    httpMethod event <> "OPTIONS" ->
    truthy (code_of event) = true ->
    configured env = true ->
    net (exchange_request env event) = inl e ->
    answers env net event
      (answer 500 (Obj [ ("error", reported e) ])) [exchange_request env event]
| ans_no_token_data (tokenResponse : axios_response) :
    httpMethod event <> "OPTIONS" ->
    truthy (code_of event) = true ->
    configured env = true ->
    net (exchange_request env event) = inr tokenResponse ->
    nullish (data tokenResponse) = true ->
    answers env net event
      (answer 500 (Obj [ ("error",
                          reported (TypeError_read (data tokenResponse) "access_token")) ]))
      [exchange_request env event]
| ans_no_token (tokenResponse : axios_response) :
    httpMethod event <> "OPTIONS" ->
    truthy (code_of event) = true ->
    configured env = true ->
    net (exchange_request env event) = inr tokenResponse ->
    nullish (data tokenResponse) = false ->
    truthy (prop (data tokenResponse) "access_token") = false ->
    answers env net event
      (answer 400 (Obj [ ("error", Str "Failed to retrieve access token") ]))
      [exchange_request env event]
| ans_pages (tokenResponse pagesResponse : axios_response) :
    httpMethod event <> "OPTIONS" ->
    truthy (code_of event) = true ->
    configured env = true ->
    net (exchange_request env event) = inr tokenResponse ->
    truthy (prop (data tokenResponse) "access_token") = true ->
    net (pages_request (prop (data tokenResponse) "access_token")) = inr pagesResponse ->
    pages_readable (inr pagesResponse) = true ->
    answers env net event
      (answer 200 (Obj [ ("accessToken", prop (data tokenResponse) "access_token");
                         ("expiresIn", prop (data tokenResponse) "expires_in");
                         ("pages", pages_of (data pagesResponse)) ]))
      (exchange_request env event
       :: pages_request (prop (data tokenResponse) "access_token")
       :: (if no_page_counted (inr pagesResponse)
           then [ user_request (prop (data tokenResponse) "access_token");
                  permissions_request (prop (data tokenResponse) "access_token") ]
           else []))
| ans_pages_failed (tokenResponse : axios_response) (pagesError : exn) :
    httpMethod event <> "OPTIONS" ->
    truthy (code_of event) = true ->
    configured env = true ->
    net (exchange_request env event) = inr tokenResponse ->
    truthy (prop (data tokenResponse) "access_token") = true ->
    pages_readable (net (pages_request (prop (data tokenResponse) "access_token"))) = false ->
    answers env net event
      (answer 200 (Obj [ ("accessToken", prop (data tokenResponse) "access_token");
                         ("expiresIn", prop (data tokenResponse) "expires_in");
                         ("pages", Arr []);
                         ("pagesError", Str "Failed to fetch pages");
                         ("errorDetails",
                          or_else (optprop (response_data pagesError) "error")
                                  (Str (message pagesError))) ]))
      [ exchange_request env event;
        pages_request (prop (data tokenResponse) "access_token") ].

(** The request has a parameter named [k]. *)
Definition has_param (k : string) (req : Request) : bool :=
  match lookup k (params req) with
  | Some _ => true
  | None => false
  end.

(** The four addresses the handler contacts. *)
Definition graph_urls : list string :=
  [ tokenExchangeUrl;
    "https://graph.facebook.com/v18.0/me/accounts";
    "https://graph.facebook.com/v18.0/me";
    "https://graph.facebook.com/v18.0/me/permissions" ].

(** A network on which every request fails with the Graph API's error. *)
Definition refusing : Network := fun _ => inl network_error.

(** A network whose token endpoint answers without a token. *)
Definition tokenless : Network := fun _ => inr {| data := Obj [ ("expires_in", Num 0) ] |}.

(** Two pages, both objects. *)
Definition two_pages : axios_response :=
  {| data := Obj [ ("data", Arr [ Obj [ ("id", Str "1"); ("name", Str "A") ];
                                  Obj [ ("id", Str "2"); ("name", Str "B") ] ]) ] |}.

End ExchangeCases.

Module CleanupCases.
Import CleanupSessions CleanupProps.

(** The 500 reply for an error with message [msg]. *)
Definition failed (msg : string) : Response :=
  {| statusCode := 500; headers := cors_headers;
     body := Some (Obj [ ("status", Str "error");
                         ("message", Str "Error cleaning up sessions");
                         ("error", Str msg) ]) |}.

(** The world after one more reading of the clock. *)
Definition clock_read (w : World) : World :=
  {| clock := clock w; date_reads := S (date_reads w);
     user_sessions := user_sessions w; store_error := store_error w |}.

(** An environment without the service key. *)
Definition no_key : Env :=
  {| VITE_SUPABASE_URL := Some "https://example.supabase.co";
     SUPABASE_SERVICE_KEY := None |}.

(** The sample store, unreachable. *)
Definition unreachable : World :=
  {| clock := clock sample_world; date_reads := 0;
     user_sessions := user_sessions sample_world;
     store_error := Some (Error "fetch failed") |}.

End CleanupCases.

Module RetryMore.
Import SupabaseLib RetryProps.

(** Every lookup resolves before the time limit with a result that has no
    session (whatever else the result carries, an [error] included). *)
Definition never_a_session (auth : AuthService) : Prop :=
  forall n : nat,
    exists (after : N) (result : value),
      auth n = Resolves after result
      /\ Z.of_N after < 5000
      /\ truthy (session_of result) = false.

End RetryMore.

Module LibraryMore.
Import SupabaseLib.

(** [rpc('ping')] answers [true] without error. *)
Definition ping_ok (db : Database) : bool :=
  match rpc_ping db with
  | inl _ => false
  | inr reply =>
      negb (nullish reply) && negb (truthy (prop reply "error"))
      && is_true (prop reply "data")
  end.

(** The session lookup answers without error. *)
Definition session_ok (db : Database) : bool :=
  match db_getSession db with
  | inl _ => false
  | inr reply => negb (nullish reply) && negb (truthy (prop reply "error"))
  end.

(** The requests a check sends. *)
Definition check_requests (cfg : Config) (db : Database) : list DbCall :=
  if missing_config cfg then []
  else if ping_ok db then [Ping]
  else [Ping; SessionCheck].

Definition configured_env : Config :=
  {| supabaseUrl := Some "https://example.supabase.co"; supabaseAnonKey := Some "anon" |}.

Definition unconfigured_env : Config :=
  {| supabaseUrl := Some "https://example.supabase.co"; supabaseAnonKey := None |}.

(** A database without the [ping] function whose session lookup works. *)
Definition no_ping : Database :=
  {| rpc_ping := inr (Obj [ ("data", Null);
                            ("error", Obj [ ("message", Str "function ping() does not exist") ]) ]);
     db_getSession := inr (Obj [ ("data", Obj [ ("session", Null) ]); ("error", Null) ]) |}.

(** A database that cannot be reached. *)
Definition offline_db : Database :=
  {| rpc_ping := inl (Error "Failed to fetch");
     db_getSession := inl (Error "Failed to fetch") |}.

(** A refresh whose session carries no expiry. *)
Definition without_expiry : RefreshBehaviour :=
  fun _ => (inr (Obj [ ("data", Obj [ ("session", Obj [ ("access_token", Str "new") ]) ]);
                       ("error", Null) ]),
            Obj [ ("access_token", Str "new") ]).

End LibraryMore.

Module AuthMore.
Import Auth UserProps.

(** The role in the session's metadata is ['admin']. *)
Definition metadata_admin (user : value) : bool :=
  is_string "admin" (optprop (prop user "user_metadata") "role").

(** The row of [users] for [user] is read and its role is ['admin']. *)
Definition row_admin (b : Backend) (user : value) : bool :=
  match users_row b user with
  | Some row => is_string "admin" (prop row "role")
  | None => false
  end.

(** What [isAdmin] answers. *)
Definition admin_verdict (b : Backend) : bool :=
  match session_user b with
  | Some user => metadata_admin user || row_admin b user
  | None => false
  end.

(** The requests [isAdmin] sends. *)
Definition admin_requests (b : Backend) : list Call :=
  GetSession ::
  match session_user b with
  | Some user => if metadata_admin user then [] else [SelectUser (prop user "id")]
  | None => []
  end.

(** The requests [getCurrentUser] sends. *)
Definition user_requests (b : Backend) : list Call :=
  GetSession ::
  match session_user b with
  | Some user =>
      SelectUser (prop user "id") ::
      match users_row b user with
      | Some _ => [UpdateLastSignIn (prop user "id")]
      | None => []
      end
  | None => []
  end.

Definition has_user (b : Backend) : bool :=
  match session_user b with
  | Some _ => true
  | None => false
  end.

(** The session's user is an administrator by metadata; the [users] table
    has no row. *)
Definition admin_backend : Backend :=
  {| auth_getSession := auth_getSession sample_backend;
     users_select_single := fun _ => inr (Obj [ ("data", Null); ("error", Null) ]);
     users_update := fun _ => None;
     now_iso := "2024-06-01T12:00:00.000Z" |}.

(** The session has expired meanwhile. *)
Definition signed_out_backend : Backend :=
  {| auth_getSession := inr (Obj [ ("data", Obj [ ("session", Null) ]); ("error", Null) ]);
     users_select_single := fun _ => inl (Error "not reached");
     users_update := fun _ => None;
     now_iso := "2024-06-01T12:00:01.000Z" |}.

(** The backend behind the client that is created without configuration:
    its [from('users').select('*')] has no [eq], so the read throws. *)
Definition mock_backend : Backend :=
  {| auth_getSession := inr SupabaseLib.mock_session_reply;
     users_select_single := fun _ =>
       inl (Error "supabase.from(...).select(...).eq is not a function");
     users_update := fun _ => Some (Error "supabase.from(...).update(...).eq is not a function");
     now_iso := "2024-06-01T12:00:00.000Z" |}.

End AuthMore.

(* ===================================================================== *)
(** ** src/pages/Settings.tsx: signing out *)
(* ===================================================================== *)

Module Settings.
Import Browser.

(** What the two handlers touch: localStorage, the address the window has
    been sent to, and the [loading] and [error] states of the component. *)
Record Page : Type := {
  storage : Storage;
  href : option string;
  loading : bool;
  error : option string
}.

(** [setLoading(b)] *)
Definition setLoading (b : bool) : M Page unit :=
  fun p => (inr tt, {| storage := storage p; href := href p;
                       loading := b; error := error p |}).

(** [setError(e)] *)
Definition setError (e : option string) : M Page unit :=
  fun p => (inr tt, {| storage := storage p; href := href p;
                       loading := loading p; error := e |}).

(** [window.location.href = url] *)
Definition set_href (url : string) : M Page unit :=
  fun p => (inr tt, {| storage := storage p; href := Some url;
                       loading := loading p; error := error p |}).

(** A computation on localStorage, run on the page. *)
Definition on_storage {A} (m : M Storage A) : M Page A :=
  fun p =>
    let (r, st) := m (storage p) in
    (r, {| storage := st; href := href p; loading := loading p; error := error p |}).

(** [handleSignOut]; [None] when [fuel] is too small for the loop of
    [logout]. *)
Definition handleSignOut (fuel : nat) (settles : SupabaseLib.SignOut)
    (blocked : option exn) : M Page (option unit) :=
  try_catch
    (done <- on_storage (Auth.logout fuel settles blocked) ;;
     match done with
     | Some _ => set_href "/auth" ;;; ret (Some tt)
     | None => ret None
     end)
    (fun error => setError (Some "Failed to sign out") ;;; ret (Some tt)).

(** [handleRetryAuthentication]: the reply of [signOut] is not looked at,
    and the loop over localStorage is not guarded on its own. *)
Definition handleRetryAuthentication (fuel : nat) (settles : SupabaseLib.SignOut)
    (blocked : option exn) : M Page (option unit) :=
  setLoading true ;;;
  setError None ;;;
  try_catch
    (_ <- (fun p => (settles, p)) ;;
     cleared <- on_storage (clear_auth_keys fuel blocked) ;;
     match cleared with
     | Some _ => set_href "/auth" ;;; ret (Some tt)
     | None => ret None
     end)
    (fun error =>
       setError (Some "Failed to reset authentication. Please try reloading the page.") ;;;
       setLoading false ;;;
       ret (Some tt)).

End Settings.

Module LogoutMore.
Import Browser.

(** Every key of [removed] is one that the loop looks for. *)
Definition all_auth_keys (removed : list string) : bool := forallb auth_key removed.

(** [localStorage] after [removeItem] for each key of [removed]. *)
Definition remove_all (removed : list string) (st : Storage) : Storage :=
  fold_left (fun s k => removeItem k s) removed st.

Definition two_tokens : Storage :=
  [ ("theme", "dark");
    ("sb-project-auth-token", "t1");
    ("supabase.auth.token", "t2");
    ("fb_auth_state", "s") ].

Definition settings_page (st : Storage) : Settings.Page :=
  {| Settings.storage := st; Settings.href := None;
     Settings.loading := false; Settings.error := Some "User not authenticated" |}.

Definition security_error : exn := Error "The operation is insecure.".

End LogoutMore.

(* ===================================================================== *)
(** ** The debug logs of src/App.tsx and src/pages/Auth.tsx *)
(* ===================================================================== *)

Module DebugLog.

(** [xs.slice(-n)]: the last [n] elements, all of them when there are
    fewer; [slice(-0)] is [slice(0)], the whole array. *)
Definition slice_from_end {A} (n : nat) (xs : list A) : list A :=
  match n with
  | O => xs
  | S _ => skipn (List.length xs - n) xs
  end.

End DebugLog.

Module App.
Import DebugLog.

(** The updater that [addDebugInfo] passes to [setDebugInfo]:
    [prev => [...prev.slice(-9), message]]. *)
Definition addDebugInfo (message : string) (prev : list string) : list string :=
  (slice_from_end 9 prev ++ [message])%list.

(** The state [debugInfo], initially [[]], after [addDebugInfo] for each of
    [messages] in turn. *)
Definition debugInfo (messages : list string) : list string :=
  fold_left (fun prev message => addDebugInfo message prev) messages [].

End App.

Module AuthPage.
Import DebugLog.

(** [`${new Date().toISOString().slice(11, 19)}: ${message}`], [iso] being
    the text of [new Date().toISOString()]. *)
Definition stamped (iso message : string) : string :=
  (String.substring 11 8 iso ++ ": " ++ message)%string.

(** The updater that [addDebugInfo] passes to [setDebugInfo]. *)
Definition addDebugInfo (iso message : string) (prev : list string) : list string :=
  let newMessages := (prev ++ [stamped iso message])%list in
  slice_from_end 10 newMessages.

(** The state [debugInfo], initially [[]], after [addDebugInfo] for each
    message of [entries], paired with the time it is added at. *)
Definition debugInfo (entries : list (string * string)) : list string :=
  fold_left (fun prev entry => addDebugInfo (fst entry) (snd entry) prev) entries [].

End AuthPage.

(* ===================================================================== *)
(** * Properties *)
(* ===================================================================== *)

(* ===================================================================== *)
(** ** Values and computations *)
(* ===================================================================== *)

Section Values.

Lemma truthy_not_nullish (v : value) : truthy v = true -> nullish v = false.
Proof. destruct v; cbn; congruence. Qed.

Lemma prop_truthy_not_nullish (v : value) (k : string) :
  truthy (prop v k) = true -> nullish v = false.
Proof. destruct v; cbn; congruence. Qed.

Lemma lookup_obj_set (k : string) (v : value) (ms : list (string * value)) :
  lookup k (obj_set k v ms) = Some v.
Proof.
  induction ms as [| [k' x] ms IH]; cbn.
  - rewrite String.eqb_refl. reflexivity.
  - destruct (String.eqb_spec k' k) as [-> | Hne]; cbn.
    + rewrite String.eqb_refl. reflexivity.
    + destruct (String.eqb_spec k' k) as [Heq | _]; [contradiction | exact IH].
Qed.

Lemma optprop_truthy (v : value) (k : string) :
  truthy (optprop v k) = true -> nullish v = false /\ optprop v k = prop v k.
Proof.
  unfold optprop. destruct (nullish v); [discriminate | auto].
Qed.

(** Two computations that agree step by step agree. *)
Lemma bind_cong {S A B : Type} (m m' : M S A) (f g : A -> M S B) (s : S) :
  (forall s0, m s0 = m' s0) ->
  (forall a s0, f a s0 = g a s0) ->
  bind m f s = bind m' g s.
Proof.
  intros Hm Hf. unfold bind. rewrite Hm.
  destruct (m' s) as [[e | a] s1]; [reflexivity | apply Hf].
Qed.

Lemma try_catch_cong {S A : Type} (m m' : M S A) (h : exn -> M S A) (s : S) :
  (forall s0, m s0 = m' s0) ->
  try_catch m h s = try_catch m' h s.
Proof. intros Hm. unfold try_catch. rewrite Hm. reflexivity. Qed.

End Values.

(* ===================================================================== *)
(** ** Properties of cleanup-sessions *)
(* ===================================================================== *)

Section Cleanup.
Import CleanupSessions CleanupProps.

Lemma not_preflight (event : Event) :
  httpMethod event <> "OPTIONS" -> (httpMethod event =? "OPTIONS")%string = false.
Proof. intros H. now apply String.eqb_neq. Qed.

(** On the path where the store is configured and answers, one invocation
    reads the clock once, removes the rows selected by [lt_expires_at] at
    that reading and reports their number. *)
Lemma handler_sweeps (env : Env) (event : Event) (w : World) :
  httpMethod event <> "OPTIONS" ->
  supabase env = true ->
  store_error w = None ->
  handler env event w =
    (inr (cleaned (List.length (filter (lt_expires_at (cutoff w)) (user_sessions w)))),
     {| clock := clock w; date_reads := S (date_reads w);
        user_sessions := filter (fun r => negb (lt_expires_at (cutoff w) r)) (user_sessions w);
        store_error := None |}).
Proof.
  intros Hm Hs He.
  unfold handler. rewrite (not_preflight _ Hm).
  unfold try_catch, bind, cleanupExpiredSessions, try_catch, bind.
  rewrite Hs. cbn [negb].
  unfold Date_now, delete_lt_select. cbn [store_error].
  rewrite He. reflexivity.
Qed.

(** A 200 reply is only produced on that path. *)
Lemma handler_200_inv (env : Env) (event : Event) (w w' : World) (r : Response) :
  handler env event w = (inr r, w') ->
  statusCode r = 200 ->
  httpMethod event <> "OPTIONS" /\ supabase env = true /\ store_error w = None.
Proof.
  unfold handler.
  destruct (String.eqb_spec (httpMethod event) "OPTIONS") as [Heq | Hne].
  - unfold ret. intros [= <- <-]. cbn. discriminate.
  - unfold try_catch, bind, cleanupExpiredSessions, try_catch, bind.
    destruct (supabase env); cbn [negb].
    + unfold Date_now, delete_lt_select. cbn [store_error].
      destruct (store_error w) as [e |]; cbn.
      * intros [= <- <-]. cbn. discriminate.
      * intros _ _. auto.
    + cbn. intros [= <- <-]. cbn. discriminate.
Qed.

Lemma kept_iff (now : Z) (r : session_row) :
  negb (lt_expires_at now r) = true <->
  ~ (exists t, expires_at r = Some t /\ t < now).
Proof.
  unfold lt_expires_at. destruct (expires_at r) as [t |]; cbn.
  - rewrite negb_true_iff, Z.ltb_ge. split.
    + intros Hle [t' [[= <-] Hlt]]. lia.
    + intros Hn. destruct (Z_lt_le_dec t now) as [Hlt | Hle]; [| exact Hle].
      exfalso. apply Hn. now exists t.
  - split; [intros _ [t [Hd _]]; discriminate | reflexivity].
Qed.

(** The claim C5 as stated fails on a preflight invocation: it is answered
    204 without a reading of the clock, and the row that expired an hour ago
    stays in the table. *)
Lemma preflight_sweeps_nothing :
  let options := {| httpMethod := "OPTIONS"; queryStringParameters := None |} in
  let expired := {| row_id := 1; expires_at := Some (noon - hour) |} in
  In expired (user_sessions sample_world)
  /\ lt_expires_at (cutoff sample_world) expired = true
  /\ handler sample_env options sample_world
     = (inr {| statusCode := 204; headers := cors_headers; body := None |}, sample_world)
  /\ date_reads (snd (handler sample_env options sample_world)) = 0%nat
  /\ In expired (user_sessions (snd (handler sample_env options sample_world))).
Proof.
  cbn zeta. split; [left; reflexivity |]. split; [reflexivity |].
  split; [reflexivity |]. split; [reflexivity |]. left. reflexivity.
Qed.

(** C5 (amended). One invocation of the cleanup handler (not a preflight, store
    configured and answering) reads the clock exactly once and deletes
    exactly the rows whose [expires_at] is strictly below that reading: a row
    stays if and only if it has no expiry below the cutoff, so a row expiring
    at the cutoff or later stays. With one row expired an hour ago and one
    expiring in an hour, only the second remains and the 200 body says
    'Cleaned up 1 expired sessions'. *)
Theorem cleanup_deletes_exactly_expired (env : Env) (event : Event) (w : World) :
  httpMethod event <> "OPTIONS" ->
  supabase env = true ->
  store_error w = None ->
  exists w' : World,
    handler env event w =
      (inr (cleaned (List.length (filter (lt_expires_at (cutoff w)) (user_sessions w)))), w')
    /\ date_reads w' = S (date_reads w)
    /\ (forall r, In r (user_sessions w') <->
                  In r (user_sessions w)
                  /\ ~ (exists t, expires_at r = Some t /\ t < cutoff w))
    /\ (forall a b,
          user_sessions w = [ {| row_id := a; expires_at := Some (cutoff w - hour) |};
                              {| row_id := b; expires_at := Some (cutoff w + hour) |} ] ->
          user_sessions w' = [ {| row_id := b; expires_at := Some (cutoff w + hour) |} ]
          /\ fst (handler env event w) = inr (cleaned 1)
          /\ member "message" (cleaned 1) = Some (Str "Cleaned up 1 expired sessions")).
Proof.
  intros Hm Hs He.
  eexists. split; [apply handler_sweeps; assumption |].
  cbn [date_reads user_sessions]. split; [reflexivity |]. split.
  - intros r. rewrite filter_In, kept_iff. reflexivity.
  - intros a b Hrows.
    rewrite (handler_sweeps env event w Hm Hs He), Hrows.
    assert (H1 : lt_expires_at (cutoff w)
                   {| row_id := a; expires_at := Some (cutoff w - hour) |} = true).
    { unfold lt_expires_at, hour. cbn. apply Z.ltb_lt. lia. }
    assert (H2 : lt_expires_at (cutoff w)
                   {| row_id := b; expires_at := Some (cutoff w + hour) |} = false).
    { unfold lt_expires_at, hour. cbn. apply Z.ltb_ge. lia. }
    cbn [filter fst]. rewrite H1, H2. cbn. auto.
Qed.

Lemma cleanup_deletes_exactly_expired_witness :
  exists w' : World,
    handler sample_env sample_event sample_world = (inr (cleaned 1), w')
    /\ date_reads w' = 1%nat.
Proof.
  destruct (cleanup_deletes_exactly_expired sample_env sample_event sample_world)
    as [w' [Hrun [Hreads _]]].
  - discriminate.
  - reflexivity.
  - reflexivity.
  - exists w'. split; [exact Hrun | exact Hreads].
Defined.

(** The claim C6 as stated fails in two ways. After a sweep, a second
    invocation that is a preflight answers 204, not 200. And after a first
    invocation whose delete the store refused, a second one deletes a row
    and reports 1, although no expiry lies between the two cutoffs. *)
Lemma second_invocation_not_always_zero :
  let options := {| httpMethod := "OPTIONS"; queryStringParameters := None |} in
  let retried := {| clock := clock sample_world_later; date_reads := 0;
                    user_sessions := user_sessions CleanupCases.unreachable;
                    store_error := None |} in
  (fst (handler sample_env sample_event sample_world) = inr (cleaned 1)
   /\ user_sessions sample_world_later
      = user_sessions (snd (handler sample_env sample_event sample_world))
   /\ handler sample_env options sample_world_later
      = (inr {| statusCode := 204; headers := cors_headers; body := None |},
         sample_world_later))
  /\ (handler sample_env sample_event CleanupCases.unreachable
      = (inr (CleanupCases.failed "fetch failed"),
         CleanupCases.clock_read CleanupCases.unreachable)
      /\ user_sessions retried
         = user_sessions (CleanupCases.clock_read CleanupCases.unreachable)
      /\ (forall r t, In r (user_sessions retried) -> expires_at r = Some t ->
                      ~ (cutoff CleanupCases.unreachable <= t < cutoff retried))
      /\ fst (handler sample_env sample_event retried) = inr (cleaned 1)
      /\ List.length (user_sessions (snd (handler sample_env sample_event retried))) = 1%nat
      /\ cleaned 1 <> cleaned 0).
Proof.
  cbn zeta. split.
  - split; [reflexivity |]. split; reflexivity.
  - split; [reflexivity |]. split; [reflexivity |]. split; [| split; [| split]].
    + intros r t [<- | [<- | []]] [= <-] [H1 H2]; vm_compute in H1, H2;
        first [discriminate H2 | exact (H1 eq_refl)].
    + reflexivity.
    + reflexivity.
    + discriminate.
Qed.

(** What a 204 or a 500 answer leaves of the table: all of it. *)
Lemma handler_keeps_unless_sweeping (env : Env) (event : Event) (w : World) :
  httpMethod event = "OPTIONS" \/ store_error w <> None ->
  exists (r : Response) (w' : World),
    handler env event w = (inr r, w')
    /\ user_sessions w' = user_sessions w
    /\ statusCode r <> 200.
Proof.
  intros Hcase. unfold handler.
  destruct (String.eqb_spec (httpMethod event) "OPTIONS") as [Heq | Hne].
  - do 2 eexists. split; [reflexivity |]. split; [reflexivity | discriminate].
  - destruct Hcase as [Heq | Herr]; [contradiction |].
    unfold try_catch, bind, cleanupExpiredSessions, try_catch, bind.
    destruct (supabase env); cbn [negb].
    + unfold Date_now, delete_lt_select. cbn [store_error].
      destruct (store_error w) as [e |]; [| congruence].
      do 2 eexists. split; [reflexivity |]. split; [reflexivity | discriminate].
    + do 2 eexists. split; [reflexivity |]. split; [reflexivity | discriminate].
Qed.

(** C6 (amended). Two invocations in succession: when the first has swept
    (answered 200), the second runs on the table the first left, and no row
    has an expiry at or after the first cutoff and below the second, then the
    second deletes nothing, whatever its method and the answer of the store;
    when it is not a preflight and the store answers, it answers 200 with
    'Cleaned up 0 expired sessions', and it gives no other 200 answer. *)
Theorem cleanup_idempotent (env : Env) (ev1 ev2 : Event) (w1 w1' w2 : World)
    (r1 : Response) :
  handler env ev1 w1 = (inr r1, w1') ->
  statusCode r1 = 200 ->
  user_sessions w2 = user_sessions w1' ->
  (forall r t, In r (user_sessions w2) -> expires_at r = Some t ->
               ~ (cutoff w1 <= t < cutoff w2)) ->
  exists (r2 : Response) (w2' : World),
    handler env ev2 w2 = (inr r2, w2')
    /\ user_sessions w2' = user_sessions w2
    /\ (httpMethod ev2 <> "OPTIONS" -> store_error w2 = None ->
          r2 = cleaned 0
          /\ statusCode r2 = 200
          /\ member "message" r2 = Some (Str "Cleaned up 0 expired sessions"))
    /\ (statusCode r2 = 200 -> r2 = cleaned 0).
Proof.
  intros Hrun1 H200 Hsame Hcross.
  destruct (handler_200_inv _ _ _ _ _ Hrun1 H200) as [Hm1 [Hs He1]].
  rewrite (handler_sweeps env ev1 w1 Hm1 Hs He1) in Hrun1.
  injection Hrun1 as _ Hw1'. subst w1'. cbn [user_sessions] in Hsame.
  assert (Hnone : forall r, In r (user_sessions w2) -> lt_expires_at (cutoff w2) r = false).
  { intros r Hin. generalize Hin. rewrite Hsame. rewrite filter_In. intros [_ Hkept].
    apply negb_true_iff in Hkept.
    unfold lt_expires_at in *. destruct (expires_at r) as [t |] eqn:Ht; [| reflexivity].
    apply Z.ltb_ge in Hkept. apply Z.ltb_ge.
    destruct (Z_lt_le_dec t (cutoff w2)) as [Hlt | Hle]; [| exact Hle].
    exfalso. apply (Hcross r t Hin Ht). lia. }
  assert (Hdel : filter (lt_expires_at (cutoff w2)) (user_sessions w2) = []).
  { clear - Hnone. induction (user_sessions w2) as [| r l IH]; [reflexivity |].
    cbn. rewrite (Hnone r (or_introl eq_refl)). apply IH.
    intros r' Hin. apply Hnone. now right. }
  assert (Hkeep : filter (fun r => negb (lt_expires_at (cutoff w2) r)) (user_sessions w2)
                  = user_sessions w2).
  { clear - Hnone. induction (user_sessions w2) as [| r l IH]; [reflexivity |].
    cbn. rewrite (Hnone r (or_introl eq_refl)). cbn. f_equal. apply IH.
    intros r' Hin. apply Hnone. now right. }
  destruct (String.eqb_spec (httpMethod ev2) "OPTIONS") as [Hm2 | Hm2].
  { destruct (handler_keeps_unless_sweeping env ev2 w2 (or_introl Hm2))
      as [r2 [w2' [Hrun2 [Hrows Hnot]]]].
    exists r2, w2'. split; [exact Hrun2 |]. split; [exact Hrows |].
    split; [contradiction | contradiction]. }
  destruct (store_error w2) as [e |] eqn:He2.
  { destruct (handler_keeps_unless_sweeping env ev2 w2)
      as [r2 [w2' [Hrun2 [Hrows Hnot]]]]; [right; congruence |].
    exists r2, w2'. split; [exact Hrun2 |]. split; [exact Hrows |].
    split; [discriminate | contradiction]. }
  do 2 eexists. split; [apply (handler_sweeps env ev2 w2 Hm2 Hs He2) |].
  cbn [user_sessions]. rewrite Hkeep, Hdel. cbn [List.length].
  split; [reflexivity |]. split; [intros _ _; repeat split | reflexivity].
Qed.

Lemma cleanup_idempotent_witness :
  exists w2' : World,
    handler sample_env sample_event sample_world_later = (inr (cleaned 0), w2')
    /\ user_sessions w2' = user_sessions sample_world_later.
Proof.
  destruct (cleanup_idempotent sample_env sample_event sample_event
              sample_world (snd (handler sample_env sample_event sample_world))
              sample_world_later (cleaned 1))
    as [r2 [w2' [Hrun [Hrows [Hzero _]]]]].
  - reflexivity.
  - reflexivity.
  - reflexivity.
  - intros r t [<- | []] [= <-]. unfold cutoff, noon, hour. cbn. lia.
  - exists w2'. destruct Hzero as [-> _]; [discriminate | reflexivity |].
    split; [exact Hrun | exact Hrows].
Defined.

End Cleanup.

(* ===================================================================== *)
(** ** Properties of exchange-facebook-token *)
(* ===================================================================== *)

Section Exchange.
Import ExchangeFacebookToken ExchangeProps.

Lemma lacks_code_undefined (event : Event) :
  lacks_code event -> code_of event = Undefined.
Proof.
  unfold lacks_code, code_of.
  destruct (queryStringParameters event) as [q |]; [| reflexivity].
  intros ->. reflexivity.
Qed.

(** Without a usable [code] a request that is not a preflight is answered
    400 before the environment is read and before anything is sent. *)
Lemma missing_code_400 (env : Env) (net : Network) (event : Event) (sent : Sent) :
  httpMethod event <> "OPTIONS" ->
  truthy (code_of event) = false ->
  handler env net event sent =
    (inr {| statusCode := 400; headers := cors_headers;
            body := Some (Obj [ ("error", Str "Missing code parameter") ]) |}, sent).
Proof.
  intros Hm Hc. unfold handler.
  rewrite (not_preflight _ Hm), Hc. reflexivity.
Qed.

(** The three guards passed, the handler is its outer [try]. *)
Lemma handler_exchanges (env : Env) (net : Network) (event : Event) :
  httpMethod event <> "OPTIONS" ->
  truthy (code_of event) = true ->
  configured env = true ->
  handler env net event =
    try_catch
      (response <- axios_get net (exchange_request env event) ;;
       access_token <- get (data response) "access_token" ;;
       if negb (truthy access_token) then
         ret {| statusCode := 400; headers := cors_headers;
                body := Some (json (Obj [ ("error", Str "Failed to retrieve access token") ])) |}
       else
         try_catch (fetch_pages net (data response) access_token)
                   (pages_failed (data response) access_token))
      exchange_failed.
Proof.
  intros Hm Hc Hcfg. unfold handler, configured in *.
  rewrite (not_preflight _ Hm), Hc.
  apply andb_true_iff in Hcfg as [-> ->]. reflexivity.
Qed.

(** The inner [catch] always answers, and sends nothing. *)
Lemma pages_failed_answers (tokenData access_token : value) (e : exn) (sent : Sent) :
  nullish tokenData = false ->
  pages_failed tokenData access_token e sent =
    (inr {| statusCode := 200; headers := cors_headers;
            body := Some (json (Obj
              [ ("accessToken", access_token);
                ("expiresIn", prop tokenData "expires_in");
                ("pages", Arr []);
                ("pagesError", Str "Failed to fetch pages");
                ("errorDetails", or_else (optprop (response_data e) "error")
                                         (Str (message e))) ])) |}, sent).
Proof.
  intros Hn. unfold pages_failed, bind, console_log, get, ret.
  rewrite Hn.
  destruct (truthy (optprop (response_data e) "error")); reflexivity.
Qed.

(** Serialised members of the two 200 bodies. *)
Lemma degraded_members (access_token expires_in details : value) :
  truthy access_token = true ->
  let r := {| statusCode := 200; headers := cors_headers;
              body := Some (json (Obj
                [ ("accessToken", access_token);
                  ("expiresIn", expires_in);
                  ("pages", Arr []);
                  ("pagesError", Str "Failed to fetch pages");
                  ("errorDetails", details) ])) |} in
  member "accessToken" r = Some (json access_token)
  /\ member "expiresIn" r = json_member expires_in
  /\ member "pages" r = Some (Arr [])
  /\ member "pagesError" r = Some (Str "Failed to fetch pages").
Proof.
  intros Ht r. subst r. unfold member. cbn [body].
  destruct access_token; try discriminate Ht;
    destruct expires_in; destruct details; cbn; auto.
Qed.

(** A preflight request is answered 204 whatever else it carries. *)
Lemma preflight_204 (env : Env) (net : Network) (event : Event) (sent : Sent) :
  httpMethod event = "OPTIONS" ->
  handler env net event sent =
    (inr {| statusCode := 204; headers := cors_headers; body := None |}, sent).
Proof. intros H. unfold handler. rewrite H. reflexivity. Qed.

(** The claim C2 as stated fails on a preflight request: it lacks [code] and
    is answered 204 with no body. *)
Lemma preflight_without_code_not_400 :
  lacks_code preflight
  /\ run sample_env (network_with (inr no_pages)) preflight =
       (inr {| statusCode := 204; headers := cors_headers; body := None |}, [])
  /\ ~ (exists r : Response,
          fst (run sample_env (network_with (inr no_pages)) preflight) = inr r
          /\ statusCode r = 400).
Proof.
  split; [exact I |]. split; [reflexivity |].
  intros [r [Hr H400]]. cbn in Hr. injection Hr as <-. discriminate H400.
Qed.

(** C2 (amended). Every request that is not a preflight and whose query
    string lacks [code] is answered 400 with the JSON body
    [{error: 'Missing code parameter'}], and the invocation sends no HTTP
    request at all, so none to the token endpoint. A preflight request is
    answered 204 without a body, and nothing is sent either, whether or not it
    carries a code. *)
Theorem missing_code_no_request (env : Env) (net : Network) (event : Event) :
  (httpMethod event <> "OPTIONS" ->
   lacks_code event ->
   exists r : Response,
     run env net event = (inr r, [])
     /\ statusCode r = 400
     /\ body r = Some (Obj [ ("error", Str "Missing code parameter") ])
     /\ member "error" r = Some (Str "Missing code parameter")
     /\ ~ In (exchange_request env event) (snd (run env net event)))
  /\ (httpMethod event = "OPTIONS" ->
      run env net event
      = (inr {| statusCode := 204; headers := cors_headers; body := None |}, [])).
Proof.
  split.
  - intros Hm Hl. unfold run.
    rewrite (missing_code_400 env net event [] Hm)
      by (rewrite (lacks_code_undefined _ Hl); reflexivity).
    eexists. split; [reflexivity |]. cbn. auto.
  - intros Hm. unfold run. apply preflight_204. exact Hm.
Qed.

Lemma missing_code_no_request_witness :
  (exists r : Response,
     run no_env (network_with (inr no_pages)) without_code = (inr r, [])
     /\ statusCode r = 400
     /\ body r = Some (Obj [ ("error", Str "Missing code parameter") ])
     /\ member "error" r = Some (Str "Missing code parameter")
     /\ ~ In (exchange_request no_env without_code)
             (snd (run no_env (network_with (inr no_pages)) without_code)))
  /\ run sample_env (network_with (inr no_pages))
         {| httpMethod := "OPTIONS"; queryStringParameters := Some [ ("code", "abc123") ] |}
     = (inr {| statusCode := 204; headers := cors_headers; body := None |}, []).
Proof.
  split.
  - apply (missing_code_no_request no_env (network_with (inr no_pages)) without_code).
    + discriminate.
    + reflexivity.
  - apply (missing_code_no_request sample_env (network_with (inr no_pages))
             {| httpMethod := "OPTIONS";
                queryStringParameters := Some [ ("code", "abc123") ] |}).
    reflexivity.
Defined.

(** The handler itself never throws: the outer [catch] answers 500. *)
Lemma handler_answers (env : Env) (net : Network) (event : Event) (sent : Sent) :
  exists (r : Response) (sent' : Sent), handler env net event sent = (inr r, sent').
Proof.
  unfold handler.
  destruct (httpMethod event =? "OPTIONS")%string; [unfold ret; eauto |].
  destruct (negb (truthy (code_of event))); [unfold ret; eauto |].
  destruct (_ || _); [unfold ret; eauto |].
  unfold try_catch at 1.
  match goal with
  | |- context [match ?m sent with _ => _ end] => destruct (m sent) as [[e | r] s']
  end.
  - unfold exchange_failed, bind, console_log, ret. eauto.
  - eauto.
Qed.

(** The claim C9 as stated fails on a preflight request too: no [code], no
    credentials, and the answer is 204. *)
Lemma preflight_unconfigured_not_400 :
  lacks_code preflight_with_query
  /\ configured no_env = false
  /\ run no_env (network_with (inr no_pages)) preflight_with_query =
       (inr {| statusCode := 204; headers := cors_headers; body := None |}, [])
  /\ ~ (exists r : Response,
          fst (run no_env (network_with (inr no_pages)) preflight_with_query) = inr r
          /\ statusCode r = 400).
Proof.
  split; [reflexivity |]. split; [reflexivity |]. split; [reflexivity |].
  intros [r [Hr H400]]. cbn in Hr. injection Hr as <-. discriminate H400.
Qed.

(** C9 (amended). The check of [code] comes before the check of the
    configuration: a request that is not a preflight and lacks [code] gets
    400 'Missing code parameter' whether or not the application id and secret
    are set; and a 500 answer, 'Server configuration error' included, is
    only given to a request that carries a [code]. *)
Theorem code_check_precedes_configuration (env : Env) (net : Network) (event : Event)
    (r : Response) :
  fst (run env net event) = inr r ->
  (httpMethod event <> "OPTIONS" -> lacks_code event ->
     statusCode r = 400 /\ member "error" r = Some (Str "Missing code parameter"))
  /\ (statusCode r = 500 -> truthy (code_of event) = true /\ ~ lacks_code event)
  /\ (member "error" r = Some (Str "Server configuration error") ->
        truthy (code_of event) = true /\ ~ lacks_code event).
Proof.
  intros Hr.
  assert (Hcarry : truthy (code_of event) = true -> ~ lacks_code event).
  { intros Ht Hl. rewrite (lacks_code_undefined _ Hl) in Ht. discriminate. }
  split; [| split].
  - intros Hm Hl. unfold run in Hr.
    rewrite (missing_code_400 env net event [] Hm) in Hr
      by (rewrite (lacks_code_undefined _ Hl); reflexivity).
    injection Hr as <-. cbn. auto.
  - intros H500.
    destruct (String.eqb_spec (httpMethod event) "OPTIONS") as [Ho | Hm].
    + unfold run in Hr. rewrite (preflight_204 _ _ _ _ Ho) in Hr.
      injection Hr as <-. discriminate H500.
    + destruct (truthy (code_of event)) eqn:Hc; [auto |].
      unfold run in Hr. rewrite (missing_code_400 env net event [] Hm Hc) in Hr.
      injection Hr as <-. discriminate H500.
  - intros Herr.
    destruct (String.eqb_spec (httpMethod event) "OPTIONS") as [Ho | Hm].
    + unfold run in Hr. rewrite (preflight_204 _ _ _ _ Ho) in Hr.
      injection Hr as <-. discriminate Herr.
    + destruct (truthy (code_of event)) eqn:Hc; [auto |].
      unfold run in Hr. rewrite (missing_code_400 env net event [] Hm Hc) in Hr.
      injection Hr as <-. discriminate Herr.
Qed.

Lemma code_check_precedes_configuration_witness :
  configured no_env = false
  /\ exists r : Response,
       fst (run no_env (network_with (inr no_pages)) without_code) = inr r
       /\ statusCode r = 400
       /\ member "error" r = Some (Str "Missing code parameter").
Proof.
  split; [reflexivity |].
  exists {| statusCode := 400; headers := cors_headers;
            body := Some (Obj [ ("error", Str "Missing code parameter") ]) |}.
  split; [reflexivity |].
  apply (code_check_precedes_configuration no_env (network_with (inr no_pages)) without_code).
  - reflexivity.
  - discriminate.
  - reflexivity.
Defined.

(** Each diagnostic sends its one request and ends normally, whatever the
    network answers. *)
Lemma diagnose_user_swallows (net : Network) (access_token : value) (sent : Sent) :
  diagnose_user net access_token sent =
    (inr tt, (sent ++ [user_request access_token])%list).
Proof.
  unfold diagnose_user, try_catch, bind, axios_get, get, console_log, ret, throw.
  destruct (net (user_request access_token)) as [e | r]; [reflexivity |].
  destruct (nullish (data r)); reflexivity.
Qed.

Lemma diagnose_permissions_swallows (net : Network) (access_token : value) (sent : Sent) :
  diagnose_permissions net access_token sent =
    (inr tt, (sent ++ [permissions_request access_token])%list).
Proof.
  unfold diagnose_permissions, try_catch, bind, axios_get, get, console_log, ret, throw.
  destruct (net (permissions_request access_token)) as [e | r]; [reflexivity |].
  destruct (nullish (data r)); reflexivity.
Qed.

(** Logging pages that are objects reads their properties and ends
    normally. *)
Lemma forEach_log_page (l : list value) (sent : Sent) :
  forallb (fun page => negb (nullish page)) l = true ->
  forEach l log_page sent = (inr tt, sent).
Proof.
  induction l as [| page l IH]; [reflexivity |].
  cbn [forallb forEach]. intros H. apply andb_true_iff in H as [Hp Hl].
  apply negb_true_iff in Hp.
  unfold bind at 1. unfold log_page, bind, get, console_log, ret.
  rewrite Hp. apply IH. exact Hl.
Qed.

(** The pages step reads the network only at its own request and at the
    two diagnostics, and the latter do not matter. *)
Lemma fetch_pages_ignores_diagnostics (net net' : Network)
    (tokenData access_token : value) (sent : Sent) :
  net' (pages_request access_token) = net (pages_request access_token) ->
  fetch_pages net' tokenData access_token sent = fetch_pages net tokenData access_token sent.
Proof.
  intros H. unfold fetch_pages.
  apply bind_cong; [intros s0; unfold axios_get; rewrite H; reflexivity |].
  intros pagesResponse s0.
  apply bind_cong; [reflexivity |]. intros listed s1.
  apply bind_cong; [reflexivity |]. intros len s2.
  apply bind_cong; [reflexivity |]. intros paging s3.
  apply bind_cong; [reflexivity |]. intros _ s4.
  apply bind_cong; [| reflexivity]. intros s5.
  destruct len as [| | b | n | str | items | ms]; try reflexivity.
  destruct n; try reflexivity.
  unfold bind. rewrite !diagnose_user_swallows, !diagnose_permissions_swallows.
  reflexivity.
Qed.

(** The whole invocation is the same on two networks that differ only at
    the diagnostic endpoints: same response, same requests. *)
Lemma handler_ignores_diagnostics (env : Env) (net net' : Network) (event : Event)
    (sent : Sent) :
  (forall req, ~ diagnostic req -> net' req = net req) ->
  handler env net' event sent = handler env net event sent.
Proof.
  intros Hsame. unfold handler.
  destruct (httpMethod event =? "OPTIONS")%string; [reflexivity |].
  destruct (negb (truthy (code_of event))); [reflexivity |].
  destruct (_ || _); [reflexivity |].
  apply try_catch_cong. intros s0.
  apply bind_cong.
  - intros s1. unfold axios_get. rewrite Hsame; [reflexivity |].
    unfold diagnostic, token_request, tokenExchangeUrl. cbn.
    intros [H | H]; discriminate H.
  - intros response s1.
    apply bind_cong; [reflexivity |]. intros access_token s2.
    destruct (negb (truthy access_token)); [reflexivity |].
    apply try_catch_cong. intros s3.
    apply fetch_pages_ignores_diagnostics.
    apply Hsame. unfold diagnostic, pages_request. cbn.
    intros [H | H]; discriminate H.
Qed.

(** With pages listed in the documented shape the pages step answers 200
    with those pages. *)
Lemma fetch_pages_lists (net : Network) (tokenData access_token : value)
    (pagesResponse : axios_response) (sent : Sent) :
  nullish tokenData = false ->
  net (pages_request access_token) = inr pagesResponse ->
  lists_pages (data pagesResponse) = true ->
  exists sent' : Sent,
    fetch_pages net tokenData access_token sent =
      (inr {| statusCode := 200; headers := cors_headers;
              body := Some (json (Obj [ ("accessToken", access_token);
                                        ("expiresIn", prop tokenData "expires_in");
                                        ("pages", pages_of (data pagesResponse)) ])) |},
       sent').
Proof.
  intros Hn Hnet Hshape. unfold lists_pages in Hshape.
  apply andb_true_iff in Hshape as [Hbody Hdata]. apply negb_true_iff in Hbody.
  assert (Hcase : or_else (prop (data pagesResponse) "data") (Arr []) = Arr []
                  \/ exists page l,
                       or_else (prop (data pagesResponse) "data") (Arr []) = Arr (page :: l)
                       /\ forallb (fun page => negb (nullish page)) (page :: l) = true).
  { unfold or_else.
    destruct (prop (data pagesResponse) "data") as [| | b | n | str | l | ms];
      try (left; apply negb_true_iff in Hdata; rewrite Hdata; reflexivity).
    destruct l as [| page l]; [left; reflexivity | right; exists page, l; auto]. }
  unfold fetch_pages, pages_of, bind, axios_get, get, console_log, ret, throw.
  rewrite Hnet, Hbody, Hn.
  destruct Hcase as [-> | [page [l [-> Hl]]]].
  - cbn [nullish prop String.eqb Ascii.eqb Bool.eqb List.length Z.of_nat].
    rewrite diagnose_user_swallows, diagnose_permissions_swallows. eauto.
  - cbn [nullish prop String.eqb Ascii.eqb Bool.eqb List.length Z.of_nat].
    rewrite (forEach_log_page _ _ Hl). eauto.
Qed.

Lemma lists_pages_array (body : value) :
  lists_pages body = true -> exists l, pages_of body = Arr l.
Proof.
  unfold lists_pages, pages_of, or_else. intros H.
  apply andb_true_iff in H as [_ H].
  destruct (prop body "data") as [| | b | n | str | l | ms];
    try (apply negb_true_iff in H; rewrite H; eauto).
  cbn. eauto.
Qed.

Lemma listed_members (access_token expires_in : value) (l : list value) :
  truthy access_token = true ->
  let r := {| statusCode := 200; headers := cors_headers;
              body := Some (json (Obj [ ("accessToken", access_token);
                                        ("expiresIn", expires_in);
                                        ("pages", Arr l) ])) |} in
  member "accessToken" r = Some (json access_token)
  /\ member "expiresIn" r = json_member expires_in
  /\ member "pages" r = Some (json (Arr l))
  /\ member "pagesError" r = None.
Proof.
  intros Ht r. subst r. unfold member. cbn [body].
  destruct access_token; try discriminate Ht; destruct expires_in; cbn; auto.
Qed.

(** The claim C8 as stated fails when the pages request succeeds with a body
    whose [data] is not an array: the answer carries [pagesError]. *)
Lemma pages_fetched_yet_pagesError :
  network_with (inr not_a_list) (pages_request (Str "T1")) = inr not_a_list
  /\ exists r : Response,
       fst (run sample_env (network_with (inr not_a_list)) with_code) = inr r
       /\ statusCode r = 200
       /\ member "pages" r = Some (Arr [])
       /\ member "pagesError" r = Some (Str "Failed to fetch pages")
       /\ member "errorDetails" r = Some (Str "pages.forEach is not a function").
Proof.
  split; [reflexivity |]. eexists. split; [reflexivity |]. cbn. auto.
Qed.

Section TokenObtained.

(** An invocation that passes the three guards and whose request to the
    token endpoint is answered with an access token. *)
Variables (env : Env) (net : Network) (event : Event) (tokenResponse : axios_response).
Hypothesis not_options : httpMethod event <> "OPTIONS".
Hypothesis has_code : truthy (code_of event) = true.
Hypothesis is_configured : configured env = true.
Hypothesis token_answer : net (exchange_request env event) = inr tokenResponse.
Hypothesis has_token : truthy (prop (data tokenResponse) "access_token") = true.

Local Abbreviation tokenData := (data tokenResponse).
Local Abbreviation access_token := (prop (data tokenResponse) "access_token").

(** Such an invocation is the inner [try] and its [catch], entered after
    the one request to the token endpoint. *)
Lemma reaches_pages_step :
  run env net event =
    try_catch (fetch_pages net tokenData access_token)
              (pages_failed tokenData access_token)
              [exchange_request env event].
Proof.
  pose proof (prop_truthy_not_nullish _ _ has_token) as Hn.
  unfold run. rewrite (handler_exchanges env net event not_options has_code is_configured).
  unfold try_catch at 1. unfold bind at 1. unfold axios_get at 1. rewrite token_answer.
  unfold bind at 1. unfold get at 1. rewrite Hn. unfold ret at 1.
  rewrite has_token. cbn [negb].
  destruct (try_catch _ _ _) as [[e | r] sent'] eqn:Hinner.
  - exfalso. revert Hinner. unfold try_catch.
    destruct (fetch_pages _ _ _ _) as [[e' | r'] s']; [| discriminate].
    rewrite (pages_failed_answers _ _ _ _ Hn). discriminate.
  - reflexivity.
Qed.

(** C1. A token exchange (the request is not a preflight, carries a code,
    and the credentials are configured) in which the token endpoint returns
    an access token and the pages request then throws is answered 200 with
    the access token and [expires_in] of the token response, [pages] empty
    and the diagnostic [pagesError] present: the token is not lost. *)
Theorem token_survives_pages_failure (pagesError : exn) :
  net (pages_request access_token) = inl pagesError ->
  exists r : Response,
    fst (run env net event) = inr r
    /\ statusCode r = 200
    /\ member "accessToken" r = Some (json access_token)
    /\ member "expiresIn" r = json_member (prop tokenData "expires_in")
    /\ member "pages" r = Some (Arr [])
    /\ member "pagesError" r = Some (Str "Failed to fetch pages").
Proof.
  intros Hpages.
  pose proof (prop_truthy_not_nullish _ _ has_token) as Hn.
  rewrite reaches_pages_step.
  unfold try_catch, fetch_pages. unfold bind at 1. unfold axios_get at 1.
  rewrite Hpages, (pages_failed_answers _ _ _ _ Hn).
  eexists. split; [reflexivity |]. split; [reflexivity |].
  apply degraded_members. exact has_token.
Qed.

(** C8 (amended). When the pages request succeeds and its body lists the
    pages in the documented shape (a body whose [data] is absent or falsy, or
    an array without null or undefined entries, the empty array included),
    the 200 body carries the
    token, those pages and no [pagesError]; and the outcome of the two
    diagnostic requests never shows: on any network that differs only at the
    diagnostic endpoints the invocation gives the same response. *)
Theorem listed_pages_without_pagesError (net' : Network) (pagesResponse : axios_response) :
  net (pages_request access_token) = inr pagesResponse ->
  lists_pages (data pagesResponse) = true ->
  (forall req, ~ diagnostic req -> net' req = net req) ->
  exists r : Response,
    fst (run env net event) = inr r
    /\ statusCode r = 200
    /\ member "accessToken" r = Some (json access_token)
    /\ member "expiresIn" r = json_member (prop tokenData "expires_in")
    /\ member "pages" r = Some (json (pages_of (data pagesResponse)))
    /\ member "pagesError" r = None
    /\ run env net' event = run env net event.
Proof.
  intros Hpages Hshape Hsame.
  pose proof (prop_truthy_not_nullish _ _ has_token) as Hn.
  destruct (lists_pages_array _ Hshape) as [l Hl].
  destruct (fetch_pages_lists net tokenData access_token pagesResponse
              [exchange_request env event] Hn Hpages Hshape) as [sent' Hf].
  assert (Hrun : run env net event =
                   (inr {| statusCode := 200; headers := cors_headers;
                           body := Some (json (Obj
                             [ ("accessToken", access_token);
                               ("expiresIn", prop tokenData "expires_in");
                               ("pages", Arr l) ])) |}, sent')).
  { rewrite reaches_pages_step. unfold try_catch. rewrite Hf, Hl. reflexivity. }
  destruct (listed_members access_token (prop tokenData "expires_in") l has_token)
    as [H1 [H2 [H3 H4]]].
  eexists. split; [rewrite Hrun; reflexivity |]. split; [reflexivity |].
  rewrite Hl. repeat split; try assumption.
  unfold run. apply handler_ignores_diagnostics. exact Hsame.
Qed.

End TokenObtained.

Lemma token_survives_pages_failure_witness :
  exists r : Response,
    fst (run sample_env (network_with (inl network_error)) with_code) = inr r
    /\ statusCode r = 200
    /\ member "accessToken" r = Some (Str "T1")
    /\ member "expiresIn" r = Some (Num 3600)
    /\ member "pages" r = Some (Arr [])
    /\ member "pagesError" r = Some (Str "Failed to fetch pages").
Proof.
  apply (token_survives_pages_failure sample_env (network_with (inl network_error))
           with_code token_reply) with (pagesError := network_error).
  - discriminate.
  - reflexivity.
  - reflexivity.
  - reflexivity.
  - reflexivity.
  - reflexivity.
Defined.

Lemma listed_pages_without_pagesError_witness :
  exists r : Response,
    fst (run sample_env (network_with (inr no_pages)) with_code) = inr r
    /\ statusCode r = 200
    /\ member "accessToken" r = Some (Str "T1")
    /\ member "expiresIn" r = Some (Num 3600)
    /\ member "pages" r = Some (Arr [])
    /\ member "pagesError" r = None
    /\ run sample_env (fun req => if is_url "https://graph.facebook.com/v18.0/me" req
                                  then inr {| data := Null |}
                                  else network_with (inr no_pages) req) with_code
       = run sample_env (network_with (inr no_pages)) with_code.
Proof.
  apply (listed_pages_without_pagesError sample_env (network_with (inr no_pages))
           with_code token_reply) with (pagesResponse := no_pages).
  - discriminate.
  - reflexivity.
  - reflexivity.
  - reflexivity.
  - reflexivity.
  - reflexivity.
  - reflexivity.
  - intros req Hd. unfold is_url.
    destruct (String.eqb_spec (url req) "https://graph.facebook.com/v18.0/me") as [He | Hne].
    + exfalso. apply Hd. left. exact He.
    + reflexivity.
Defined.

End Exchange.

(* ===================================================================== *)
(** ** Properties of getSessionWithRetry *)
(* ===================================================================== *)

Section Retry.
Import SupabaseLib RetryProps.

(** One attempt takes at most its time limit. *)
(** A timer runs for at least a millisecond, and for the delay it was set
    with when that is between 1 and [TIMEOUT_MAX]. *)
Lemma timer_delay_cases (ms : Z) :
  (1 <= ms <= TIMEOUT_MAX /\ timer_delay ms = ms)
  \/ ((ms < 1 \/ TIMEOUT_MAX < ms) /\ timer_delay ms = 1).
Proof.
  unfold timer_delay.
  destruct (Z.leb_spec 1 ms); destruct (Z.leb_spec ms TIMEOUT_MAX); cbn [andb];
    [left | right | right | right]; split; auto; lia.
Qed.

Lemma race_bounds (timeoutMs : Z) (s : Settlement) :
  0 <= fst (race timeoutMs s) <= timer_delay timeoutMs.
Proof.
  unfold race. pose proof (timer_delay_cases timeoutMs) as Hdue.
  destruct s as [after result | after error |]; cbn [fst]; try lia;
    destruct (Z.ltb_spec (Z.of_N after) (timer_delay timeoutMs)); cbn [fst]; lia.
Qed.

Lemma backoff_le (d k : Z) (o : exn + value) : timer_delay (backoff d k o) <= Z.max d 2000.
Proof.
  destruct (timer_delay_cases (backoff d k o)) as [[_ ->] | [_ ->]]; [| lia].
  unfold backoff. destruct o; lia.
Qed.

Lemma backoff_pos (d k : Z) (o : exn + value) : 1 <= timer_delay (backoff d k o).
Proof. destruct (timer_delay_cases (backoff d k o)) as [[H ->] | [_ ->]]; lia. Qed.

(** One pass through the loop body: the attempt, and either the return of
    its session or the wait that [backoff] gives. *)
Lemma attempt_once_spec (auth : AuthService) (d k : Z) (lastError : option exn)
    (t : Timeline) :
  let took := fst (race 5000 (auth (calls t))) in
  let o := snd (race 5000 (auth (calls t))) in
  (exists result,
      o = inr result /\ truthy (session_of result) = true
      /\ attempt_once auth d k lastError t =
           (inr (Return result),
            {| now := now t + took; calls := S (calls t);
               history := (history t ++ [Attempted o])%list |}))
  \/ (without_session o
      /\ attempt_once auth d k lastError t =
           (inr (Continue (remembered o lastError)),
            {| now := now t + took + timer_delay (backoff d k o); calls := S (calls t);
               history := ((history t ++ [Attempted o]) ++ [Waited (backoff d k o)])%list |})).
Proof.
  intros took o. subst took o.
  unfold attempt_once, try_catch, bind, getSessionWithTimeout.
  destruct (race 5000 (auth (calls t))) as [took [e | result]]; cbn [fst snd].
  - right. split; [exact I | reflexivity].
  - destruct (truthy (session_of result)) eqn:Hs.
    + left. exists result. auto.
    + right. split; [exact Hs | reflexivity].
Qed.

Lemma spaced_retry (rule : Z -> exn + value -> Z) (k : Z) (o : exn + value)
    (rest : list Step) :
  spaced rule (k + 1) rest = true ->
  spaced rule k (Attempted o :: Waited (rule k o) :: rest) = true.
Proof. intros H. cbn [spaced]. rewrite Z.eqb_refl, H. reflexivity. Qed.

Lemma last_error_retry (o : exn + value) (ms : Z) (rest : list Step)
    (lastError : option exn) :
  last_error (Attempted o :: Waited ms :: rest) lastError
  = last_error rest (remembered o lastError).
Proof. destruct o; reflexivity. Qed.

Section Loop.

(** One call: the service, the reading of the clock at its start, the
    budget and the initial delay. *)
Variable auth : AuthService.
Variables startTime maxTimeMs d : Z.

(** The loop, from any point of a run: what it adds to the record, what it
    throws, and how far the clock can get. *)
Lemma retry_loop_spec (fuel : nat) :
  forall (k : Z) (lastError : option exn) (t t' : Timeline)
         (outcome : exn + option value),
    retry_loop fuel auth startTime maxTimeMs d k lastError t = (outcome, t') ->
    exists h : list Step,
      history t' = (history t ++ h)%list
      /\ spaced (backoff d) k h = true
      /\ sequential outcome h
      /\ (forall e, outcome = inl e ->
            maxTimeMs <= now t' - startTime
            /\ e = match last_error h lastError with
                   | Some e' => e'
                   | None => gave_up maxTimeMs
                   end)
      /\ (forall result, outcome = inr (Some result) ->
            truthy (session_of result) = true
            /\ now t' - startTime < maxTimeMs + attempt_timeout)
      /\ (now t - startTime < maxTimeMs + attempt_timeout + Z.max d 2000 ->
          now t' - startTime < maxTimeMs + attempt_timeout + Z.max d 2000).
Proof.
  induction fuel as [| fuel IH]; intros k lastError t t' outcome Hrun.
  - cbn in Hrun. injection Hrun as <- <-.
    exists []. rewrite app_nil_r. repeat split; try discriminate; auto.
    apply seq_gave_up. discriminate.
  - cbn [retry_loop] in Hrun. unfold bind at 1 in Hrun. unfold Date_now at 1 in Hrun.
    destruct (Z.ltb_spec (now t - startTime) maxTimeMs) as [Hlt | Hge].
    + unfold bind at 1 in Hrun.
      pose proof (race_bounds 5000 (auth (calls t))) as Hrace.
      change (timer_delay 5000) with 5000 in Hrace.
      destruct (attempt_once_spec auth d k lastError t)
        as [[result [Ho [Hs Hpass]]] | [Hno Hpass]];
        rewrite Hpass in Hrun; clear Hpass.
      * injection Hrun as <- <-. cbn [now history].
        exists [Attempted (snd (race 5000 (auth (calls t))))].
        unfold attempt_timeout.
        split; [reflexivity |]. split; [reflexivity |].
        split; [rewrite Ho; apply seq_found; [exact Hs | reflexivity] |].
        split; [discriminate |].
        split; [intros r [= <-]; split; [exact Hs | lia] | intros _; lia].
      * apply IH in Hrun. cbn [now history] in Hrun.
        destruct Hrun as [h [Hh [Hsp [Hseq [Hthrow [Hfound Htime]]]]]].
        pose proof (backoff_le d k (snd (race 5000 (auth (calls t))))) as Hb.
        exists (Attempted (snd (race 5000 (auth (calls t))))
                :: Waited (backoff d k (snd (race 5000 (auth (calls t))))) :: h).
        split; [rewrite Hh, <- !app_assoc; reflexivity |].
        split; [apply spaced_retry; exact Hsp |].
        split; [apply seq_retry; assumption |].
        split; [intros e He; rewrite last_error_retry; apply Hthrow; exact He |].
        split; [exact Hfound |].
        intros _. apply Htime. unfold attempt_timeout. lia.
    + unfold throw in Hrun. injection Hrun as <- <-.
      exists []. rewrite app_nil_r.
      split; [reflexivity |]. split; [reflexivity |].
      split; [apply seq_gave_up; discriminate |].
      split; [intros e [= <-]; split; [exact Hge | reflexivity] |].
      split; [discriminate | auto].
Qed.

(** With a positive initial delay every pass moves the clock, so the loop
    ends within [maxTimeMs] passes. *)
Lemma retry_loop_ends (fuel : nat) :
  0 < d ->
  forall (k : Z) (lastError : option exn) (t : Timeline),
    1 <= k ->
    (Z.to_nat (maxTimeMs - (now t - startTime)) < fuel)%nat ->
    fst (retry_loop fuel auth startTime maxTimeMs d k lastError t) <> inr None.
Proof.
  intros Hd. induction fuel as [| fuel IH]; intros k lastError t Hk Hfuel; [lia |].
  cbn [retry_loop]. unfold bind at 1. unfold Date_now at 1.
  destruct (Z.ltb_spec (now t - startTime) maxTimeMs) as [Hlt | Hge].
  - unfold bind at 1.
    pose proof (race_bounds 5000 (auth (calls t))) as Hrace.
    change (timer_delay 5000) with 5000 in Hrace.
    destruct (attempt_once_spec auth d k lastError t)
      as [[result [Ho [Hs Hpass]]] | [Hno Hpass]]; rewrite Hpass; clear Hpass.
    + cbn. discriminate.
    + apply IH; [lia |]. cbn [now].
      pose proof (backoff_pos d k (snd (race 5000 (auth (calls t))))). lia.
  - cbn. discriminate.
Qed.

End Loop.

(** In the record of a run an attempt that found a session is the last
    entry, and its result is what the run returned. *)
Lemma sequential_session_last (outcome : exn + option value) (h : list Step) :
  sequential outcome h ->
  forall (pre post : list Step) (result : value),
    h = (pre ++ Attempted (inr result) :: post)%list ->
    truthy (session_of result) = true ->
    post = [] /\ outcome = inr (Some result).
Proof.
  induction 1 as [Hnone | found Hfound Hout | o ms rest Hno Hseq IH];
    intros pre post result Heq Hs.
  - destruct pre; discriminate Heq.
  - destruct pre as [| x pre].
    + injection Heq as <- <-. auto.
    + destruct pre; discriminate Heq.
  - destruct pre as [| x [| y pre]].
    + injection Heq as -> _. cbn in Hno. congruence.
    + discriminate Heq.
    + injection Heq as _ _ Hrest. apply (IH pre post result Hrest Hs).
Qed.

Lemma getSessionWithRetry_loop (fuel : nat) (auth : AuthService) (maxTimeMs d t0 : Z) :
  getSessionWithRetry fuel auth maxTimeMs d (fresh t0)
  = retry_loop fuel auth t0 maxTimeMs d 1 None (fresh t0).
Proof. reflexivity. Qed.

(** The claim C3 as stated fails after an attempt that throws: the second
    wait of this run is 500 ms where the linear rule gives 1000 ms. *)
Lemma error_backoff_not_linear :
  exists t' : Timeline,
    getSessionWithRetry 10 failing 1200 500 (fresh 0) = (inl (Error "Failed to fetch"), t')
    /\ history t' = [ Attempted (inl (Error "Failed to fetch")); Waited 500;
                      Attempted (inl (Error "Failed to fetch")); Waited 500;
                      Attempted (inl (Error "Failed to fetch")); Waited 500 ]
    /\ linear_backoff 500 2 (inl (Error "Failed to fetch")) = 1000
    /\ spaced (linear_backoff 500) 1 (history t') = false.
Proof. eexists. split; [reflexivity |]. cbn. auto. Qed.

(** C3 (amended). In every run of [getSessionWithRetry] the wait after
    attempt [k] is [min(initialDelayMs * k, 2000)] when the attempt returned
    no session and [initialDelayMs] when it threw; a run that throws does so
    when the budget is used up, and throws the error of the last failed
    attempt, or the generic 'Session check failed after ...ms' error when no
    attempt failed; with a positive initial delay the run ends, with a
    session or by throwing. *)
Theorem retry_backoff_and_last_error
    (fuel : nat) (auth : AuthService) (maxTimeMs initialDelayMs t0 : Z)
    (outcome : exn + option value) (t' : Timeline) :
  getSessionWithRetry fuel auth maxTimeMs initialDelayMs (fresh t0) = (outcome, t') ->
  spaced (backoff initialDelayMs) 1 (history t') = true
  /\ (forall e, outcome = inl e ->
        maxTimeMs <= now t' - t0
        /\ e = match last_error (history t') None with
               | Some e' => e'
               | None => gave_up maxTimeMs
               end)
  /\ (0 < initialDelayMs -> (Z.to_nat maxTimeMs < fuel)%nat ->
        (exists result, outcome = inr (Some result) /\ truthy (session_of result) = true)
        \/ (exists e, outcome = inl e)).
Proof.
  intros Hrun. rewrite getSessionWithRetry_loop in Hrun.
  destruct (retry_loop_spec _ _ _ _ _ _ _ _ _ _ Hrun)
    as [h [Hh [Hsp [Hseq [Hthrow [Hfound _]]]]]].
  cbn [history fresh app] in Hh. subst h.
  split; [exact Hsp |]. split; [exact Hthrow |].
  intros Hd Hfuel.
  pose proof (retry_loop_ends auth t0 maxTimeMs initialDelayMs fuel Hd 1 None (fresh t0)) as Hend.
  rewrite Hrun in Hend. cbn [fst now fresh] in Hend.
  destruct outcome as [e | [result |]].
  - right. eauto.
  - left. exists result. split; [reflexivity |]. apply (Hfound result). reflexivity.
  - exfalso. apply Hend; [lia | lia | reflexivity].
Qed.

Lemma retry_backoff_and_last_error_witness :
  exists t' : Timeline,
    getSessionWithRetry 10 failing 1200 500 (fresh 0) = (inl (Error "Failed to fetch"), t')
    /\ spaced (backoff 500) 1 (history t') = true
    /\ 1200 <= now t' - 0
    /\ last_error (history t') None = Some (Error "Failed to fetch").
Proof.
  exists (snd (getSessionWithRetry 10 failing 1200 500 (fresh 0))).
  destruct (retry_backoff_and_last_error 10 failing 1200 500 0
              (inl (Error "Failed to fetch"))
              (snd (getSessionWithRetry 10 failing 1200 500 (fresh 0))))
    as [Hspaced [Hthrown _]].
  - reflexivity.
  - split; [reflexivity |]. split; [exact Hspaced |].
    split; [apply (Hthrown (Error "Failed to fetch")); reflexivity | reflexivity].
Defined.

(** The claim C4 as stated fails: with a budget of 1000 ms and an initial
    delay of 600 ms this run gives up 6200 ms after it began, later than
    the budget plus one attempt's time limit. *)
Lemma gives_up_after_budget_plus_timeout :
  exists t' : Timeline,
    getSessionWithRetry 10 hanging 1000 600 (fresh 0) = (inl (timed_out 5000), t')
    /\ now t' - 0 = 6200
    /\ ~ (now t' - 0 <= 1000 + attempt_timeout).
Proof.
  eexists. split; [reflexivity |]. cbn. split; [reflexivity |].
  unfold attempt_timeout. lia.
Qed.

(** C4 (amended). With a budget [T >= 0], a run of [getSessionWithRetry]
    ends less than [T] plus one attempt's time limit plus one wait (at most
    [max(initialDelayMs, 2000)] ms) after it began, on a clock whose timers
    fire exactly when due; a run that returns a session ends less than [T]
    plus one attempt's time limit after it began; and an attempt that finds a
    session is the last entry of the record and its result is the one
    returned, so no further attempt begins. *)
Theorem retry_time_bound_and_order
    (fuel : nat) (auth : AuthService) (maxTimeMs initialDelayMs t0 : Z)
    (outcome : exn + option value) (t' : Timeline) :
  0 <= maxTimeMs ->
  getSessionWithRetry fuel auth maxTimeMs initialDelayMs (fresh t0) = (outcome, t') ->
  now t' - t0 < maxTimeMs + attempt_timeout + Z.max initialDelayMs 2000
  /\ (forall result, outcome = inr (Some result) ->
        now t' - t0 < maxTimeMs + attempt_timeout)
  /\ (forall (pre post : list Step) (result : value),
        history t' = (pre ++ Attempted (inr result) :: post)%list ->
        truthy (session_of result) = true ->
        post = [] /\ outcome = inr (Some result)).
Proof.
  intros HT Hrun. rewrite getSessionWithRetry_loop in Hrun.
  destruct (retry_loop_spec _ _ _ _ _ _ _ _ _ _ Hrun)
    as [h [Hh [_ [Hseq [_ [Hfound Htime]]]]]].
  cbn [history fresh app now] in Hh, Htime. subst h.
  split; [| split].
  - apply Htime. unfold attempt_timeout. lia.
  - intros result Ho. apply (Hfound result Ho).
  - apply (sequential_session_last outcome (history t') Hseq).
Qed.

Lemma retry_time_bound_and_order_witness :
  exists t' : Timeline,
    getSessionWithRetry 10 eventually 20000 500 (fresh 100) = (inr (Some session_reply), t')
    /\ calls t' = 3%nat
    /\ now t' - 100 < 20000 + attempt_timeout.
Proof.
  exists (snd (getSessionWithRetry 10 eventually 20000 500 (fresh 100))).
  split; [reflexivity |]. split; [reflexivity |].
  apply (retry_time_bound_and_order 10 eventually 20000 500 100
           (inr (Some session_reply))
           (snd (getSessionWithRetry 10 eventually 20000 500 (fresh 100)))
         ) with (result := session_reply).
  - lia.
  - reflexivity.
  - reflexivity.
Defined.

End Retry.

(* ===================================================================== *)
(** ** Properties of the token refresh *)
(* ===================================================================== *)

Section Refresh.
Import SupabaseLib RefreshProps.

(** [refreshSupabaseToken] always returns a boolean. *)
Lemma refreshSupabaseToken_returns (navigator : Navigator) (refreshSession : M Client value)
    (c : Client) :
  exists (b : bool) (c' : Client),
    refreshSupabaseToken navigator refreshSession c = (inr b, c').
Proof.
  unfold refreshSupabaseToken, try_catch.
  match goal with |- context [match ?m c with _ => _ end] => destruct (m c) as [[e | b] c'] end;
    unfold ret; eauto.
Qed.

(** The wrapper of [auth.ts] returns what [refreshSupabaseToken] returns. *)
Lemma refreshAuthToken_same (navigator : Navigator) (refreshSession : M Client value)
    (c : Client) :
  Auth.refreshAuthToken navigator refreshSession c
  = refreshSupabaseToken navigator refreshSession c.
Proof.
  unfold Auth.refreshAuthToken.
  destruct (refreshSupabaseToken_returns navigator refreshSession c) as [b [c' H]].
  unfold try_catch at 1. rewrite H. reflexivity.
Qed.

Lemma refresh_offline (refreshSession : M Client value) (c : Client) :
  refreshSupabaseToken (Some false) refreshSession c = (inr false, c).
Proof. reflexivity. Qed.

Lemma refresh_failed_false (navigator : Navigator) (lib : RefreshBehaviour) (c : Client) :
  refresh_failed (fst (lib (cached_session c))) = true ->
  fst (refreshSupabaseToken navigator (auth_refreshSession lib) c) = inr false.
Proof.
  intros Hf.
  destruct navigator as [[|] |]; [| reflexivity |];
    unfold refreshSupabaseToken, try_catch, bind, auth_refreshSession;
    destruct (lib (cached_session c)) as [[e | reply] held]; cbn [fst] in Hf |- *;
    try reflexivity;
    unfold refresh_failed, optprop in Hf; unfold get, ret, throw;
    destruct (nullish reply); try reflexivity;
    destruct (truthy (prop reply "error")); try reflexivity;
    cbn [orb] in Hf;
    destruct (nullish (prop reply "data")); try reflexivity;
    apply negb_true_iff in Hf; rewrite Hf; reflexivity.
Qed.

(** C7. The token refresh never throws: it always returns a boolean.
    When the client is known to be offline it returns [false], sends no
    refresh request and leaves the cached session as it was; and whenever the
    refresh does not produce a session (the request throws, the reply
    carries an error, or it carries no session) it returns [false]. This
    holds for [refreshSupabaseToken] and for its wrapper [refreshAuthToken]. *)
Theorem refresh_failure_returns_false
    (navigator : Navigator) (lib : RefreshBehaviour) (c : Client) :
  (exists (b : bool) (c' : Client),
      refreshSupabaseToken navigator (auth_refreshSession lib) c = (inr b, c')
      /\ Auth.refreshAuthToken navigator (auth_refreshSession lib) c = (inr b, c'))
  /\ (navigator = Some false ->
        refreshSupabaseToken navigator (auth_refreshSession lib) c = (inr false, c)
        /\ Auth.refreshAuthToken navigator (auth_refreshSession lib) c = (inr false, c))
  /\ (refresh_failed (fst (lib (cached_session c))) = true ->
        fst (refreshSupabaseToken navigator (auth_refreshSession lib) c) = inr false
        /\ fst (Auth.refreshAuthToken navigator (auth_refreshSession lib) c) = inr false).
Proof.
  split; [| split].
  - destruct (refreshSupabaseToken_returns navigator (auth_refreshSession lib) c)
      as [b [c' H]].
    exists b, c'. rewrite refreshAuthToken_same. auto.
  - intros ->. rewrite refreshAuthToken_same, refresh_offline. auto.
  - intros Hf. rewrite refreshAuthToken_same.
    split; apply refresh_failed_false; exact Hf.
Qed.

Lemma refresh_failure_returns_false_witness :
  Auth.refreshAuthToken (Some false) (auth_refreshSession refreshing) signed_in
    = (inr false, signed_in)
  /\ fst (Auth.refreshAuthToken (Some true) (auth_refreshSession refused) signed_in)
     = inr false.
Proof.
  split.
  - apply (refresh_failure_returns_false (Some false) refreshing signed_in).
    reflexivity.
  - apply (refresh_failure_returns_false (Some true) refused signed_in).
    reflexivity.
Defined.

End Refresh.

(* ===================================================================== *)
(** ** Properties of getCurrentUser *)
(* ===================================================================== *)

Section CurrentUser.
Import Auth UserProps.

(** The branches that end in [return null]: no session user. *)
Ltac returns_null :=
  unfold throw, ret; do 2 eexists;
  split; [reflexivity |]; split; [tauto | discriminate].

(** The branches of the inner [try] that end in [return minimalUser]. *)
Ltac returns_minimal H :=
  do 2 eexists; split; [reflexivity |]; split; [exact H |]; auto.

(** The run of [getCurrentUser] by the outcome of the session lookup and of
    the read of [users], in terms of [minimalUser]. *)
Lemma getCurrentUser_cases (b : Backend) (sent : list Call) :
  exists (v : value) (sent' : list Call),
    getCurrentUser b sent = (inr v, sent')
    /\ (v = Null <-> session_user b = None)
    /\ (forall user, session_user b = Some user ->
          prop v "isAuthenticated" = Bool true
          /\ (users_row b user = None -> v = minimalUser b user)
          /\ (forall row, users_row b user = Some row ->
                v = Obj (obj_set "isAuthenticated" (Bool true) (spread row))
                \/ v = minimalUser b user)).
Proof.
  unfold getCurrentUser, session_user.
  unfold try_catch at 1. unfold bind at 1. unfold request at 1.
  destruct (auth_getSession b) as [e | reply].
  { returns_null. }
  unfold bind at 1. unfold get at 1.
  destruct (nullish reply) eqn:Hreply; cbn [orb].
  { returns_null. }
  unfold ret at 1. unfold bind at 1. unfold get at 1.
  destruct (nullish (prop reply "data")) eqn:Hdata.
  { returns_null. }
  unfold ret at 1. unfold bind at 1. unfold get at 1. rewrite Hreply. unfold ret at 1.
  destruct (truthy (prop reply "error")) eqn:Herr.
  { returns_null. }
  set (session := prop (prop reply "data") "session").
  destruct (truthy (optprop session "user")) eqn:Huser; cbn [negb].
  2:{ returns_null. }
  destruct (optprop_truthy _ _ Huser) as [Hsession Hprop].
  unfold bind at 1. unfold get at 1. rewrite Hsession. unfold ret at 1.
  rewrite Hprop. set (user := prop session "user").
  assert (Hmin : prop (minimalUser b user) "isAuthenticated" = Bool true) by reflexivity.
  match goal with
  | |- context [try_catch ?m ?h ?s] =>
      assert (Hin : exists v s',
                 try_catch m h s = (inr v, s')
                 /\ prop v "isAuthenticated" = Bool true
                 /\ (users_row b user = None -> v = minimalUser b user)
                 /\ (forall row, users_row b user = Some row ->
                       v = Obj (obj_set "isAuthenticated" (Bool true) (spread row))
                       \/ v = minimalUser b user))
  end.
  { unfold users_row, try_catch, bind, request, get, ret, throw.
    destruct (users_select_single b (prop user "id")) as [e | found].
    { returns_minimal Hmin. }
    destruct (nullish found).
    { returns_minimal Hmin. }
    destruct (truthy (prop found "error")).
    { returns_minimal Hmin. }
    destruct (truthy (prop found "data")).
    2:{ returns_minimal Hmin. }
    destruct (users_update b (prop user "id")) as [e |].
    { do 2 eexists. split; [reflexivity |]. split; [exact Hmin |].
      split; [discriminate | auto]. }
    do 2 eexists. split; [reflexivity |].
    split; [cbn [prop]; rewrite lookup_obj_set; reflexivity |].
    split; [discriminate |]. intros row [= <-]. auto. }
  destruct Hin as [v [s' [Hrun [Hauth [Hminimal Hrow]]]]].
  rewrite Hrun. exists v, s'. split; [reflexivity |]. split.
  - split; [| discriminate]. intros ->. discriminate Hauth.
  - intros user0 [= <-]. auto.
Qed.

(** C10. [getCurrentUser] returns for every behaviour of the session lookup,
    of the read of [users] and of the update it fires: it never throws. It
    returns [null] exactly when there is no session user (the lookup throws
    or its reply is malformed, carries an error, or has no session with a
    user); otherwise it returns a user record whose [isAuthenticated] is
    [true]. Whenever the read of [users] does not yield a row that record is
    built from the session alone: the user's [id], its [email] or [''], the
    [role] of its metadata or ['customer'], its [created_at] or the current
    time, and [isAuthenticated: true]. When the read yields a row the record
    is that row with [isAuthenticated] set, or the record built from the
    session. *)
Theorem getCurrentUser_total (b : Backend) (sent : list Call) :
  exists (v : value) (sent' : list Call),
    getCurrentUser b sent = (inr v, sent')
    /\ (v = Null <-> session_user b = None)
    /\ (forall user, session_user b = Some user ->
          let role := optprop (prop user "user_metadata") "role" in
          let from_session :=
            Obj [ ("id", prop user "id");
                  ("email", if truthy (prop user "email") then prop user "email"
                            else Str "");
                  ("role", if truthy role then role else Str "customer");
                  ("created_at", if truthy (prop user "created_at")
                                 then prop user "created_at"
                                 else Str (now_iso b));
                  ("isAuthenticated", Bool true) ] in
          prop v "isAuthenticated" = Bool true
          /\ (users_row b user = None -> v = from_session)
          /\ (forall row, users_row b user = Some row ->
                v = Obj (obj_set "isAuthenticated" (Bool true) (spread row))
                \/ v = from_session)).
Proof.
  destruct (getCurrentUser_cases b sent) as [v [sent' [Hrun [Hnull Hfull]]]].
  exists v, sent'. split; [exact Hrun |]. split; [exact Hnull |].
  intros user Huser. exact (Hfull user Huser).
Qed.

Lemma getCurrentUser_total_witness :
  exists (v : value) (sent' : list Call),
    getCurrentUser sample_backend [] = (inr v, sent')
    /\ (v = Null <-> session_user sample_backend = None)
    /\ (forall user, session_user sample_backend = Some user ->
          let role := optprop (prop user "user_metadata") "role" in
          let from_session :=
            Obj [ ("id", prop user "id");
                  ("email", if truthy (prop user "email") then prop user "email"
                            else Str "");
                  ("role", if truthy role then role else Str "customer");
                  ("created_at", if truthy (prop user "created_at")
                                 then prop user "created_at"
                                 else Str (now_iso sample_backend));
                  ("isAuthenticated", Bool true) ] in
          prop v "isAuthenticated" = Bool true
          /\ (users_row sample_backend user = None -> v = from_session)
          /\ (forall row, users_row sample_backend user = Some row ->
                v = Obj (obj_set "isAuthenticated" (Bool true) (spread row))
                \/ v = from_session)).
Proof. exact (getCurrentUser_total sample_backend []). Defined.

End CurrentUser.

(* ===================================================================== *)
(** ** More on exchange-facebook-token: every path of the handler *)
(* ===================================================================== *)

Section ExchangePaths.
Import ExchangeFacebookToken ExchangeProps ExchangeCases.

Lemma pages_of_not_nullish (body : value) : nullish (pages_of body) = false.
Proof.
  unfold pages_of, or_else.
  destruct (truthy (prop body "data")) eqn:Ht; [| reflexivity].
  apply truthy_not_nullish. exact Ht.
Qed.

(** Logging the pages stops with a [TypeError] at the first entry that is
    [null] or [undefined], having sent nothing. *)
Lemma forEach_log_page_throws (l : list value) (sent : Sent) :
  forallb (fun page => negb (nullish page)) l = false ->
  exists e, forEach l log_page sent = (inl e, sent).
Proof.
  induction l as [| page l IH]; [discriminate |].
  cbn [forallb forEach]. intros H. unfold bind at 1.
  destruct (nullish page) eqn:Hp.
  - unfold log_page, bind, get, throw. rewrite Hp. eauto.
  - cbn [negb andb] in H.
    unfold log_page, bind, get, console_log, ret. rewrite Hp. apply IH. exact H.
Qed.

(** The body of the inner [try], by the outcome of the pages request. *)
Lemma fetch_pages_cases (net : Network) (tokenData access_token : value)
    (sent sent' : Sent) (res : exn + Response) :
  nullish tokenData = false ->
  fetch_pages net tokenData access_token sent = (res, sent') ->
  (exists pagesResponse,
      net (pages_request access_token) = inr pagesResponse
      /\ pages_readable (inr pagesResponse) = true
      /\ res = inr (answer 200 (Obj [ ("accessToken", access_token);
                                      ("expiresIn", prop tokenData "expires_in");
                                      ("pages", pages_of (data pagesResponse)) ]))
      /\ sent' = (sent ++ pages_request access_token
                          :: (if no_page_counted (inr pagesResponse)
                              then [ user_request access_token;
                                     permissions_request access_token ]
                              else []))%list)
  \/ (pages_readable (net (pages_request access_token)) = false
      /\ (exists e, res = inl e)
      /\ sent' = (sent ++ [pages_request access_token])%list).
Proof.
  intros Hn. unfold fetch_pages.
  unfold bind at 1. unfold axios_get.
  destruct (net (pages_request access_token)) as [e | r] eqn:Hnet.
  { intros [= <- <-]. right. split; [reflexivity | eauto]. }
  unfold bind at 1. unfold get at 1.
  destruct (nullish (data r)) eqn:Hbody.
  { unfold throw. intros [= <- <-]. right.
    unfold pages_readable. rewrite Hbody. split; [reflexivity | eauto]. }
  unfold ret at 1. fold (pages_of (data r)).
  unfold bind at 1. unfold get at 1. rewrite pages_of_not_nullish. unfold ret at 1.
  unfold bind at 1. unfold get at 1. rewrite Hbody. unfold ret at 1.
  unfold bind at 1. unfold console_log at 1. unfold ret at 1.
  unfold bind at 1.
  assert (Hrest : forall s : Sent,
             (expires_in <- get tokenData "expires_in" ;;
              ret {| statusCode := 200; headers := cors_headers;
                     body := Some (json (Obj [ ("accessToken", access_token);
                                               ("expiresIn", expires_in);
                                               ("pages", pages_of (data r)) ])) |}) s
             = (inr (answer 200 (Obj [ ("accessToken", access_token);
                                       ("expiresIn", prop tokenData "expires_in");
                                       ("pages", pages_of (data r)) ])), s)).
  { intros s. unfold bind, get, ret. rewrite Hn. reflexivity. }
  set (all_objects := match pages_of (data r) with
                      | Arr l => forallb (fun page => negb (nullish page)) l
                      | _ => false
                      end).
  assert (Hlog : forall s : Sent,
             ((match pages_of (data r) with
               | Arr l => forEach l log_page
               | _ => throw (Error "pages.forEach is not a function")
               end) s = (inr tt, s) /\ all_objects = true)
             \/ ((exists e,
                    (match pages_of (data r) with
                     | Arr l => forEach l log_page
                     | _ => throw (Error "pages.forEach is not a function")
                     end) s = (inl e, s)) /\ all_objects = false)).
  { intros s. subst all_objects.
    destruct (pages_of (data r)) as [| | b | n | str | l | ms];
      try (right; split; [unfold throw; eauto | reflexivity]).
    destruct (forallb (fun page => negb (nullish page)) l) eqn:Hl.
    - left. split; [apply forEach_log_page; exact Hl | reflexivity].
    - right. split; [apply forEach_log_page_throws; exact Hl | reflexivity]. }
  assert (Hread : forall zero : bool,
             pages_readable (inr r) =
               (if zero then true else all_objects)
             -> no_page_counted (inr r) = zero
             -> (let (logged, s1) :=
                   (if zero
                    then (diagnose_user net access_token ;;;
                          diagnose_permissions net access_token)
                    else match pages_of (data r) with
                         | Arr l => forEach l log_page
                         | _ => throw (Error "pages.forEach is not a function")
                         end) (sent ++ [pages_request access_token])%list in
                 match logged with
                 | inl e => (inl e, s1)
                 | inr _ =>
                     (expires_in <- get tokenData "expires_in" ;;
                      ret {| statusCode := 200; headers := cors_headers;
                             body := Some (json (Obj [ ("accessToken", access_token);
                                                       ("expiresIn", expires_in);
                                                       ("pages", pages_of (data r)) ])) |}) s1
                 end) = (res, sent')
             -> (exists pagesResponse,
                    inr r = inr pagesResponse :> exn + axios_response
                    /\ pages_readable (inr pagesResponse) = true
                    /\ res = inr (answer 200 (Obj [ ("accessToken", access_token);
                                                    ("expiresIn", prop tokenData "expires_in");
                                                    ("pages", pages_of (data pagesResponse)) ]))
                    /\ sent' = (sent ++ pages_request access_token
                                        :: (if no_page_counted (inr pagesResponse)
                                            then [ user_request access_token;
                                                   permissions_request access_token ]
                                            else []))%list)
                \/ (pages_readable (inr r) = false
                    /\ (exists e, res = inl e)
                    /\ sent' = (sent ++ [pages_request access_token])%list)).
  { intros [|] Hreadable Hzero.
    - unfold bind at 1.
      rewrite diagnose_user_swallows, diagnose_permissions_swallows, Hrest.
      rewrite <- !app_assoc. intros [= <- <-]. left. exists r. rewrite Hzero. auto.
    - destruct (Hlog (sent ++ [pages_request access_token])%list)
        as [[Hok Hall] | [[e He] Hall]].
      + rewrite Hok, Hrest. intros [= <- <-]. left. exists r.
        rewrite Hzero, Hreadable, Hall. auto.
      + rewrite He. intros [= <- <-]. right. rewrite Hreadable, Hall. eauto. }
  unfold pages_readable, no_page_counted in Hread |- *.
  rewrite Hbody in Hread |- *. cbn [negb andb] in Hread |- *.
  revert Hread.
  destruct (prop (pages_of (data r)) "length") as [| | b | n | str | l | ms];
    try (intros Hread; exact (Hread false eq_refl eq_refl)).
  destruct n as [| p | p]; intros Hread;
    [ exact (Hread true eq_refl eq_refl)
    | exact (Hread false eq_refl eq_refl)
    | exact (Hread false eq_refl eq_refl) ].
Qed.

(** Every invocation goes one of the ways of [answers]. *)
Lemma run_answers (env : Env) (net : Network) (event : Event) :
  exists (r : Response) (sent : Sent),
    run env net event = (inr r, sent) /\ answers env net event r sent.
Proof.
  destruct (String.eqb_spec (httpMethod event) "OPTIONS") as [Ho | Hm].
  { do 2 eexists. split; [apply preflight_204; exact Ho | apply ans_preflight; exact Ho]. }
  destruct (truthy (code_of event)) eqn:Hc.
  2:{ do 2 eexists.
      split; [apply missing_code_400; assumption | apply ans_no_code; assumption]. }
  destruct (configured env) eqn:Hcfg.
  2:{ do 2 eexists. split; [| apply ans_no_config; assumption].
      unfold run, handler. rewrite (not_preflight _ Hm), Hc. cbn [negb].
      unfold configured in Hcfg. apply andb_false_iff in Hcfg.
      destruct Hcfg as [-> | ->]; cbn [negb orb]; [| rewrite orb_true_r]; reflexivity. }
  unfold run. rewrite (handler_exchanges env net event Hm Hc Hcfg).
  unfold try_catch at 1. unfold bind at 1. unfold axios_get at 1.
  destruct (net (exchange_request env event)) as [e | tokenResponse] eqn:Htok.
  { do 2 eexists. split; [reflexivity |]. apply ans_exchange_failed; assumption. }
  unfold bind at 1. unfold get at 1.
  destruct (nullish (data tokenResponse)) eqn:Hn.
  { do 2 eexists. split; [reflexivity |]. apply (ans_no_token_data env net event tokenResponse); assumption. }
  unfold ret at 1.
  destruct (truthy (prop (data tokenResponse) "access_token")) eqn:Hat; cbn [negb].
  2:{ do 2 eexists. split; [reflexivity |]. apply (ans_no_token env net event tokenResponse); assumption. }
  unfold try_catch at 1.
  destruct (fetch_pages net (data tokenResponse) (prop (data tokenResponse) "access_token")
              ([] ++ [exchange_request env event])%list) as [res sent'] eqn:Hf.
  destruct (fetch_pages_cases _ _ _ _ _ _ Hn Hf)
    as [[pagesResponse [Hnet [Hread [-> ->]]]] | [Hread [[e ->] ->]]].
  - do 2 eexists. split; [reflexivity |]. cbn [app]. apply (ans_pages env net event tokenResponse pagesResponse); assumption.
  - rewrite (pages_failed_answers _ _ _ _ Hn).
    do 2 eexists. split; [reflexivity |]. cbn [app].
    apply (ans_pages_failed env net event tokenResponse e); assumption.
Qed.

(** Reading a member of a serialised object literal, entry by entry. *)
Lemma member_answer_cons (k k' : string) (v : value) (ms : list (string * value))
    (status : Z) :
  member k (answer status (Obj ((k', v) :: ms))) =
    match json_member v with
    | Some x => if (k' =? k)%string then Some x else member k (answer status (Obj ms))
    | None => member k (answer status (Obj ms))
    end.
Proof.
  unfold member, answer. cbn [body].
  destruct v; cbn; destruct (k' =? k)%string; reflexivity.
Qed.

Lemma member_answer_nil (k : string) (status : Z) :
  member k (answer status (Obj [])) = None.
Proof. reflexivity. Qed.

Lemma json_member_defined (v : value) : nullish v = false -> json_member v = Some (json v).
Proof. destruct v; cbn; congruence. Qed.

Lemma reported_truthy (e : exn) : truthy (reported e) = true.
Proof.
  unfold reported, or_else.
  destruct (truthy (optprop (optprop (response_data e) "error") "message")) eqn:H1;
    cbv beta iota.
  - rewrite H1. exact H1.
  - destruct (truthy (Str (message e))) eqn:H2; cbv beta iota; [exact H2 | reflexivity].
Qed.

(** X1. Every invocation is answered: the handler never throws, the status is
    200, 204, 400 or 500, every response carries the CORS headers, only the
    preflight answer has no body, and every 400 or 500 answer has an [error]
    member. *)
Theorem exchange_always_answers (env : Env) (net : Network) (event : Event) :
  exists (r : Response) (sent : Sent),
    run env net event = (inr r, sent)
    /\ headers r = cors_headers
    /\ (statusCode r = 200 \/ statusCode r = 204 \/ statusCode r = 400 \/ statusCode r = 500)
    /\ (body r = None <-> statusCode r = 204)
    /\ (statusCode r = 400 \/ statusCode r = 500 -> member "error" r <> None).
Proof.
  destruct (run_answers env net event) as [r [sent [Hrun Hans]]].
  exists r, sent. split; [exact Hrun |].
  inversion Hans; subst; cbn [headers statusCode body answer];
    (split; [reflexivity |]); (split; [auto |]);
    (split; [split; [discriminate + reflexivity | discriminate + reflexivity] |]);
    try (intros [H400 | H500]; discriminate);
    intros _; rewrite member_answer_cons;
    try (cbn; discriminate).
  rewrite (json_member_defined _ (truthy_not_nullish _ (reported_truthy e))).
  cbn. discriminate.
Qed.

Section Guarded.

(** An invocation that passes the three guards. *)
Variables (env : Env) (net : Network) (event : Event).
Hypothesis not_options : httpMethod event <> "OPTIONS".
Hypothesis has_code : truthy (code_of event) = true.
Hypothesis is_configured : configured env = true.

(** X2. When the request to the token endpoint fails, the answer is 500 and
    its [error] is the message of the Graph API's error object when the
    failure carries one, else the message of the failure, else the fixed
    text; the token endpoint is the only one contacted. *)
Theorem token_request_failure_reported (e : exn) :
  net (exchange_request env event) = inl e ->
  exists r : Response,
    run env net event = (inr r, [exchange_request env event])
    /\ statusCode r = 500
    /\ member "error" r =
         Some (json (let graph := optprop (optprop (response_data e) "error") "message" in
                     if truthy graph then graph
                     else if (message e =? "")%string
                          then Str "Server error during token exchange"
                          else Str (message e))).
Proof.
  intros Htok.
  destruct (run_answers env net event) as [r [sent [Hrun Hans]]].
  inversion Hans; subst; try congruence.
  replace e0 with e in * by congruence.
  eexists. split; [exact Hrun |]. split; [reflexivity |].
  rewrite member_answer_cons,
    (json_member_defined _ (truthy_not_nullish _ (reported_truthy e))).
  cbn [String.eqb Ascii.eqb Bool.eqb]. f_equal. f_equal.
  unfold reported, or_else.
  destruct (truthy (optprop (optprop (response_data e) "error") "message")) eqn:Hg;
    cbv beta iota zeta; rewrite ?Hg; [reflexivity |].
  cbn [truthy]. destruct (message e =? "")%string; reflexivity.
Qed.

(** X3. When the token endpoint answers without a usable access token the
    answer is 400 'Failed to retrieve access token' (500 when the reply has
    no body at all), and the pages endpoint is never contacted. *)
Theorem missing_access_token_rejected (tokenResponse : axios_response) :
  net (exchange_request env event) = inr tokenResponse ->
  truthy (prop (data tokenResponse) "access_token") = false ->
  exists r : Response,
    run env net event = (inr r, [exchange_request env event])
    /\ (nullish (data tokenResponse) = false ->
          statusCode r = 400
          /\ member "error" r = Some (Str "Failed to retrieve access token"))
    /\ (nullish (data tokenResponse) = true -> statusCode r = 500)
    /\ member "accessToken" r = None.
Proof.
  intros Htok Hat.
  destruct (run_answers env net event) as [r [sent [Hrun Hans]]].
  inversion Hans; subst; try congruence;
    replace tokenResponse0 with tokenResponse in * by congruence;
    try congruence;
    (eexists; split; [exact Hrun |]).
  - split; [congruence |]. split; [reflexivity |].
    rewrite member_answer_cons.
    rewrite (json_member_defined _ (truthy_not_nullish _ (reported_truthy _))).
    reflexivity.
  - split; [intros _; split; reflexivity |]. split; [congruence | reflexivity].
Qed.

End Guarded.

Lemma token_request_failure_reported_witness :
  exists r : Response,
    run sample_env refusing with_code = (inr r, [exchange_request sample_env with_code])
    /\ statusCode r = 500
    /\ member "error" r = Some (Str "Invalid OAuth access token").
Proof.
  apply (token_request_failure_reported sample_env refusing with_code)
    with (e := network_error).
  - discriminate.
  - reflexivity.
  - reflexivity.
  - reflexivity.
Defined.

Lemma missing_access_token_rejected_witness :
  exists r : Response,
    run sample_env tokenless with_code = (inr r, [exchange_request sample_env with_code])
    /\ statusCode r = 400
    /\ member "error" r = Some (Str "Failed to retrieve access token").
Proof.
  destruct (missing_access_token_rejected sample_env tokenless with_code)
    with (tokenResponse := {| data := Obj [ ("expires_in", Num 0) ] |})
    as [r [Hrun [H400 _]]].
  - discriminate.
  - reflexivity.
  - reflexivity.
  - reflexivity.
  - reflexivity.
  - exists r. split; [exact Hrun |]. apply H400. reflexivity.
Defined.

(** X4. The requests of an invocation: none, or the token request alone, or
    followed by the pages request, or by the pages request and the two
    diagnostics, in that order; every request goes to one of the four Graph
    API addresses, and only the request to the token endpoint carries
    [client_secret]. *)
Theorem exchange_requests_confined (env : Env) (net : Network) (event : Event) :
  let sent := snd (run env net event) in
  (sent = []
   \/ sent = [exchange_request env event]
   \/ exists access_token,
        sent = [exchange_request env event; pages_request access_token]
        \/ sent = [exchange_request env event; pages_request access_token;
                   user_request access_token; permissions_request access_token])
  /\ (forall req, In req sent -> In (url req) graph_urls)
  /\ (forall req, In req sent -> has_param "client_secret" req = true ->
                  url req = tokenExchangeUrl)
  /\ (forall req, In req sent -> has_param "code" req = true ->
                  url req = tokenExchangeUrl).
Proof.
  intros sent. subst sent.
  destruct (run_answers env net event) as [r [sent [Hrun Hans]]].
  rewrite Hrun. cbn [snd].
  assert (Hshape : sent = []
                   \/ sent = [exchange_request env event]
                   \/ exists access_token,
                        sent = [exchange_request env event; pages_request access_token]
                        \/ sent = [exchange_request env event; pages_request access_token;
                                   user_request access_token;
                                   permissions_request access_token]).
  { inversion Hans; subst; auto.
    - right. right. exists (prop (data tokenResponse) "access_token").
      destruct (no_page_counted (inr pagesResponse)); auto.
    - right. right. exists (prop (data tokenResponse) "access_token"). auto. }
  split; [exact Hshape |].
  assert (Heach : forall req, In req sent ->
                    req = exchange_request env event
                    \/ exists access_token,
                         req = pages_request access_token
                         \/ req = user_request access_token
                         \/ req = permissions_request access_token).
  { intros req Hin.
    destruct Hshape as [-> | [-> | [access_token [-> | ->]]]]; cbn in Hin;
      intuition (subst; eauto 6). }
  repeat split; intros req Hin; destruct (Heach req Hin) as [-> | [access_token [-> | [-> | ->]]]];
    cbn; auto 6; try discriminate.
Qed.

(** The members of the two 200 answers. *)
Lemma listed_answer_members (access_token expires_in pages : value) :
  truthy access_token = true ->
  nullish pages = false ->
  let r := answer 200 (Obj [ ("accessToken", access_token);
                             ("expiresIn", expires_in);
                             ("pages", pages) ]) in
  member "accessToken" r = Some (json access_token)
  /\ member "expiresIn" r = json_member expires_in
  /\ member "pages" r = Some (json pages)
  /\ member "pagesError" r = None.
Proof.
  intros Hat Hp r. subst r.
  rewrite !member_answer_cons, !member_answer_nil.
  rewrite (json_member_defined _ (truthy_not_nullish _ Hat)), (json_member_defined _ Hp).
  cbn [String.eqb Ascii.eqb Bool.eqb].
  destruct (json_member expires_in); auto.
Qed.

Lemma degraded_answer_members (access_token expires_in details : value) :
  truthy access_token = true ->
  let r := answer 200 (Obj [ ("accessToken", access_token);
                             ("expiresIn", expires_in);
                             ("pages", Arr []);
                             ("pagesError", Str "Failed to fetch pages");
                             ("errorDetails", details) ]) in
  member "accessToken" r = Some (json access_token)
  /\ member "expiresIn" r = json_member expires_in
  /\ member "pages" r = Some (Arr [])
  /\ member "pagesError" r = Some (Str "Failed to fetch pages").
Proof. intros Hat r. apply (degraded_members _ _ _ Hat). Qed.

(** X5. A 200 answer is only given to a request that passed the guards and for
    which the token endpoint returned an access token, and it always carries
    that token, together with a [pages] member. *)
Theorem ok_answer_carries_token (env : Env) (net : Network) (event : Event)
    (r : Response) (sent : Sent) :
  run env net event = (inr r, sent) ->
  statusCode r = 200 ->
  exists tokenResponse : axios_response,
    httpMethod event <> "OPTIONS"
    /\ truthy (code_of event) = true
    /\ configured env = true
    /\ net (exchange_request env event) = inr tokenResponse
    /\ truthy (prop (data tokenResponse) "access_token") = true
    /\ member "accessToken" r = Some (json (prop (data tokenResponse) "access_token"))
    /\ member "expiresIn" r = json_member (prop (data tokenResponse) "expires_in")
    /\ member "pages" r <> None
    /\ In (exchange_request env event) sent.
Proof.
  intros Hrun H200.
  destruct (run_answers env net event) as [r' [sent' [Hrun' Hans]]].
  rewrite Hrun in Hrun'. injection Hrun' as <- <-.
  inversion Hans; subst; try discriminate H200; exists tokenResponse.
  - destruct (listed_answer_members (prop (data tokenResponse) "access_token")
                (prop (data tokenResponse) "expires_in") (pages_of (data pagesResponse)))
      as [Ha [He [Hp _]]]; [assumption | apply pages_of_not_nullish |].
    repeat split; try assumption; [rewrite Hp; discriminate | now left].
  - destruct (degraded_answer_members (prop (data tokenResponse) "access_token")
                (prop (data tokenResponse) "expires_in")
                (or_else (optprop (response_data pagesError) "error")
                         (Str (message pagesError))))
      as [Ha [He [Hp _]]]; [assumption |].
    repeat split; try assumption; [rewrite Hp; discriminate | now left].
Qed.

Lemma ok_answer_carries_token_witness :
  exists tokenResponse : axios_response,
    network_with (inr two_pages) (exchange_request sample_env with_code) = inr tokenResponse
    /\ truthy (prop (data tokenResponse) "access_token") = true.
Proof.
  destruct (ok_answer_carries_token sample_env (network_with (inr two_pages)) with_code
              (answer 200 (Obj [ ("accessToken", Str "T1"); ("expiresIn", Num 3600);
                                 ("pages", pages_of (data two_pages)) ]))
              (snd (run sample_env (network_with (inr two_pages)) with_code)))
    as [tokenResponse [_ [_ [_ [Htok [Hat _]]]]]].
  - reflexivity.
  - reflexivity.
  - exists tokenResponse. split; [exact Htok | exact Hat].
Defined.

Section TokenKnown.

(** An invocation that obtained an access token. *)
Variables (env : Env) (net : Network) (event : Event) (tokenResponse : axios_response).
Hypothesis not_options : httpMethod event <> "OPTIONS".
Hypothesis has_code : truthy (code_of event) = true.
Hypothesis is_configured : configured env = true.
Hypothesis token_answer : net (exchange_request env event) = inr tokenResponse.
Hypothesis has_token : truthy (prop (data tokenResponse) "access_token") = true.

Local Abbreviation access_token := (prop (data tokenResponse) "access_token").

(** X6. Once a token is obtained the answer is 200, and it carries
    [pagesError] exactly when the pages step does not go through: the pages
    request fails, its body cannot be read, or the pages are neither empty nor
    an array of objects. Then [pages] is empty; otherwise [pages] is what
    the body lists. *)
Theorem pagesError_exactly_when_unreadable :
  exists r : Response,
    fst (run env net event) = inr r
    /\ statusCode r = 200
    /\ (member "pagesError" r = None <->
          pages_readable (net (pages_request access_token)) = true)
    /\ (pages_readable (net (pages_request access_token)) = false ->
          member "pages" r = Some (Arr [])
          /\ member "pagesError" r = Some (Str "Failed to fetch pages"))
    /\ (forall pagesResponse,
          net (pages_request access_token) = inr pagesResponse ->
          pages_readable (inr pagesResponse) = true ->
          member "pages" r = Some (json (pages_of (data pagesResponse)))).
Proof.
  destruct (run_answers env net event) as [r [sent [Hrun Hans]]].
  pose proof (prop_truthy_not_nullish _ _ has_token) as Hnn.
  exists r. rewrite Hrun. split; [reflexivity |].
  inversion Hans; subst; try congruence;
    replace tokenResponse0 with tokenResponse in * by congruence; try congruence.
  - destruct (listed_answer_members access_token
                (prop (data tokenResponse) "expires_in") (pages_of (data pagesResponse)))
      as [Ha [He [Hp Hnone]]]; [assumption | apply pages_of_not_nullish |].
    match goal with H : net (pages_request _) = inr pagesResponse |- _ => rewrite H end.
    split; [reflexivity |]. split; [tauto |]. split; [congruence |].
    intros pagesResponse' [= <-] _. exact Hp.
  - destruct (degraded_answer_members access_token
                (prop (data tokenResponse) "expires_in")
                (or_else (optprop (response_data pagesError) "error")
                         (Str (message pagesError))))
      as [Ha [He [Hp Herr]]]; [assumption |].
    split; [reflexivity |]. split; [| split].
    + split; [rewrite Herr; discriminate | congruence].
    + auto.
    + intros pagesResponse Hnet Hread. rewrite Hnet in *. congruence.
Qed.

(** X7. The two diagnostic requests are sent exactly when the pages step counts
    no page, and then both are sent, after the pages request. *)
Theorem diagnostics_exactly_when_no_page :
  let sent := snd (run env net event) in
  (In (user_request access_token) sent <->
     no_page_counted (net (pages_request access_token)) = true)
  /\ (In (permissions_request access_token) sent <->
        no_page_counted (net (pages_request access_token)) = true)
  /\ (no_page_counted (net (pages_request access_token)) = true ->
        sent = [ exchange_request env event; pages_request access_token;
                 user_request access_token; permissions_request access_token ]).
Proof.
  intros sent. subst sent.
  destruct (run_answers env net event) as [r [sent [Hrun Hans]]].
  rewrite Hrun. cbn [snd].
  assert (Hno : forall o, pages_readable o = false -> no_page_counted o = true -> False).
  { intros [e | pr]; unfold pages_readable, no_page_counted; [discriminate |].
    destruct (negb (nullish (data pr))); [| discriminate]. cbn [andb].
    destruct (prop (pages_of (data pr)) "length") as [| | b | n | str | l | ms];
      try discriminate. destruct n; discriminate. }
  pose proof (prop_truthy_not_nullish _ _ has_token) as Hnn.
  inversion Hans; subst; try congruence;
    replace tokenResponse0 with tokenResponse in * by congruence; try congruence.
  - match goal with H : net (pages_request _) = inr pagesResponse |- _ => rewrite H end.
    destruct (no_page_counted (inr pagesResponse)); cbn [In].
    + repeat split; auto.
    + repeat split; try discriminate;
        intros [Hq | [Hq | Hq]]; try discriminate Hq; try contradiction;
        unfold exchange_request, token_request, user_request, permissions_request,
          pages_request in Hq; discriminate Hq.
  - repeat split; try (intros Hz; exfalso; eapply Hno; eassumption);
      intros [Hq | [Hq | Hq]]; try contradiction;
      unfold exchange_request, token_request, user_request, permissions_request,
        pages_request in Hq; discriminate Hq.
Qed.

End TokenKnown.

Lemma pagesError_exactly_when_unreadable_witness :
  exists r : Response,
    fst (run sample_env (network_with (inr two_pages)) with_code) = inr r
    /\ statusCode r = 200
    /\ member "pagesError" r = None.
Proof.
  destruct (pagesError_exactly_when_unreadable sample_env (network_with (inr two_pages))
              with_code token_reply)
    as [r [Hrun [H200 [Hiff _]]]].
  - discriminate.
  - reflexivity.
  - reflexivity.
  - reflexivity.
  - reflexivity.
  - exists r. split; [exact Hrun |]. split; [exact H200 |].
    apply Hiff. reflexivity.
Defined.

Lemma diagnostics_exactly_when_no_page_witness :
  snd (run sample_env (network_with (inr no_pages)) with_code) =
    [ exchange_request sample_env with_code; pages_request (Str "T1");
      user_request (Str "T1"); permissions_request (Str "T1") ]
  /\ ~ In (user_request (Str "T1"))
         (snd (run sample_env (network_with (inr two_pages)) with_code)).
Proof.
  split.
  - apply (diagnostics_exactly_when_no_page sample_env (network_with (inr no_pages))
             with_code token_reply); try reflexivity. discriminate.
  - intros Hin.
    apply (diagnostics_exactly_when_no_page sample_env (network_with (inr two_pages))
             with_code token_reply) in Hin; try reflexivity; discriminate.
Defined.

End ExchangePaths.

(* ===================================================================== *)
(** ** More on cleanup-sessions: every path of the handler *)
(* ===================================================================== *)

Section CleanupPaths.
Import CleanupSessions CleanupProps CleanupCases.

(** The four ways an invocation goes. *)
Lemma cleanup_cases (env : Env) (event : Event) (w : World) :
  (httpMethod event = "OPTIONS"
   /\ handler env event w =
        (inr {| statusCode := 204; headers := cors_headers; body := None |}, w))
  \/ (httpMethod event <> "OPTIONS" /\ supabase env = false
      /\ handler env event w = (inr (failed "Database connection not available"), w))
  \/ (httpMethod event <> "OPTIONS" /\ supabase env = true
      /\ exists e, store_error w = Some e
                   /\ handler env event w = (inr (failed (message e)), clock_read w))
  \/ (httpMethod event <> "OPTIONS" /\ supabase env = true /\ store_error w = None
      /\ handler env event w =
           (inr (cleaned (List.length (filter (lt_expires_at (cutoff w)) (user_sessions w)))),
            {| clock := clock w; date_reads := S (date_reads w);
               user_sessions :=
                 filter (fun r => negb (lt_expires_at (cutoff w) r)) (user_sessions w);
               store_error := None |})).
Proof.
  destruct (String.eqb_spec (httpMethod event) "OPTIONS") as [Ho | Hm].
  { left. split; [exact Ho |]. unfold handler. rewrite Ho. reflexivity. }
  right. destruct (supabase env) eqn:Hs.
  - right. destruct (store_error w) as [e |] eqn:He.
    + left. split; [exact Hm |]. split; [reflexivity |]. exists e. split; [reflexivity |].
      unfold handler, clock_read. rewrite (not_preflight _ Hm).
      unfold try_catch, bind, cleanupExpiredSessions, try_catch, bind.
      rewrite Hs. cbn [negb]. unfold Date_now, delete_lt_select. cbn [store_error].
      rewrite He. reflexivity.
    + right. split; [exact Hm |]. split; [reflexivity |]. split; [reflexivity |].
      apply handler_sweeps; assumption.
  - left. split; [exact Hm |]. split; [reflexivity |].
    unfold handler. rewrite (not_preflight _ Hm).
    unfold try_catch, bind, cleanupExpiredSessions, try_catch, bind.
    rewrite Hs. reflexivity.
Qed.

Lemma filter_split_length {A : Type} (p : A -> bool) (l : list A) :
  List.length l
  = (List.length (filter (fun x => negb (p x)) l) + List.length (filter p l))%nat.
Proof.
  induction l as [| x l IH]; [reflexivity |].
  cbn. destruct (p x); cbn; lia.
Qed.

(** X8. Whatever the request, the configuration and the state of the store, the
    handler answers (it never throws), never adds a row, never deletes a row
    that is not expired at the reading of the clock, and leaves the table as
    it was unless it answers 200. *)
Theorem cleanup_never_deletes_unexpired (env : Env) (event : Event) (w : World) :
  exists (r : Response) (w' : World),
    handler env event w = (inr r, w')
    /\ headers r = cors_headers
    /\ (forall row, In row (user_sessions w') -> In row (user_sessions w))
    /\ (forall row, In row (user_sessions w) ->
                    lt_expires_at (cutoff w) row = false ->
                    In row (user_sessions w'))
    /\ (statusCode r <> 200 -> user_sessions w' = user_sessions w)
    /\ (date_reads w' <= S (date_reads w))%nat.
Proof.
  destruct (cleanup_cases env event w)
    as [[_ H] | [[_ [_ H]] | [[_ [_ [e [_ H]]]] | [_ [_ [_ H]]]]]];
    rewrite H; do 2 eexists; (split; [reflexivity |]); cbn;
    repeat split; auto; try lia; try congruence.
  - intros row Hin. apply filter_In in Hin. tauto.
  - intros row Hin Hkeep. apply filter_In. rewrite Hkeep. auto.
Qed.

(** X9. The two failures: without a configured store the answer is 500 with
    'Database connection not available' and the clock is not even read; when
    the store refuses the delete the answer is 500 with the store's message.
    In both the table is untouched. *)
Theorem cleanup_failures_reported (env : Env) (event : Event) (w : World) :
  httpMethod event <> "OPTIONS" ->
  (supabase env = false ->
     handler env event w = (inr (failed "Database connection not available"), w))
  /\ (forall e, supabase env = true -> store_error w = Some e ->
        handler env event w = (inr (failed (message e)), clock_read w)
        /\ user_sessions (clock_read w) = user_sessions w
        /\ member "error" (failed (message e)) = Some (Str (message e))
        /\ member "status" (failed (message e)) = Some (Str "error")).
Proof.
  intros Hm.
  destruct (cleanup_cases env event w)
    as [[Ho _] | [[_ [Hs H]] | [[_ [Hs [e [He H]]]] | [_ [Hs [He H]]]]]];
    try contradiction; split; try congruence.
  - intros e' _ He'. rewrite He in He'. injection He' as <-. auto.
Qed.

Lemma cleanup_failures_reported_witness :
  handler no_key sample_event sample_world
    = (inr (failed "Database connection not available"), sample_world)
  /\ handler sample_env sample_event unreachable
     = (inr (failed "fetch failed"), clock_read unreachable).
Proof.
  split.
  - apply (cleanup_failures_reported no_key sample_event sample_world).
    + discriminate.
    + reflexivity.
  - apply (cleanup_failures_reported sample_env sample_event unreachable)
      with (e := Error "fetch failed").
    + discriminate.
    + reflexivity.
    + reflexivity.
Defined.

(** X10. The number in the 200 message is the number of rows that left the
    table. *)
Theorem cleanup_count_is_rows_removed (env : Env) (event : Event) (w w' : World)
    (r : Response) :
  handler env event w = (inr r, w') ->
  statusCode r = 200 ->
  exists n : nat,
    member "message" r
      = Some (Str ("Cleaned up " ++ string_of_nat n ++ " expired sessions"))
    /\ List.length (user_sessions w) = (List.length (user_sessions w') + n)%nat.
Proof.
  intros Hrun H200.
  destruct (handler_200_inv _ _ _ _ _ Hrun H200) as [Hm [Hs He]].
  rewrite (handler_sweeps env event w Hm Hs He) in Hrun.
  injection Hrun as <- <-. eexists. split; [reflexivity |].
  cbn [user_sessions]. apply filter_split_length.
Qed.

Lemma cleanup_count_is_rows_removed_witness :
  exists n : nat,
    member "message" (cleaned 1)
      = Some (Str ("Cleaned up " ++ string_of_nat n ++ " expired sessions"))
    /\ List.length (user_sessions sample_world)
       = (List.length (user_sessions (snd (handler sample_env sample_event sample_world)))
          + n)%nat.
Proof.
  apply (cleanup_count_is_rows_removed sample_env sample_event sample_world
           (snd (handler sample_env sample_event sample_world)) (cleaned 1)).
  - reflexivity.
  - reflexivity.
Defined.

Lemma filter_filter_weaker {A : Type} (p q : A -> bool) (l : list A) :
  (forall x, p x = true -> q x = true) ->
  filter (fun x => negb (q x)) (filter (fun x => negb (p x)) l)
  = filter (fun x => negb (q x)) l.
Proof.
  intros Hpq. induction l as [| x l IH]; [reflexivity |].
  cbn. destruct (p x) eqn:Hp; cbn.
  - rewrite (Hpq x Hp). cbn. exact IH.
  - destruct (q x); cbn; rewrite IH; reflexivity.
Qed.

Lemma filter_count_weaker {A : Type} (p q : A -> bool) (l : list A) :
  (forall x, p x = true -> q x = true) ->
  (List.length (filter p l) + List.length (filter q (filter (fun x => negb (p x)) l))
   = List.length (filter q l))%nat.
Proof.
  intros Hpq. induction l as [| x l IH]; [reflexivity |].
  cbn. destruct (p x) eqn:Hp; cbn.
  - rewrite (Hpq x Hp). cbn. lia.
  - destruct (q x); cbn; lia.
Qed.

(** X11. Two sweeps in a row, the clock not going back, leave the table that one
    sweep at the later reading leaves, and their two counts add up to the
    count of that one sweep. *)
Theorem cleanup_sweeps_compose (env : Env) (ev1 ev2 : Event) (w1 w1' w2 w2' : World)
    (r1 r2 : Response) :
  handler env ev1 w1 = (inr r1, w1') ->
  statusCode r1 = 200 ->
  user_sessions w2 = user_sessions w1' ->
  cutoff w1 <= cutoff w2 ->
  handler env ev2 w2 = (inr r2, w2') ->
  statusCode r2 = 200 ->
  user_sessions w2'
    = filter (fun r => negb (lt_expires_at (cutoff w2) r)) (user_sessions w1)
  /\ exists n1 n2 : nat,
       r1 = cleaned n1 /\ r2 = cleaned n2
       /\ (n1 + n2)%nat
          = List.length (filter (lt_expires_at (cutoff w2)) (user_sessions w1)).
Proof.
  intros Hrun1 H1 Hsame Hle Hrun2 H2.
  destruct (handler_200_inv _ _ _ _ _ Hrun1 H1) as [Hm1 [Hs He1]].
  destruct (handler_200_inv _ _ _ _ _ Hrun2 H2) as [Hm2 [_ He2]].
  rewrite (handler_sweeps env ev1 w1 Hm1 Hs He1) in Hrun1.
  rewrite (handler_sweeps env ev2 w2 Hm2 Hs He2) in Hrun2.
  injection Hrun1 as <- <-. injection Hrun2 as <- <-.
  cbn [user_sessions] in *. rewrite Hsame.
  assert (Hweaker : forall r, lt_expires_at (cutoff w1) r = true ->
                              lt_expires_at (cutoff w2) r = true).
  { intros r. unfold lt_expires_at. destruct (expires_at r) as [t |]; [| discriminate].
    rewrite !Z.ltb_lt. lia. }
  split.
  - apply filter_filter_weaker. exact Hweaker.
  - do 2 eexists. split; [reflexivity |]. split; [reflexivity |].
    apply filter_count_weaker. exact Hweaker.
Qed.

Lemma cleanup_sweeps_compose_witness :
  user_sessions (snd (handler sample_env sample_event sample_world_later))
  = filter (fun r => negb (lt_expires_at (cutoff sample_world_later) r))
           (user_sessions sample_world).
Proof.
  apply (cleanup_sweeps_compose sample_env sample_event sample_event
           sample_world (snd (handler sample_env sample_event sample_world))
           sample_world_later (snd (handler sample_env sample_event sample_world_later))
           (cleaned 1) (cleaned 0)).
  - reflexivity.
  - reflexivity.
  - reflexivity.
  - vm_compute. discriminate.
  - reflexivity.
  - reflexivity.
Defined.

End CleanupPaths.

(* ===================================================================== *)
(** ** More on getSessionWithRetry *)
(* ===================================================================== *)

Section RetryMore.
Import SupabaseLib RetryProps RetryMore.

Section Counting.

Variable auth : AuthService.
Variables startTime maxTimeMs d : Z.
Hypothesis d_honoured : 1 <= d <= TIMEOUT_MAX.

(** With an initial delay that the timers honour, each pass that does not
    return moves the clock by at least [min(d, 2000)], so the lookups
    started so far fit into the time elapsed; a pass only begins within the
    budget. *)
Lemma retry_loop_lookups (fuel : nat) :
  forall (k : Z) (lastError : option exn) (t t' : Timeline)
         (outcome : exn + option value),
    1 <= k ->
    Z.of_nat (calls t) * Z.min d 2000 <= now t - startTime ->
    retry_loop fuel auth startTime maxTimeMs d k lastError t = (outcome, t') ->
    calls t' = calls t
    \/ (Z.of_nat (calls t') - 1) * Z.min d 2000 < maxTimeMs.
Proof.
  induction fuel as [| fuel IH]; intros k lastError t t' outcome Hk Hinv Hrun.
  - cbn in Hrun. injection Hrun as _ <-. now left.
  - cbn [retry_loop] in Hrun. unfold bind at 1 in Hrun. unfold Date_now at 1 in Hrun.
    destruct (Z.ltb_spec (now t - startTime) maxTimeMs) as [Hlt | Hge].
    + unfold bind at 1 in Hrun.
      pose proof (race_bounds 5000 (auth (calls t))) as Hrace.
      change (timer_delay 5000) with 5000 in Hrace.
      destruct (attempt_once_spec auth d k lastError t)
        as [[result [Ho [Hs Hpass]]] | [Hno Hpass]];
        rewrite Hpass in Hrun; clear Hpass.
      * injection Hrun as _ <-. cbn [calls]. right. nia.
      * assert (Hwait : Z.min d 2000
                        <= timer_delay (backoff d k (snd (race 5000 (auth (calls t)))))).
        { destruct (timer_delay_cases (backoff d k (snd (race 5000 (auth (calls t))))))
            as [[_ ->] | [Hout ->]];
            unfold backoff, TIMEOUT_MAX in *;
            destruct (snd (race 5000 (auth (calls t)))); try lia; nia. }
        apply IH in Hrun; [| lia | cbn [calls now]; nia].
        cbn [calls] in Hrun. destruct Hrun as [-> | Hbound]; right; nia.
    + unfold throw in Hrun. injection Hrun as _ <-. now left.
Qed.

End Counting.

(** X12. Without a budget nothing is tried: the call throws the generic error at
    once, with no lookup and no wait. With a budget at least one lookup is
    made. *)
Theorem retry_without_budget_tries_nothing
    (fuel : nat) (auth : AuthService) (maxTimeMs initialDelayMs t0 : Z) :
  (maxTimeMs <= 0 ->
     getSessionWithRetry (S fuel) auth maxTimeMs initialDelayMs (fresh t0)
       = (inl (gave_up maxTimeMs), fresh t0))
  /\ (0 < maxTimeMs ->
       (1 <= calls (snd (getSessionWithRetry (S fuel) auth maxTimeMs initialDelayMs
                           (fresh t0))))%nat).
Proof.
  split; intros HT; rewrite getSessionWithRetry_loop; cbn [retry_loop];
    unfold bind at 1; unfold Date_now at 1; cbn [now fresh];
    destruct (Z.ltb_spec (t0 - t0) maxTimeMs) as [Hlt | Hge]; try lia.
  - reflexivity.
  - unfold bind at 1.
    destruct (attempt_once_spec auth initialDelayMs 1 None (fresh t0))
      as [[result [Ho [Hs Hpass]]] | [Hno Hpass]];
      cbn [now fresh] in Hpass; rewrite Hpass; clear Hpass.
    + cbn. lia.
    + match goal with
      | |- context [retry_loop ?f ?a ?s ?m ?dd ?k ?le ?t] =>
          destruct (retry_loop f a s m dd k le t) as [outcome t'] eqn:Hloop
      end.
      destruct (retry_loop_spec _ _ _ _ _ _ _ _ _ _ Hloop) as [h [Hh _]].
      cbn [snd].
      assert (Hcalls : forall fuel' k le t1 o t2,
                 retry_loop fuel' auth t0 maxTimeMs initialDelayMs k le t1 = (o, t2) ->
                 (calls t1 <= calls t2)%nat).
      { clear. induction fuel' as [| fuel' IH]; intros k le t1 o t2 Hrun.
        - cbn in Hrun. injection Hrun as _ <-. lia.
        - cbn [retry_loop] in Hrun. unfold bind at 1 in Hrun.
          unfold Date_now at 1 in Hrun.
          destruct (now t1 - t0 <? maxTimeMs).
          + unfold bind at 1 in Hrun.
            destruct (attempt_once_spec auth initialDelayMs k le t1)
              as [[result [Ho [Hs Hpass]]] | [Hno Hpass]];
              rewrite Hpass in Hrun; clear Hpass.
            * injection Hrun as _ <-. cbn. lia.
            * apply IH in Hrun. cbn [calls] in Hrun. lia.
          + unfold throw in Hrun. injection Hrun as _ <-. lia. }
      apply Hcalls in Hloop. cbn [calls] in Hloop. lia.
Qed.

Lemma retry_without_budget_tries_nothing_witness :
  getSessionWithRetry 1 eventually 0 500 (fresh 100) = (inl (gave_up 0), fresh 100).
Proof.
  apply (retry_without_budget_tries_nothing 0 eventually 0 500 100). lia.
Defined.

(** X13. With an initial delay that [setTimeout] honours (from 1 to
    [2^31 - 1] ms) the number of lookups is bounded by the budget: all but
    the last fit, at [min(initialDelayMs, 2000)] ms each, strictly within
    [maxTimeMs]. (At most 40 lookups with the defaults.) *)
Theorem retry_lookups_bounded
    (fuel : nat) (auth : AuthService) (maxTimeMs initialDelayMs t0 : Z)
    (outcome : exn + option value) (t' : Timeline) :
  1 <= initialDelayMs <= 2147483647 ->
  getSessionWithRetry fuel auth maxTimeMs initialDelayMs (fresh t0) = (outcome, t') ->
  (Z.of_nat (calls t') - 1) * Z.min initialDelayMs 2000 < Z.max 0 maxTimeMs.
Proof.
  intros Hd Hrun. rewrite getSessionWithRetry_loop in Hrun.
  apply (retry_loop_lookups auth t0 maxTimeMs initialDelayMs Hd) in Hrun;
    cbn [calls now fresh] in *; lia.
Qed.

Lemma retry_lookups_bounded_witness :
  (Z.of_nat 3 - 1) * Z.min 500 2000 < Z.max 0 1200.
Proof.
  apply (retry_lookups_bounded 10 failing 1200 500 0 (inl (Error "Failed to fetch"))
           (snd (getSessionWithRetry 10 failing 1200 500 (fresh 0)))).
  - lia.
  - reflexivity.
Defined.

(** When no lookup has a session, the loop only ever throws what it was
    given as last error or the generic one. *)
Lemma retry_loop_never_a_session (auth : AuthService) (startTime maxTimeMs d : Z)
    (fuel : nat) :
  never_a_session auth ->
  forall (k : Z) (lastError : option exn) (t t' : Timeline)
         (outcome : exn + option value),
    retry_loop fuel auth startTime maxTimeMs d k lastError t = (outcome, t') ->
    outcome = inr None
    \/ outcome = inl (match lastError with
                      | Some e => e
                      | None => gave_up maxTimeMs
                      end).
Proof.
  intros Hquiet. induction fuel as [| fuel IH]; intros k lastError t t' outcome Hrun.
  - cbn in Hrun. injection Hrun as <- _. now left.
  - cbn [retry_loop] in Hrun. unfold bind at 1 in Hrun. unfold Date_now at 1 in Hrun.
    destruct (now t - startTime <? maxTimeMs).
    + unfold bind at 1 in Hrun.
      destruct (Hquiet (calls t)) as [after [result [Hauth [Hfast Hnone]]]].
      assert (Hrace : snd (race 5000 (auth (calls t))) = inr result).
      { rewrite Hauth. unfold race. change (timer_delay 5000) with 5000.
        destruct (Z.ltb_spec (Z.of_N after) 5000); [reflexivity | lia]. }
      destruct (attempt_once_spec auth d k lastError t)
        as [[found [Ho [Hs Hpass]]] | [Hno Hpass]];
        rewrite Hpass in Hrun; clear Hpass.
      * rewrite Hrace in Ho. injection Ho as ->. congruence.
      * rewrite Hrace in Hrun. cbn [remembered] in Hrun. apply IH in Hrun. exact Hrun.
    + unfold throw in Hrun. injection Hrun as <- _. now right.
Qed.

(** X14. An error that a lookup reports inside its result (the [error] member
    next to a [null] session) is never surfaced: when no lookup ever has a
    session, the call ends by throwing the generic 'Session check failed
    after ...ms' error. This is what happens with the client that is created
    when the environment is not configured. *)
Theorem retry_drops_reported_errors
    (fuel : nat) (auth : AuthService) (maxTimeMs initialDelayMs t0 : Z) :
  never_a_session auth ->
  0 < initialDelayMs ->
  (Z.to_nat maxTimeMs < fuel)%nat ->
  fst (getSessionWithRetry fuel auth maxTimeMs initialDelayMs (fresh t0))
    = inl (gave_up maxTimeMs).
Proof.
  intros Hquiet Hd Hfuel. rewrite getSessionWithRetry_loop.
  destruct (retry_loop fuel auth t0 maxTimeMs initialDelayMs 1 None (fresh t0))
    as [outcome t'] eqn:Hrun.
  pose proof (retry_loop_ends auth t0 maxTimeMs initialDelayMs fuel Hd 1 None (fresh t0)) as Hend.
  rewrite Hrun in Hend. cbn [fst now fresh] in *.
  destruct (retry_loop_never_a_session _ _ _ _ _ Hquiet _ _ _ _ _ Hrun) as [-> | ->].
  - exfalso. apply Hend; [lia | lia | reflexivity].
  - reflexivity.
Qed.

Lemma mock_auth_never_a_session : never_a_session mock_auth.
Proof.
  intros n. exists 0%N, mock_session_reply.
  split; [reflexivity |]. split; [reflexivity | reflexivity].
Qed.

Lemma retry_drops_reported_errors_witness :
  fst (getSessionWithRetry 4 mock_auth 3 1 (fresh 0)) = inl (gave_up 3)
  /\ truthy (prop mock_session_reply "error") = true.
Proof.
  split; [| reflexivity].
  apply (retry_drops_reported_errors 4 mock_auth 3 1 0).
  - exact mock_auth_never_a_session.
  - lia.
  - cbn. lia.
Defined.

End RetryMore.

(* ===================================================================== *)
(** ** More on src/lib/supabase.ts *)
(* ===================================================================== *)

Section Library.
Import SupabaseLib RefreshProps LibraryMore.

(** X15. A refresh that succeeded is reported as such only when the new session
    has a usable [expires_at]: with a number the result is [true] when the
    date is valid; without [expires_at] the logging of the expiry throws and
    the result is [false], although the client already holds the new
    session. *)
Theorem refresh_needs_valid_expiry
    (navigator : Navigator) (lib : RefreshBehaviour) (c : Client)
    (reply held : value) :
  navigator <> Some false ->
  lib (cached_session c) = (inr reply, held) ->
  refresh_failed (inr reply) = false ->
  let session := prop (prop reply "data") "session" in
  let refreshed := {| cached_session := held; refreshes := S (refreshes c) |} in
  (forall n, prop session "expires_at" = Num n ->
     refreshSupabaseToken navigator (auth_refreshSession lib) c
       = (inr (Z.abs (n * 1000) <=? max_time_value), refreshed))
  /\ (prop session "expires_at" = Undefined ->
        refreshSupabaseToken navigator (auth_refreshSession lib) c = (inr false, refreshed)).
Proof.
  intros Hon Hlib Hok session refreshed.
  unfold refresh_failed in Hok. apply orb_false_iff in Hok as [Herr Hsess].
  apply negb_false_iff in Hsess.
  destruct (optprop_truthy _ _ Hsess) as [Hdata Hsess'].
  rewrite Hsess' in Hsess.
  assert (Hreply : nullish reply = false).
  { destruct reply; try reflexivity; discriminate Hdata. }
  unfold optprop in Hdata, Hsess, Herr. rewrite Hreply in Hdata, Hsess, Herr.
  fold session in Hsess.
  assert (Hrun : forall expires_at, prop session "expires_at" = expires_at ->
            refreshSupabaseToken navigator (auth_refreshSession lib) c
            = (match toISOString_of_seconds expires_at refreshed with
               | (inl _, _) => inr false
               | (inr _, _) => inr true
               end, refreshed)).
  { intros expires_at Hexp.
    assert (Hbody : refreshSupabaseToken (Some true) (auth_refreshSession lib) c
                    = refreshSupabaseToken None (auth_refreshSession lib) c) by reflexivity.
    assert (Hnone : refreshSupabaseToken None (auth_refreshSession lib) c
                    = (match toISOString_of_seconds expires_at refreshed with
                       | (inl _, _) => inr false
                       | (inr _, _) => inr true
                       end, refreshed)).
    { unfold refreshSupabaseToken, try_catch, bind, auth_refreshSession, get, ret.
      rewrite Hlib, Hreply, Herr, Hdata. fold session. rewrite Hsess. cbn [negb].
      rewrite (truthy_not_nullish _ Hsess), Hexp. fold refreshed.
      unfold toISOString_of_seconds.
      destruct (to_number expires_at) as [n |]; [| reflexivity].
      destruct (Z.abs (n * 1000) <=? max_time_value); reflexivity. }
    destruct navigator as [[|] |]; [rewrite Hbody; exact Hnone | congruence | exact Hnone]. }
  split.
  - intros n Hn. rewrite (Hrun _ Hn). unfold toISOString_of_seconds.
    cbn [to_number]. destruct (Z.abs (n * 1000) <=? max_time_value); reflexivity.
  - intros Hu. rewrite (Hrun _ Hu). reflexivity.
Qed.

Lemma refresh_needs_valid_expiry_witness :
  refreshSupabaseToken (Some true) (auth_refreshSession without_expiry) signed_in
    = (inr false, {| cached_session := Obj [ ("access_token", Str "new") ];
                     refreshes := 1 |})
  /\ refreshSupabaseToken (Some true) (auth_refreshSession refreshing) signed_in
     = (inr true, {| cached_session := new_session; refreshes := 1 |}).
Proof.
  split.
  - apply (refresh_needs_valid_expiry (Some true) without_expiry signed_in
             (Obj [ ("data", Obj [ ("session", Obj [ ("access_token", Str "new") ]) ]); ("error", Null) ]) (Obj [ ("access_token", Str "new") ])).
    + discriminate.
    + reflexivity.
    + reflexivity.
    + reflexivity.
  - apply (refresh_needs_valid_expiry (Some true) refreshing signed_in
             (Obj [ ("data", Obj [ ("session", new_session) ]); ("error", Null) ])
             new_session) with (n := 1700003600).
    + discriminate.
    + reflexivity.
    + reflexivity.
    + reflexivity.
Defined.

(** The inner [try] of the check: it sends the ping and reports whether the
    ping succeeded; it never throws. *)
Lemma ping_succeeds_spec (db : Database) (sent : list DbCall) :
  ping_succeeds db sent = (inr (ping_ok db), (sent ++ [Ping])%list).
Proof.
  unfold ping_succeeds, ping_ok, try_catch, bind, db_request, get, console_log, ret, throw.
  destruct (rpc_ping db) as [e | reply]; [reflexivity |].
  destruct (nullish reply); [reflexivity |]. cbn [negb andb].
  destruct (truthy (prop reply "error")); cbn [negb andb]; [reflexivity |].
  destruct (is_true (prop reply "data")); reflexivity.
Qed.

(** X16. The connectivity check never throws. It reports success exactly when the
    environment is configured and either the ping answers [true] without
    error or, failing that, the session lookup answers without error; a
    failure always comes with a text and a success never does. Without
    configuration nothing is sent; the session lookup is only sent when the
    ping did not succeed. *)
Theorem checkSupabaseDB_verdict (cfg : Config) (db : Database) (sent : list DbCall) :
  exists res : CheckResult,
    checkSupabaseDB cfg db sent = (inr res, (sent ++ check_requests cfg db)%list)
    /\ success res = negb (missing_config cfg) && (ping_ok db || session_ok db)
    /\ (success res = true <-> failure res = None).
Proof.
  unfold checkSupabaseDB, check_requests, try_catch.
  destruct (missing_config cfg).
  { eexists. unfold ret. rewrite app_nil_r. split; [reflexivity |].
    split; [reflexivity |]. cbn. split; discriminate. }
  unfold bind at 1. rewrite ping_succeeds_spec.
  destruct (ping_ok db).
  { eexists. unfold ret. split; [reflexivity |]. split; [reflexivity |]. cbn. tauto. }
  unfold session_ok, bind, db_request, get, ret, throw.
  rewrite <- app_assoc. cbn [app negb andb orb].
  destruct (db_getSession db) as [e | reply].
  { eexists. split; [reflexivity |]. split; [reflexivity |]. cbn. split; discriminate. }
  destruct (nullish reply).
  { eexists. split; [reflexivity |]. split; [reflexivity |]. cbn. split; discriminate. }
  destruct (truthy (prop reply "error"));
    eexists; (split; [reflexivity |]); (split; [reflexivity |]); cbn;
    [split; discriminate | tauto].
Qed.

(** X17. What a failed check says: 'Supabase not configured' without
    configuration; 'Connection check exception: ' and the message when the
    session lookup throws; 'Session check failed: ' and the message of the
    error the lookup reports. What the ping reported is not part of it. *)
Theorem checkSupabaseDB_failure_text (cfg : Config) (db : Database) (sent : list DbCall) :
  (missing_config cfg = true ->
     fst (checkSupabaseDB cfg db sent)
       = inr {| success := false; failure := Some "Supabase not configured" |})
  /\ (forall e, missing_config cfg = false -> ping_ok db = false ->
        db_getSession db = inl e ->
        fst (checkSupabaseDB cfg db sent)
          = inr {| success := false;
                   failure := Some ("Connection check exception: " ++ message e) |})
  /\ (forall reply, missing_config cfg = false -> ping_ok db = false ->
        db_getSession db = inr reply ->
        truthy (optprop reply "error") = true ->
        fst (checkSupabaseDB cfg db sent)
          = inr {| success := false;
                   failure := Some ("Session check failed: "
                                    ++ to_string (prop (prop reply "error") "message")) |}).
Proof.
  unfold checkSupabaseDB, try_catch.
  split; [| split].
  - intros ->. reflexivity.
  - intros e -> Hping Hdb. unfold bind at 1. rewrite ping_succeeds_spec, Hping.
    unfold bind, db_request. rewrite Hdb. reflexivity.
  - intros reply -> Hping Hdb Herr. unfold bind at 1. rewrite ping_succeeds_spec, Hping.
    destruct (optprop_truthy _ _ Herr) as [Hn Heq]. rewrite Heq in Herr.
    unfold bind, db_request, get, ret. rewrite Hdb, Hn, Herr. reflexivity.
Qed.

Lemma checkSupabaseDB_failure_text_witness :
  fst (checkSupabaseDB unconfigured_env no_ping [])
    = inr {| success := false; failure := Some "Supabase not configured" |}
  /\ fst (checkSupabaseDB configured_env offline_db [])
     = inr {| success := false;
              failure := Some "Connection check exception: Failed to fetch" |}.
Proof.
  split.
  - apply (checkSupabaseDB_failure_text unconfigured_env no_ping []). reflexivity.
  - apply (checkSupabaseDB_failure_text configured_env offline_db [])
      with (e := Error "Failed to fetch"); reflexivity.
Defined.

(** X18. [clearSupabaseAuth] sends one sign-out and reports [true] whenever the
    call does not throw, also when the reply carries an error; [logout]
    rethrows that error, and an exception of the call, and then leaves
    localStorage as it was. *)
Theorem signOut_error_is_success_for_clear_only
    (settles : SignOut) (sent fuel : nat) (blocked : option exn) (st : Browser.Storage) :
  clearSupabaseAuth settles sent
    = (inr (match settles with inl _ => false | inr _ => true end), S sent)
  /\ (forall e, settles = inr (Some e) \/ settles = inl e ->
        Auth.logout fuel settles blocked st = (inl e, st)).
Proof.
  split.
  - unfold clearSupabaseAuth, try_catch, bind, auth_signOut, ret.
    destruct settles as [e | reply]; reflexivity.
  - intros e [-> | ->]; reflexivity.
Qed.

Lemma signOut_error_is_success_for_clear_only_witness :
  clearSupabaseAuth (inr (Some (Error "session_not_found"))) 0%nat = (inr true, 1%nat)
  /\ Auth.logout 5%nat (inr (Some (Error "session_not_found"))) None [ ("sb-x-auth-token", "t") ]
     = (inl (Error "session_not_found"), [ ("sb-x-auth-token", "t") ]).
Proof.
  split.
  - apply (signOut_error_is_success_for_clear_only
             (inr (Some (Error "session_not_found"))) 0%nat 5%nat None []).
  - apply (signOut_error_is_success_for_clear_only
             (inr (Some (Error "session_not_found"))) 0%nat 5%nat None
             [ ("sb-x-auth-token", "t") ]).
    left. reflexivity.
Defined.

End Library.

(* ===================================================================== *)
(** ** More on src/lib/auth.ts *)
(* ===================================================================== *)

Section AuthMore.
Import Auth UserProps AuthMore.

(** The session lookup as both [getCurrentUser] and [isAdmin] begin with
    it: what it leaves, by [session_user]. *)
Lemma session_lookup_cases (b : Backend) :
  (session_user b = None
   /\ ((exists e, auth_getSession b = inl e)
       \/ exists reply, auth_getSession b = inr reply
            /\ (nullish reply = true
                \/ (nullish reply = false /\ nullish (prop reply "data") = true)
                \/ (nullish reply = false /\ nullish (prop reply "data") = false
                    /\ truthy (prop reply "error") = true)
                \/ (nullish reply = false /\ nullish (prop reply "data") = false
                    /\ truthy (prop reply "error") = false
                    /\ truthy (optprop (prop (prop reply "data") "session") "user") = false))))
  \/ (exists reply user,
        session_user b = Some user
        /\ auth_getSession b = inr reply
        /\ nullish reply = false /\ nullish (prop reply "data") = false
        /\ truthy (prop reply "error") = false
        /\ truthy (optprop (prop (prop reply "data") "session") "user") = true
        /\ nullish (prop (prop reply "data") "session") = false
        /\ user = prop (prop (prop reply "data") "session") "user").
Proof.
  unfold session_user.
  destruct (auth_getSession b) as [e | reply]; [left; split; eauto |].
  destruct (nullish reply) eqn:Hr; cbn [orb]; [left; split; eauto 6 |].
  destruct (nullish (prop reply "data")) eqn:Hd; [left; split; eauto 8 |].
  destruct (truthy (prop reply "error")) eqn:He; [left; split; eauto 10 |].
  destruct (truthy (optprop (prop (prop reply "data") "session") "user")) eqn:Hu.
  - right. destruct (optprop_truthy _ _ Hu) as [Hs Heq].
    exists reply, (prop (prop (prop reply "data") "session") "user").
    rewrite Heq in Hu |- *. repeat split; auto.
  - left. split; [reflexivity |]. right. exists reply. split; [reflexivity |].
    right. right. right. auto.
Qed.

(** [getCurrentUser], by [session_user] and [users_row]: its result and
    the requests it sends. *)
Lemma getCurrentUser_spec (b : Backend) (sent : list Call) :
  exists v : value,
    getCurrentUser b sent = (inr v, (sent ++ user_requests b)%list)
    /\ (session_user b = None -> v = Null)
    /\ (forall user, session_user b = Some user ->
          truthy v = true /\ prop v "isAuthenticated" = Bool true).
Proof.
  unfold user_requests.
  destruct (session_lookup_cases b)
    as [[Hnone [[e Hg] | [reply [Hg Hcase]]]]
       | [reply [user [Hsome [Hg [Hr [Hd [He [Hu [Hs ->]]]]]]]]]].
  - rewrite Hnone. exists Null.
    unfold getCurrentUser, try_catch, bind, request. rewrite Hg.
    split; [reflexivity |]. split; [reflexivity | discriminate].
  - rewrite Hnone. exists Null.
    unfold getCurrentUser, try_catch, bind, request, get, ret, throw. rewrite Hg.
    destruct Hcase as [Hr | [[Hr Hd] | [[Hr [Hd He]] | [Hr [Hd [He Hu]]]]]];
      rewrite ?Hr, ?Hd, ?He, ?Hu; cbn [negb];
      (split; [reflexivity |]); (split; [reflexivity | discriminate]).
  - rewrite Hsome.
    unfold getCurrentUser, try_catch, bind, request, get, ret, throw, users_row.
    rewrite Hg, Hr, Hd, He, Hu, Hs. cbn [negb]. rewrite <- !app_assoc. cbn [app].
    set (user := prop (prop (prop reply "data") "session") "user") in *.
    assert (Hmin : truthy (minimalUser b user) = true
                   /\ prop (minimalUser b user) "isAuthenticated" = Bool true)
      by (split; reflexivity).
    destruct (users_select_single b (prop user "id")) as [e | found].
    { eexists. split; [reflexivity |]. split; [discriminate |]. intros ? [= <-]. exact Hmin. }
    destruct (nullish found).
    { eexists. split; [reflexivity |]. split; [discriminate |]. intros ? [= <-]. exact Hmin. }
    destruct (truthy (prop found "error")).
    { eexists. split; [reflexivity |]. split; [discriminate |]. intros ? [= <-]. exact Hmin. }
    destruct (truthy (prop found "data")).
    2:{ eexists. split; [reflexivity |]. split; [discriminate |]. intros ? [= <-]. exact Hmin. }
    rewrite <- !app_assoc. cbn [app].
    destruct (users_update b (prop user "id")) as [e |].
    { eexists. split; [reflexivity |]. split; [discriminate |]. intros ? [= <-]. exact Hmin. }
    eexists. split; [reflexivity |]. split; [discriminate |]. intros ? [= <-].
    split; [reflexivity |]. cbn [prop]. rewrite lookup_obj_set. reflexivity.
Qed.

(** [isAdmin], likewise. *)
Lemma isAdmin_spec (b : Backend) (sent : list Call) :
  isAdmin b sent = (inr (admin_verdict b), (sent ++ admin_requests b)%list).
Proof.
  unfold admin_verdict, admin_requests, row_admin.
  destruct (session_lookup_cases b)
    as [[Hnone [[e Hg] | [reply [Hg Hcase]]]]
       | [reply [user [Hsome [Hg [Hr [Hd [He [Hu [Hs ->]]]]]]]]]].
  - rewrite Hnone. unfold isAdmin, try_catch, bind, request. rewrite Hg. reflexivity.
  - rewrite Hnone.
    unfold isAdmin, try_catch, bind, request, get, ret, throw. rewrite Hg.
    destruct Hcase as [Hr | [[Hr Hd] | [[Hr [Hd He]] | [Hr [Hd [He Hu]]]]]];
      rewrite ?Hr, ?Hd, ?He, ?Hu; reflexivity.
  - rewrite Hsome.
    unfold isAdmin, role_from_users, try_catch, bind, request, get, ret, throw,
      users_row, metadata_admin.
    rewrite Hg, Hr, Hd, He, Hu, Hs. cbn [negb].
    set (user := prop (prop (prop reply "data") "session") "user") in *.
    destruct (is_string "admin" (optprop (prop user "user_metadata") "role"));
      [reflexivity |].
    cbn [orb]. rewrite <- !app_assoc. cbn [app].
    destruct (users_select_single b (prop user "id")) as [e | found]; [reflexivity |].
    destruct (nullish found); [reflexivity |].
    destruct (truthy (prop found "error")); [reflexivity |]. cbn [negb andb].
    destruct (truthy (prop found "data")); reflexivity.
Qed.

(** X19. [getCurrentUser] never throws and asks in a fixed order: the session
    first and once; then the row of [users], for the id of the session's
    user, exactly when the session has a user; then the update of
    [last_sign_in], for the same id, exactly when that row has been found.
    Nothing else is sent. *)
Theorem getCurrentUser_request_discipline (b : Backend) (sent : list Call) :
  exists (v : value) (later : list Call),
    getCurrentUser b sent = (inr v, (sent ++ GetSession :: later)%list)
    /\ (session_user b = None -> later = [])
    /\ (forall user, session_user b = Some user ->
          (users_row b user = None -> later = [SelectUser (prop user "id")])
          /\ (forall row, users_row b user = Some row ->
                later = [SelectUser (prop user "id"); UpdateLastSignIn (prop user "id")])).
Proof.
  destruct (getCurrentUser_spec b sent) as [v [Hrun _]].
  exists v. eexists. split; [exact Hrun |]. clear Hrun.
  destruct (session_user b) as [user |].
  2:{ split; [reflexivity | discriminate]. }
  split; [discriminate |]. intros user' [= <-].
  destruct (users_row b user) as [row |].
  - split; [discriminate | reflexivity].
  - split; [reflexivity | discriminate].
Qed.

Lemma getCurrentUser_request_discipline_witness :
  exists (v : value) (later : list Call),
    getCurrentUser sample_backend [] = (inr v, ([] ++ GetSession :: later)%list)
    /\ (session_user sample_backend = None -> later = [])
    /\ (forall user, session_user sample_backend = Some user ->
          (users_row sample_backend user = None -> later = [SelectUser (prop user "id")])
          /\ (forall row, users_row sample_backend user = Some row ->
                later = [SelectUser (prop user "id"); UpdateLastSignIn (prop user "id")])).
Proof. exact (getCurrentUser_request_discipline sample_backend []). Defined.

(** X20. [isAdmin] never throws. It answers [true] exactly when the session has
    a user and either the role in the session's metadata is ['admin'] or the
    row of [users] is read and its role is ['admin']. It reads [users] only
    when the session has a user whose metadata does not say ['admin']. *)
Theorem isAdmin_verdict (b : Backend) (sent : list Call) :
  exists (verdict : bool) (later : list Call),
    isAdmin b sent = (inr verdict, (sent ++ GetSession :: later)%list)
    /\ (verdict = true <->
        exists user, session_user b = Some user
          /\ (is_string "admin" (optprop (prop user "user_metadata") "role") = true
              \/ exists row, users_row b user = Some row
                             /\ is_string "admin" (prop row "role") = true))
    /\ (later = [] <->
        forall user, session_user b = Some user ->
          is_string "admin" (optprop (prop user "user_metadata") "role") = true)
    /\ (forall user, session_user b = Some user ->
          is_string "admin" (optprop (prop user "user_metadata") "role") = false ->
          later = [SelectUser (prop user "id")]).
Proof.
  exists (admin_verdict b). eexists. split; [exact (isAdmin_spec b sent) |].
  unfold admin_verdict, row_admin, metadata_admin.
  destruct (session_user b) as [user |].
  2:{ split; [| split].
      - split; [discriminate | intros [user [Hu _]]; discriminate].
      - split; [discriminate | reflexivity].
      - discriminate. }
  destruct (is_string "admin" (optprop (prop user "user_metadata") "role")) eqn:Hmeta.
  { cbn [orb]. split; [| split].
    - split; [eauto | reflexivity].
    - split; [intros _ user' [= <-]; exact Hmeta | reflexivity].
    - intros user' [= <-] Hno. congruence. }
  cbn [orb]. split; [| split].
  - destruct (users_row b user) as [row |] eqn:Hrow.
    + split.
      * intros Hrole. exists user. split; [reflexivity |]. right.
        exists row. split; [exact Hrow | exact Hrole].
      * intros [user' [[= <-] [Hm | [row' [Hrow' Hrole]]]]]; congruence.
    + split; [discriminate |].
      intros [user' [[= <-] [Hm | [row' [Hrow' _]]]]]; congruence.
  - split; [discriminate |]. intros Hall. specialize (Hall user eq_refl). congruence.
  - intros user' [= <-] _. reflexivity.
Qed.

Lemma isAdmin_verdict_witness :
  exists (verdict : bool) (later : list Call),
    isAdmin admin_backend [] = (inr verdict, ([] ++ GetSession :: later)%list)
    /\ (verdict = true <->
        exists user, session_user admin_backend = Some user
          /\ (is_string "admin" (optprop (prop user "user_metadata") "role") = true
              \/ exists row, users_row admin_backend user = Some row
                             /\ is_string "admin" (prop row "role") = true))
    /\ (later = [] <->
        forall user, session_user admin_backend = Some user ->
          is_string "admin" (optprop (prop user "user_metadata") "role") = true)
    /\ (forall user, session_user admin_backend = Some user ->
          is_string "admin" (optprop (prop user "user_metadata") "role") = false ->
          later = [SelectUser (prop user "id")]).
Proof. exact (isAdmin_verdict admin_backend []). Defined.

(** X21. [getAuthStatus] never throws and always answers with the five members
    of a status, [loading] being [false]. [isAuthenticated] says whether its
    own session lookup found a user; [user] is set exactly when the lookup
    of [getCurrentUser] found one too; [isAdmin] is the answer of [isAdmin]
    then and [false] otherwise. So an administrator is always authenticated
    and has a user, and a status with a user carries no error. *)
Theorem getAuthStatus_coherent (b bUser bAdmin : Backend) (sent : list Call) :
  exists (status : list (string * value)) (sent' : list Call),
    getAuthStatus b bUser bAdmin sent = (inr (Obj status), sent')
    /\ map fst status = ["isAuthenticated"; "isAdmin"; "user"; "loading"; "error"]
    /\ lookup "loading" status = Some (Bool false)
    /\ lookup "isAuthenticated" status = Some (Bool (has_user b))
    /\ lookup "isAdmin" status
       = Some (Bool (has_user b && has_user bUser && admin_verdict bAdmin))
    /\ (exists user, lookup "user" status = Some user
          /\ truthy user = has_user b && has_user bUser
          /\ (truthy user = false -> user = Null)
          /\ (truthy user = true -> lookup "error" status = Some Null)).
Proof.
  unfold has_user.
  destruct (session_lookup_cases b)
    as [[Hnone [[e Hg] | [reply [Hg Hcase]]]]
       | [reply [user [Hsome [Hg [Hr [Hd [He [Hu [Hs ->]]]]]]]]]].
  - rewrite Hnone. unfold getAuthStatus, try_catch, bind, request. rewrite Hg.
    do 2 eexists. split; [reflexivity |]. cbn.
    repeat (split; [reflexivity |]). exists Null. repeat split; discriminate.
  - rewrite Hnone.
    unfold getAuthStatus, try_catch, bind, request, get, ret, throw. rewrite Hg.
    destruct Hcase as [Hr | [[Hr Hd] | [[Hr [Hd He]] | [Hr [Hd [He Hu]]]]]];
      rewrite ?Hr, ?Hd, ?He, ?Hu; cbn [negb];
      do 2 eexists; (split; [reflexivity |]); cbn;
      repeat (split; [reflexivity |]); exists Null; repeat split; discriminate.
  - rewrite Hsome.
    unfold getAuthStatus. unfold try_catch at 1. unfold bind at 1. unfold request at 1.
    rewrite Hg. unfold bind at 1, get at 1. rewrite Hr. unfold ret at 1.
    unfold bind at 1, get at 1. rewrite Hd. unfold ret at 1.
    unfold bind at 1, get at 1. rewrite Hr. unfold ret at 1.
    rewrite He, Hu. cbn [negb]. unfold bind at 1.
    destruct (getCurrentUser_spec bUser (sent ++ [GetSession])%list)
      as [v [Hrun [Hnull Hfull]]].
    rewrite Hrun.
    destruct (session_user bUser) as [user' |].
    + destruct (Hfull user' eq_refl) as [Hv _]. rewrite Hv. cbn [negb].
      unfold bind. rewrite isAdmin_spec. unfold ret.
      do 2 eexists. split; [reflexivity |]. cbn.
      repeat (split; [reflexivity |]). exists v. rewrite Hv.
      repeat split; try reflexivity. discriminate.
    + rewrite (Hnull eq_refl). cbn [truthy negb]. unfold ret.
      do 2 eexists. split; [reflexivity |]. cbn.
      repeat (split; [reflexivity |]). exists Null. repeat split; discriminate.
Qed.

Lemma getAuthStatus_coherent_witness :
  exists (status : list (string * value)) (sent' : list Call),
    getAuthStatus admin_backend admin_backend admin_backend [] = (inr (Obj status), sent')
    /\ map fst status = ["isAuthenticated"; "isAdmin"; "user"; "loading"; "error"]
    /\ lookup "loading" status = Some (Bool false)
    /\ lookup "isAuthenticated" status = Some (Bool (has_user admin_backend))
    /\ lookup "isAdmin" status
       = Some (Bool (has_user admin_backend && has_user admin_backend
                     && admin_verdict admin_backend))
    /\ (exists user, lookup "user" status = Some user
          /\ truthy user = has_user admin_backend && has_user admin_backend
          /\ (truthy user = false -> user = Null)
          /\ (truthy user = true -> lookup "error" status = Some Null)).
Proof. exact (getAuthStatus_coherent admin_backend admin_backend admin_backend []). Defined.

(** X22. When the session is there at the lookup of [getAuthStatus] and gone at
    the lookup of [getCurrentUser], the status says authenticated without a
    user, with the error ['Could not retrieve user data']; [isAdmin] is not
    called, and [users] is not read. *)
Theorem getAuthStatus_session_lost (b bUser bAdmin : Backend) (sent : list Call)
    (user : value)
    (found : session_user b = Some user)
    (lost : session_user bUser = None) :
  getAuthStatus b bUser bAdmin sent
  = (inr (Obj [ ("isAuthenticated", Bool true);
                ("isAdmin", Bool false);
                ("user", Null);
                ("loading", Bool false);
                ("error", Str "Could not retrieve user data") ]),
     (sent ++ [GetSession; GetSession])%list).
Proof.
  destruct (session_lookup_cases b)
    as [[Hnone _] | [reply [user0 [_ [Hg [Hr [Hd [He [Hu [Hs _]]]]]]]]]];
    [congruence |].
  unfold getAuthStatus. unfold try_catch at 1. unfold bind at 1. unfold request at 1.
  rewrite Hg. unfold bind at 1, get at 1. rewrite Hr. unfold ret at 1.
  unfold bind at 1, get at 1. rewrite Hd. unfold ret at 1.
  unfold bind at 1, get at 1. rewrite Hr. unfold ret at 1.
  rewrite He, Hu. cbn [negb]. unfold bind at 1.
  destruct (getCurrentUser_spec bUser (sent ++ [GetSession])%list)
    as [v [Hrun [Hnull _]]].
  rewrite Hrun, (Hnull lost). unfold user_requests. rewrite lost.
  cbn [truthy negb]. unfold ret. rewrite <- app_assoc. reflexivity.
Qed.

Lemma getAuthStatus_session_lost_witness :
  getAuthStatus sample_backend signed_out_backend sample_backend []
  = (inr (Obj [ ("isAuthenticated", Bool true);
                ("isAdmin", Bool false);
                ("user", Null);
                ("loading", Bool false);
                ("error", Str "Could not retrieve user data") ]),
     ([] ++ [GetSession; GetSession])%list).
Proof.
  apply (getAuthStatus_session_lost sample_backend signed_out_backend sample_backend
           [] sample_user); reflexivity.
Defined.

(** X23. Without configuration the client answers every session lookup with no
    session and the error ['Supabase not configured']. Then [getCurrentUser]
    returns [null], [isAdmin] returns [false] and [getAuthStatus] returns
    the default status with that error; each sends the session lookup only
    and none throws. *)
Theorem unconfigured_client_signed_out (b bUser bAdmin : Backend) (sent : list Call)
    (unconfigured : auth_getSession b = inr SupabaseLib.mock_session_reply) :
  getCurrentUser b sent = (inr Null, (sent ++ [GetSession])%list)
  /\ isAdmin b sent = (inr false, (sent ++ [GetSession])%list)
  /\ getAuthStatus b bUser bAdmin sent
     = (inr (Obj [ ("isAuthenticated", Bool false);
                   ("isAdmin", Bool false);
                   ("user", Null);
                   ("loading", Bool false);
                   ("error", Str "Supabase not configured") ]),
        (sent ++ [GetSession])%list).
Proof.
  unfold getCurrentUser, isAdmin, getAuthStatus, try_catch, bind, request.
  rewrite unconfigured. repeat split.
Qed.

Lemma unconfigured_client_signed_out_witness :
  getCurrentUser mock_backend [] = (inr Null, ([] ++ [GetSession])%list)
  /\ isAdmin mock_backend [] = (inr false, ([] ++ [GetSession])%list)
  /\ getAuthStatus mock_backend mock_backend mock_backend []
     = (inr (Obj [ ("isAuthenticated", Bool false);
                   ("isAdmin", Bool false);
                   ("user", Null);
                   ("loading", Bool false);
                   ("error", Str "Supabase not configured") ]),
        ([] ++ [GetSession])%list).
Proof.
  apply (unconfigured_client_signed_out mock_backend mock_backend mock_backend []).
  reflexivity.
Defined.

End AuthMore.

(* ===================================================================== *)
(** ** Signing out: [logout] and the settings page *)
(* ===================================================================== *)

Section Logout.
Import Browser Auth Settings LogoutMore.

Lemma removeItem_length (k : string) (st : Storage) :
  (List.length (removeItem k st) <= List.length st)%nat.
Proof. apply filter_length_le. Qed.

Lemma removeItem_In (k : string) (st : Storage) (entry : string * string) :
  In entry (removeItem k st) <-> In entry st /\ fst entry <> k.
Proof.
  unfold removeItem. rewrite filter_In.
  destruct (String.eqb_spec (fst entry) k); cbn; intuition congruence.
Qed.

Lemma removeItem_absent (k : string) (st : Storage) :
  ~ In k (map fst st) -> removeItem k st = st.
Proof.
  induction st as [| [k' v'] st IH]; cbn; [reflexivity |].
  intros Hno. destruct (String.eqb_spec k' k) as [-> | Hne]; cbn.
  - exfalso. apply Hno. left. reflexivity.
  - f_equal. apply IH. intros Hin. apply Hno. right. exact Hin.
Qed.

(** With unique keys, [removeItem] of the key at index [i] takes out the
    entry at [i] and nothing else. *)
Lemma removeItem_at (i : nat) (st : Storage) (k : string) :
  NoDup (map fst st) -> key i st = Some k ->
  removeItem k st = (firstn i st ++ skipn (S i) st)%list.
Proof.
  unfold key. revert i.
  induction st as [| [k' v'] st IH]; intros i Hnd Hkey.
  - destruct i; discriminate.
  - inversion Hnd as [| ? ? Hnotin Hnd']; subst.
    destruct i as [| i]; cbn in Hkey.
    + injection Hkey as <-. cbn. rewrite String.eqb_refl. cbn.
      apply removeItem_absent. exact Hnotin.
    + cbn [firstn skipn app]. cbn.
      destruct (String.eqb_spec k' k) as [-> | Hne]; cbn.
      * exfalso. apply Hnotin.
        destruct (nth_error st i) as [[k0 v0] |] eqn:Hnth; [| discriminate].
        cbn in Hkey. injection Hkey as ->.
        apply nth_error_In in Hnth. exact (in_map fst _ _ Hnth).
      * f_equal. apply IH; assumption.
Qed.

Lemma removeItem_NoDup (k : string) (st : Storage) :
  NoDup (map fst st) -> NoDup (map fst (removeItem k st)).
Proof.
  induction st as [| [k' v'] st IH]; cbn; [auto |].
  intros Hnd. inversion Hnd as [| ? ? Hnotin Hnd']; subst.
  destruct (negb (k' =? k)%string); cbn; [| auto].
  constructor; [| auto].
  intros Hin. apply Hnotin. apply in_map_iff in Hin.
  destruct Hin as [entry [Hfst Hin]]. apply removeItem_In in Hin.
  apply in_map_iff. exists entry. tauto.
Qed.

Lemma key_Some (i : nat) (st : Storage) :
  (i < List.length st)%nat -> exists k v, nth_error st i = Some (k, v) /\ key i st = Some k.
Proof.
  intros Hlt. unfold key.
  destruct (nth_error st i) as [[k v] |] eqn:Hnth.
  - exists k, v. auto.
  - apply nth_error_None in Hnth. lia.
Qed.

(** The loop ends once [fuel] exceeds the entries from [i] on. *)
Lemma clear_loop_terminates (fuel i : nat) (st : Storage) :
  (List.length st - i < fuel)%nat -> exists st', clear_loop fuel i st = Some st'.
Proof.
  revert i st. induction fuel as [| fuel IH]; intros i st Hfuel; [lia |].
  cbn [clear_loop]. destruct (Nat.ltb_spec i (List.length st)) as [Hlt | Hge].
  2:{ eauto. }
  destruct (key i st) as [k |]; [| apply IH; lia].
  destruct (auth_key k); apply IH; [| lia].
  pose proof (removeItem_length k st). lia.
Qed.

(** What the loop leaves is the storage without some keys, each of which it
    looks for. *)
Lemma clear_loop_removes (fuel i : nat) (st st' : Storage) :
  clear_loop fuel i st = Some st' ->
  exists removed, all_auth_keys removed = true /\ st' = remove_all removed st.
Proof.
  revert i st. induction fuel as [| fuel IH]; intros i st Hrun; [discriminate |].
  cbn [clear_loop] in Hrun. destruct (i <? List.length st)%nat.
  2:{ injection Hrun as <-. exists []. split; reflexivity. }
  destruct (key i st) as [k |]; [| eauto].
  destruct (auth_key k) eqn:Hk; [| eauto].
  destruct (IH _ _ Hrun) as [removed [Hall ->]].
  exists (k :: removed). split; [| reflexivity].
  unfold all_auth_keys in *. cbn. rewrite Hk. exact Hall.
Qed.

Lemma remove_all_In (removed : list string) (st : Storage) (entry : string * string) :
  In entry (remove_all removed st) <-> In entry st /\ ~ In (fst entry) removed.
Proof.
  unfold remove_all. revert st.
  induction removed as [| k removed IH]; intros st; cbn [fold_left].
  - cbn. tauto.
  - rewrite IH, removeItem_In. cbn. intuition congruence.
Qed.

(** With unique keys the loop leaves the entries before [i] where they
    are. *)
Lemma clear_loop_prefix (fuel i : nat) (st st' : Storage) :
  NoDup (map fst st) -> clear_loop fuel i st = Some st' ->
  firstn i st' = firstn i st.
Proof.
  revert i st. induction fuel as [| fuel IH]; intros i st Hnd Hrun; [discriminate |].
  cbn [clear_loop] in Hrun. destruct (Nat.ltb_spec i (List.length st)) as [Hlt | Hge].
  2:{ injection Hrun as <-. reflexivity. }
  assert (Hcut : forall s : Storage, firstn (S i) st' = firstn (S i) s ->
                                     firstn i st' = firstn i s).
  { intros s Heq.
    assert (Hmin : forall X : Storage, firstn i X = firstn i (firstn (S i) X)).
    { intros X. rewrite firstn_firstn. f_equal. lia. }
    rewrite (Hmin st'), (Hmin s), Heq. reflexivity. }
  destruct (key_Some i st Hlt) as [k [v [Hnth Hkey]]]. rewrite Hkey in Hrun.
  destruct (auth_key k).
  - rewrite (Hcut _ (IH _ _ (removeItem_NoDup k st Hnd) Hrun)).
    rewrite (removeItem_at i st k Hnd Hkey).
    rewrite firstn_app, firstn_firstn, Nat.min_id, length_firstn.
    replace (i - Nat.min i (List.length st))%nat with 0%nat by lia.
    cbn [firstn]. apply app_nil_r.
  - exact (Hcut _ (IH _ _ Hnd Hrun)).
Qed.

(** Passing over entries that the loop does not look for. *)
Lemma clear_loop_passes (n : nat) : forall (fuel i : nat) (st st' : Storage),
  clear_loop fuel i st = Some st' ->
  (forall j, (i <= j < i + n)%nat -> exists k, key j st = Some k /\ auth_key k = false) ->
  exists fuel', clear_loop fuel' (i + n) st = Some st'.
Proof.
  induction n as [| n IH]; intros fuel i st st' Hrun Hpass.
  - exists fuel. rewrite Nat.add_0_r. exact Hrun.
  - destruct fuel as [| fuel]; [discriminate |]. cbn [clear_loop] in Hrun.
    destruct (Hpass i ltac:(lia)) as [k [Hkey Hk]].
    assert (Hlt : (i < List.length st)%nat).
    { unfold key in Hkey. destruct (nth_error st i) eqn:Hnth; [| discriminate].
      apply nth_error_Some. congruence. }
    apply Nat.ltb_lt in Hlt. rewrite Hlt, Hkey, Hk in Hrun.
    replace (i + S n)%nat with (S i + n)%nat by lia.
    apply (IH fuel (S i) st st' Hrun).
    intros j Hj. apply Hpass. lia.
Qed.

Lemma cut_at (before rest : Storage) (entry : string * string) :
  (firstn (List.length before) (before ++ entry :: rest)
   ++ skipn (S (List.length before)) (before ++ entry :: rest))%list
  = (before ++ rest)%list.
Proof. induction before as [| e before IH]; cbn; [reflexivity | f_equal; exact IH]. Qed.

Lemma firstn_S_app (before rest : Storage) (entry : string * string) :
  firstn (S (List.length before)) (before ++ entry :: rest) = (before ++ [entry])%list.
Proof.
  induction before as [| e before IH]; cbn [List.length app firstn]; [reflexivity |].
  f_equal. exact IH.
Qed.

(** [logout] when the sign-out succeeds, by what the loop does. *)
Lemma logout_signed_out (fuel : nat) (blocked : option exn) (st : Storage) :
  (List.length st < fuel)%nat ->
  exists st',
    logout fuel (inr None) blocked st = (inr (Some true), st')
    /\ match blocked with
       | Some _ => st' = st
       | None => clear_loop fuel 0 st = Some st'
       end.
Proof.
  intros Hfuel. unfold logout, try_catch, bind, clear_auth_keys, ret.
  destruct blocked as [e |]; [eauto |].
  destruct (clear_loop_terminates fuel 0 st ltac:(lia)) as [st' Hrun].
  rewrite Hrun. eauto.
Qed.

(** X24. When the sign-out succeeds, [logout] returns [true], also when
    localStorage cannot be read, which leaves it as it was. Otherwise it
    leaves the storage without some of the keys that contain ['supabase'] or
    ['sb-']: every other entry stays, in its place, and nothing is added. *)
Theorem logout_removes_only_auth_keys (fuel : nat) (blocked : option exn) (st : Storage)
    (enough : (List.length st < fuel)%nat) :
  exists (st' : Storage) (removed : list string),
    logout fuel (inr None) blocked st = (inr (Some true), st')
    /\ forallb auth_key removed = true
    /\ st' = fold_left (fun s k => removeItem k s) removed st
    /\ (blocked <> None -> st' = st)
    /\ (forall entry, In entry st' -> In entry st)
    /\ (forall entry, In entry st -> auth_key (fst entry) = false -> In entry st').
Proof.
  destruct (logout_signed_out fuel blocked st enough) as [st' [Hrun Hst]].
  assert (Hrem : exists removed, all_auth_keys removed = true /\ st' = remove_all removed st).
  { destruct blocked as [e |].
    - exists []. split; [reflexivity | exact Hst].
    - exact (clear_loop_removes _ _ _ _ Hst). }
  destruct Hrem as [removed [Hall Heq]].
  exists st', removed. split; [exact Hrun |]. split; [exact Hall |].
  split; [exact Heq |]. split; [| split].
  - destruct blocked; [auto | congruence].
  - intros entry Hin. rewrite Heq in Hin. apply remove_all_In in Hin. tauto.
  - intros entry Hin Hk. rewrite Heq. apply remove_all_In. split; [exact Hin |].
    intros Hrem. unfold all_auth_keys in Hall. rewrite forallb_forall in Hall.
    rewrite (Hall _ Hrem) in Hk. discriminate.
Qed.

Lemma logout_removes_only_auth_keys_witness :
  exists (st' : Storage) (removed : list string),
    logout 5 (inr None) None two_tokens = (inr (Some true), st')
    /\ forallb auth_key removed = true
    /\ st' = fold_left (fun s k => removeItem k s) removed two_tokens
    /\ (@None exn <> None -> st' = two_tokens)
    /\ (forall entry, In entry st' -> In entry two_tokens)
    /\ (forall entry, In entry two_tokens -> auth_key (fst entry) = false -> In entry st').
Proof. apply (logout_removes_only_auth_keys 5 None two_tokens). cbn. lia. Defined.

(** X25. The loop of [logout] goes on to the next index after removing an
    entry, so (keys being unique, and a removal keeping the order of the
    other entries) the entry that followed the first removed one moves into
    the index just visited and is never looked at: it stays in localStorage,
    whatever its key. *)
Theorem logout_skips_entry_after_removed_key (fuel : nat) (before after : Storage)
    (k1 v1 k2 v2 : string)
    (unique : NoDup (map fst (before ++ (k1, v1) :: (k2, v2) :: after)))
    (kept : forallb (fun entry => negb (auth_key (fst entry))) before = true)
    (found : auth_key k1 = true)
    (enough : (List.length (before ++ (k1, v1) :: (k2, v2) :: after) < fuel)%nat) :
  exists st',
    logout fuel (inr None) None (before ++ (k1, v1) :: (k2, v2) :: after)%list
    = (inr (Some true), st')
    /\ firstn (S (List.length before)) st' = (before ++ [(k2, v2)])%list
    /\ In (k2, v2) st'.
Proof.
  set (st := (before ++ (k1, v1) :: (k2, v2) :: after)%list) in *.
  destruct (logout_signed_out fuel None st enough) as [st' [Hrun Hloop]].
  exists st'. split; [exact Hrun |].
  assert (Hfirst : firstn (S (List.length before)) st' = (before ++ [(k2, v2)])%list).
  { destruct (clear_loop_passes (List.length before) fuel 0 st st' Hloop) as [fuel' Hrest].
    { intros j Hj. rewrite forallb_forall in kept.
      destruct (nth_error before j) as [[k v] |] eqn:Hnth.
      2:{ apply nth_error_None in Hnth. lia. }
      exists k. unfold key, st. rewrite nth_error_app1 by lia. rewrite Hnth.
      split; [reflexivity |].
      apply nth_error_In in Hnth. specialize (kept _ Hnth). cbn in kept.
      destruct (auth_key k); [discriminate | reflexivity]. }
    cbn [Nat.add] in Hrest.
    assert (Hkey : key (List.length before) st = Some k1).
    { unfold key, st. rewrite nth_error_app2 by lia. rewrite Nat.sub_diag. reflexivity. }
    destruct fuel' as [| fuel']; [discriminate |]. cbn [clear_loop] in Hrest.
    assert (Hlt : (List.length before <? List.length st)%nat = true).
    { apply Nat.ltb_lt. unfold st. rewrite length_app. cbn. lia. }
    rewrite Hlt, Hkey, found in Hrest.
    rewrite (clear_loop_prefix _ _ _ _ (removeItem_NoDup k1 st unique) Hrest).
    rewrite (removeItem_at _ st k1 unique Hkey).
    unfold st. rewrite cut_at. apply firstn_S_app. }
  split; [exact Hfirst |].
  rewrite <- (firstn_skipn (S (List.length before)) st'), Hfirst.
  apply in_or_app. left. apply in_or_app. right. left. reflexivity.
Qed.

Lemma logout_skips_entry_after_removed_key_witness :
  exists st',
    logout 5 (inr None) None two_tokens = (inr (Some true), st')
    /\ firstn 2 st' = [ ("theme", "dark"); ("supabase.auth.token", "t2") ]
    /\ In ("supabase.auth.token", "t2") st'.
Proof.
  apply (logout_skips_entry_after_removed_key 5
           [ ("theme", "dark") ] [ ("fb_auth_state", "s") ]
           "sb-project-auth-token" "t1" "supabase.auth.token" "t2").
  - cbn. repeat constructor; cbn; intuition discriminate.
  - reflexivity.
  - reflexivity.
  - cbn. lia.
Defined.

(** X26. [handleSignOut] sends the window to ['/auth'] exactly when the sign-out
    reports no error and does not throw; localStorage being unreadable does
    not matter. Otherwise it stays, sets the error ['Failed to sign out'] and
    leaves localStorage as it was. It never throws. *)
Theorem handleSignOut_outcome (fuel : nat) (settles : SupabaseLib.SignOut)
    (blocked : option exn) (p : Page)
    (enough : (List.length (storage p) < fuel)%nat) :
  exists p',
    handleSignOut fuel settles blocked p = (inr (Some tt), p')
    /\ loading p' = loading p
    /\ match settles with
       | inr None =>
           href p' = Some "/auth" /\ error p' = error p
           /\ logout fuel settles blocked (storage p) = (inr (Some true), storage p')
       | _ =>
           href p' = href p /\ error p' = Some "Failed to sign out"
           /\ storage p' = storage p
       end.
Proof.
  destruct settles as [e | [e |]].
  - eexists. split; [reflexivity |]. cbn. auto.
  - eexists. split; [reflexivity |]. cbn. auto.
  - destruct (logout_signed_out fuel blocked (storage p) enough) as [st' [Hrun _]].
    unfold handleSignOut, try_catch, bind, on_storage. rewrite Hrun.
    eexists. split; [reflexivity |]. cbn. auto.
Qed.

Lemma handleSignOut_outcome_witness :
  exists p',
    handleSignOut 5 (inr (Some (Error "session_not_found"))) None (settings_page two_tokens)
    = (inr (Some tt), p')
    /\ loading p' = loading (settings_page two_tokens)
    /\ href p' = href (settings_page two_tokens) /\ error p' = Some "Failed to sign out"
    /\ storage p' = storage (settings_page two_tokens).
Proof.
  apply (handleSignOut_outcome 5 (inr (Some (Error "session_not_found"))) None
           (settings_page two_tokens)).
  cbn. lia.
Defined.

(** X27. [handleRetryAuthentication] sends the window to ['/auth'] exactly when
    the sign-out does not throw and localStorage can be read: an error that
    the sign-out reports is ignored. It then leaves [loading] set and the
    error cleared. Otherwise it stays, with [loading] reset, its own error
    message, and localStorage as it was. It never throws. *)
Theorem handleRetryAuthentication_outcome (fuel : nat) (settles : SupabaseLib.SignOut)
    (blocked : option exn) (p : Page)
    (enough : (List.length (storage p) < fuel)%nat) :
  exists p',
    handleRetryAuthentication fuel settles blocked p = (inr (Some tt), p')
    /\ match settles, blocked with
       | inr _, None =>
           href p' = Some "/auth" /\ loading p' = true /\ error p' = None
           /\ clear_loop fuel 0 (storage p) = Some (storage p')
       | _, _ =>
           href p' = href p /\ loading p' = false
           /\ error p' = Some "Failed to reset authentication. Please try reloading the page."
           /\ storage p' = storage p
       end.
Proof.
  destruct settles as [e | reply].
  - eexists. split; [reflexivity |]. cbn. auto.
  - destruct blocked as [e |].
    + eexists. split; [reflexivity |]. cbn. auto.
    + destruct (clear_loop_terminates fuel 0 (storage p) ltac:(lia)) as [st' Hrun].
      unfold handleRetryAuthentication, try_catch, bind, on_storage, clear_auth_keys,
        setLoading, setError.
      cbn [storage href loading error]. rewrite Hrun.
      eexists. split; [reflexivity |]. cbn. auto.
Qed.

Lemma handleRetryAuthentication_outcome_witness :
  exists p',
    handleRetryAuthentication 5 (inr (Some (Error "session_not_found"))) None
      (settings_page two_tokens)
    = (inr (Some tt), p')
    /\ href p' = Some "/auth" /\ loading p' = true /\ error p' = None
    /\ clear_loop 5 0 (storage (settings_page two_tokens)) = Some (storage p').
Proof.
  apply (handleRetryAuthentication_outcome 5 (inr (Some (Error "session_not_found"))) None
           (settings_page two_tokens)).
  cbn. lia.
Defined.

End Logout.

(* ===================================================================== *)
(** ** The debug logs *)
(* ===================================================================== *)

Section DebugLogs.
Import DebugLog.

Lemma slice_from_end_length {A} (n : nat) (xs : list A) :
  List.length (slice_from_end (S n) xs) = Nat.min (S n) (List.length xs).
Proof. unfold slice_from_end. rewrite length_skipn. lia. Qed.

(** Appending and then keeping [n + 1] is keeping [n] and then appending. *)
Lemma slice_from_end_snoc {A} (n : nat) (xs : list A) (x : A) :
  slice_from_end (S (S n)) (xs ++ [x]) = (slice_from_end (S n) xs ++ [x])%list.
Proof.
  unfold slice_from_end. rewrite length_app. cbn [List.length].
  replace (List.length xs + 1 - S (S n))%nat with (List.length xs - S n)%nat by lia.
  rewrite skipn_app.
  replace (List.length xs - S n - List.length xs)%nat with 0%nat by lia.
  reflexivity.
Qed.

Lemma slice_from_end_twice {A} (n m : nat) (xs : list A) :
  (n <= m)%nat ->
  slice_from_end (S n) (slice_from_end (S m) xs) = slice_from_end (S n) xs.
Proof.
  intros Hle. unfold slice_from_end. rewrite skipn_skipn, length_skipn.
  f_equal. lia.
Qed.

(** A log that is cut to [n + 2] after every message holds the last
    [n + 2] of all the messages. *)
Lemma cut_log_fold {A} (n : nat) (add : A -> list A -> list A) :
  (forall x prev, add x prev = slice_from_end (S (S n)) (prev ++ [x])) ->
  forall (xs init : list A),
    fold_left (fun prev x => add x prev) xs (slice_from_end (S (S n)) init)
    = slice_from_end (S (S n)) (init ++ xs).
Proof.
  intros Hadd xs. induction xs as [| x xs IH]; intros init.
  - rewrite app_nil_r. reflexivity.
  - cbn [fold_left]. rewrite Hadd.
    rewrite slice_from_end_snoc, slice_from_end_twice by lia.
    rewrite <- slice_from_end_snoc, IH, <- app_assoc. reflexivity.
Qed.

Lemma fold_left_through_map {A B C} (f : C -> B -> C) (g : A -> B) (xs : list A) (init : C) :
  fold_left (fun c a => f c (g a)) xs init = fold_left f (map g xs) init.
Proof. revert init. induction xs as [| x xs IH]; intros init; cbn; auto. Qed.

Lemma app_debugInfo_log (messages : list string) :
  App.debugInfo messages = slice_from_end 10 messages.
Proof.
  unfold App.debugInfo.
  apply (cut_log_fold 8 App.addDebugInfo) with (init := @nil string).
  intros x prev. unfold App.addDebugInfo. symmetry. apply slice_from_end_snoc.
Qed.

(** X28. The debug log of the application always holds the ten most recent
    messages, oldest first, and all of them while there are at most ten. *)
Theorem app_debugInfo_last_ten (messages : list string) :
  App.debugInfo messages = slice_from_end 10 messages
  /\ List.length (App.debugInfo messages) = Nat.min 10 (List.length messages)
  /\ ((List.length messages <= 10)%nat -> App.debugInfo messages = messages)
  /\ forall earlier message,
       messages = (earlier ++ [message])%list ->
       last (App.debugInfo messages) ""%string = message.
Proof.
  rewrite (app_debugInfo_log messages). split; [reflexivity |]. split; [apply slice_from_end_length |]. split.
  - intros Hle. unfold slice_from_end.
    replace (List.length messages - 10)%nat with 0%nat by lia. reflexivity.
  - intros earlier message ->. rewrite slice_from_end_snoc. apply last_last.
Qed.

(** X29. The debug log of the sign-in page holds the ten most recent messages
    too, each behind the time of day it was added at: its updater, which
    appends and then cuts, does the same as the one of the application,
    which cuts and then appends. *)
Theorem auth_debugInfo_last_ten (entries : list (string * string)) :
  AuthPage.debugInfo entries
  = slice_from_end 10 (map (fun entry => AuthPage.stamped (fst entry) (snd entry)) entries)
  /\ AuthPage.debugInfo entries
     = App.debugInfo (map (fun entry => AuthPage.stamped (fst entry) (snd entry)) entries)
  /\ (List.length (AuthPage.debugInfo entries) <= 10)%nat.
Proof.
  set (texts := map (fun entry => AuthPage.stamped (fst entry) (snd entry)) entries).
  assert (Hlog : AuthPage.debugInfo entries = slice_from_end 10 texts).
  { unfold AuthPage.debugInfo, texts.
    etransitivity;
      [exact (fold_left_through_map
                (fun prev x => slice_from_end 10 (prev ++ [x]))
                (fun entry => AuthPage.stamped (fst entry) (snd entry)) entries []) |].
    apply (cut_log_fold 8 (fun x prev => slice_from_end 10 (prev ++ [x])))
      with (init := @nil string).
    reflexivity. }
  split; [exact Hlog |]. split.
  - rewrite Hlog. symmetry. apply app_debugInfo_log.
  - rewrite Hlog, slice_from_end_length. lia.
Qed.

End DebugLogs.
